(** * TaskService of spiffworkflow-backend: a shallow embedding

    The development follows
    [spiffworkflow_backend/services/task_service.py].  Python objects
    become records, the dictionaries the service keeps for one pass
    become finite maps, exceptions become an error result, and the
    collaborators the service only calls (hashlib, the json string
    encoder, the SpiffWorkflow engine and its serializer, the wall clock)
    are the fields of one record, [Collaborators]. *)

From Stdlib Require Import ZArith Lia.
From stdpp Require Import base strings list gmap sorting pretty.

Set Warnings "-register-all".
Local Open Scope Z_scope.
Local Open Scope string_scope.
Local Open Scope list_scope.

(** ** JSON payloads *)

(** The documents handed to [json.dumps]: task data, workflow data and the
    python environment state.  A [dict] keeps its items in insertion
    order, so it is an association list; its keys are strings.  The type
    holds documents that [json.dumps] serializes, and of those the ones
    without floats; the [TypeError] that [json.dumps] raises for an
    object it cannot serialize has no counterpart here, so nothing below
    says that [TypeError] is not raised where a payload is hashed. *)
Inductive json : Type :=
| JNull
| JBool (b : bool)
| JInt (n : Z)
| JStr (s : string)
| JList (items : list json)
| JDict (entries : list (string * json)).

(** The empty payload [{}]. *)
Definition empty_dict : json := JDict [].

Section json_induction.
Variable P : json → Prop.
Hypothesis Hnull : P JNull.
Hypothesis Hbool : ∀ b, P (JBool b).
Hypothesis Hint : ∀ n, P (JInt n).
Hypothesis Hstr : ∀ s, P (JStr s).
Hypothesis Hlist : ∀ items, Forall P items → P (JList items).
Hypothesis Hdict : ∀ entries, Forall (λ kv, P kv.2) entries → P (JDict entries).

Fixpoint json_nested_ind (j : json) : P j :=
  match j with
  | JNull => Hnull
  | JBool b => Hbool b
  | JInt n => Hint n
  | JStr s => Hstr s
  | JList items =>
      Hlist items
        ((fix go (l : list json) : Forall P l :=
            match l with
            | [] => Forall_nil_2 P
            | x :: l' => Forall_cons_2 P x l' (json_nested_ind x) (go l')
            end) items)
  | JDict entries =>
      Hdict entries
        ((fix go (l : list (string * json)) : Forall (λ kv, P kv.2) l :=
            match l with
            | [] => Forall_nil_2 _
            | kv :: l' =>
                Forall_cons_2 (λ kv, P kv.2) kv l'
                  (json_nested_ind kv.2) (go l')
            end) entries)
  end.
End json_induction.

(** Every dict of a payload has pairwise distinct keys, as every Python
    dict has. *)
Inductive dict_keys_unique : json → Prop :=
| dku_null : dict_keys_unique JNull
| dku_bool b : dict_keys_unique (JBool b)
| dku_int n : dict_keys_unique (JInt n)
| dku_str s : dict_keys_unique (JStr s)
| dku_list items :
    Forall dict_keys_unique items → dict_keys_unique (JList items)
| dku_dict entries :
    NoDup entries.*1 →
    Forall (λ kv, dict_keys_unique kv.2) entries →
    dict_keys_unique (JDict entries).

(** Structural equality of payloads: the same document, where the items
    of a dict may have been inserted in another order. *)
Inductive same_payload : json → json → Prop :=
| sp_null : same_payload JNull JNull
| sp_bool b : same_payload (JBool b) (JBool b)
| sp_int n : same_payload (JInt n) (JInt n)
| sp_str s : same_payload (JStr s) (JStr s)
| sp_list l1 l2 :
    Forall2 same_payload l1 l2 → same_payload (JList l1) (JList l2)
| sp_dict kvs1 kvs kvs2 :
    kvs1 ≡ₚ kvs →
    Forall2 (λ a b, a.1 = b.1 ∧ same_payload a.2 b.2) kvs kvs2 →
    same_payload (JDict kvs1) (JDict kvs2).

(** ** Order on dict keys *)

(** [sorted()] compares keys as Python compares [str]: lexicographically
    by code point. *)
Definition key_le (a b : string * string) : Prop :=
  String.leb a.1 b.1 = true.

Global Instance key_le_dec a b : Decision (key_le a b).
Proof. unfold key_le. apply _. Defined.

(** ** Exceptions *)

Inductive exception : Type :=
| BpmnProcessNotFoundError
| KeyError
| AttributeError
| TypeError.

Inductive result (A : Type) : Type :=
| Ok (a : A)
| Raise (e : exception).
Arguments Ok {A} a.
Arguments Raise {A} e.

Global Instance exception_eq_dec : EqDecision exception.
Proof. solve_decision. Defined.

(** ** The models *)

(** [properties_json] of a task: what [serializer.task_to_dict] returns,
    once its ["data"] has been popped. *)
Record TaskProperties : Type := {
  tp_parent : option string;
  tp_children : list string;
  tp_state : Z;
  tp_task_spec : string;
}.

(** [TaskModel].  Times are the DECIMAL(17,6) columns, counted in
    microseconds.  [tm_instance_attributes] holds what [setattr] has
    bound on the object under a name that is not a column. *)
Record TaskModel : Type := {
  tm_guid : string;
  tm_bpmn_process_id : option Z;
  tm_process_instance_id : Z;
  tm_task_definition_id : Z;
  tm_state : option string;
  tm_properties_json : option TaskProperties;
  tm_json_data_hash : option string;
  tm_python_env_data_hash : option string;
  tm_start_in_seconds : option Z;
  tm_end_in_seconds : option Z;
  tm_instance_attributes : gmap string string;
}.

(** [properties_json] of a process: the serialized workflow without its
    tasks, data, subprocesses and specs. *)
Record ProcessProperties : Type := {
  pp_root : option string;
  pp_last_task : option string;
  pp_success : bool;
  pp_others : list (string * json);
}.

(** [BpmnProcessModel].  [bp_id] is [None] until the object has been
    added to the session. *)
Record BpmnProcessModel : Type := {
  bp_id : option Z;
  bp_guid : option string;
  bp_top_level_process_id : option Z;
  bp_direct_parent_process_id : option Z;
  bp_bpmn_process_definition_id : option Z;
  bp_properties_json : option ProcessProperties;
  bp_json_data_hash : option string;
}.

Record TaskDefinitionModel : Type := {
  td_id : Z;
  td_typename : string;
}.

Record ProcessInstanceModel : Type := {
  pi_id : Z;
  pi_bpmn_process_id : option Z;
}.

(** [JsonDataDict] *)
Record JsonDataDict : Type := {
  jd_hash : string;
  jd_data : json;
}.

(** Modelled from the spec: [ProcessInstanceEventModel], built by
    [ProcessInstanceTmpService.add_event_to_process_instance], which is
    not part of these sources.  The spec gives a lifecycle event a task
    guid, an event type and a timestamp. *)
Record ProcessInstanceEventModel : Type := {
  ev_process_instance_id : Z;
  ev_event_type : string;
  ev_task_guid : string;
  ev_timestamp : Z;
}.

(** [StartAndEndTimes] *)
Record StartAndEndTimes : Type := {
  start_in_seconds : option Z;
  end_in_seconds : option Z;
}.

(** ** The live task tree of the engine *)

(** A [BpmnWorkflow].  [wf_ref] stands for the identity of the object:
    [==] on workflows compares it.  [wf_outer] is [None] for the workflow
    that is its own [outer_workflow]. *)
Inductive BpmnWorkflow : Type := mkBpmnWorkflow {
  wf_ref : nat;
  wf_spec_name : string;
  wf_data : json;
  wf_last_task : option string;
  wf_success : bool;
  wf_outer : option BpmnWorkflow;
}.

(** Induction along the outer workflows. *)
Section workflow_induction.
Variable P : BpmnWorkflow → Prop.
Hypothesis Htop : ∀ ref spec data last ok, P (mkBpmnWorkflow ref spec data last ok None).
Hypothesis Hnested :
  ∀ ref spec data last ok outer,
    P outer → P (mkBpmnWorkflow ref spec data last ok (Some outer)).

Fixpoint BpmnWorkflow_outer_ind (wf : BpmnWorkflow) : P wf :=
  match wf with
  | mkBpmnWorkflow ref spec data last ok None => Htop ref spec data last ok
  | mkBpmnWorkflow ref spec data last ok (Some outer) =>
      Hnested ref spec data last ok outer (BpmnWorkflow_outer_ind outer)
  end.
End workflow_induction.

(** A [SpiffTask] with the subtree below it.  [st_parent] is
    [str(task.parent.id)], [None] for a task without parent. *)
Inductive SpiffTask : Type := mkSpiffTask {
  st_id : string;
  st_parent : option string;
  st_state : Z;
  st_task_spec : string;
  st_data : json;
  st_workflow : BpmnWorkflow;
  st_children : list SpiffTask;
}.

(** Induction on a task with the tasks below it. *)
Section task_induction.
Variable P : SpiffTask → Prop.
Hypothesis Htask :
  ∀ id parent state spec data wf children,
    Forall P children → P (mkSpiffTask id parent state spec data wf children).

Fixpoint SpiffTask_nested_ind (t : SpiffTask) : P t :=
  match t with
  | mkSpiffTask id parent state spec data wf children =>
      Htask id parent state spec data wf children
        ((fix go (l : list SpiffTask) : Forall P l :=
            match l with
            | [] => Forall_nil_2 P
            | c :: l' => Forall_cons_2 P c l' (SpiffTask_nested_ind c) (go l')
            end) children)
  end.
End task_induction.

(** What [serializer.workflow_to_dict] returns: the tasks by id in the
    order of the dict, the data, and the remaining keys. *)
Record WorkflowDict : Type := {
  wd_tasks : list (string * TaskProperties);
  wd_data : json;
  wd_properties : ProcessProperties;
}.

(** ** Assignments to the fields of a model *)

Definition tm_with_properties_json (v : option TaskProperties) (tm : TaskModel) : TaskModel :=
  {| tm_guid := tm_guid tm; tm_bpmn_process_id := tm_bpmn_process_id tm;
     tm_process_instance_id := tm_process_instance_id tm;
     tm_task_definition_id := tm_task_definition_id tm;
     tm_state := tm_state tm; tm_properties_json := v;
     tm_json_data_hash := tm_json_data_hash tm;
     tm_python_env_data_hash := tm_python_env_data_hash tm;
     tm_start_in_seconds := tm_start_in_seconds tm;
     tm_end_in_seconds := tm_end_in_seconds tm;
     tm_instance_attributes := tm_instance_attributes tm |}.

Definition tm_with_state (v : option string) (tm : TaskModel) : TaskModel :=
  {| tm_guid := tm_guid tm; tm_bpmn_process_id := tm_bpmn_process_id tm;
     tm_process_instance_id := tm_process_instance_id tm;
     tm_task_definition_id := tm_task_definition_id tm;
     tm_state := v; tm_properties_json := tm_properties_json tm;
     tm_json_data_hash := tm_json_data_hash tm;
     tm_python_env_data_hash := tm_python_env_data_hash tm;
     tm_start_in_seconds := tm_start_in_seconds tm;
     tm_end_in_seconds := tm_end_in_seconds tm;
     tm_instance_attributes := tm_instance_attributes tm |}.

Definition tm_with_json_data_hash (v : option string) (tm : TaskModel) : TaskModel :=
  {| tm_guid := tm_guid tm; tm_bpmn_process_id := tm_bpmn_process_id tm;
     tm_process_instance_id := tm_process_instance_id tm;
     tm_task_definition_id := tm_task_definition_id tm;
     tm_state := tm_state tm; tm_properties_json := tm_properties_json tm;
     tm_json_data_hash := v;
     tm_python_env_data_hash := tm_python_env_data_hash tm;
     tm_start_in_seconds := tm_start_in_seconds tm;
     tm_end_in_seconds := tm_end_in_seconds tm;
     tm_instance_attributes := tm_instance_attributes tm |}.

Definition tm_with_python_env_data_hash (v : option string) (tm : TaskModel) : TaskModel :=
  {| tm_guid := tm_guid tm; tm_bpmn_process_id := tm_bpmn_process_id tm;
     tm_process_instance_id := tm_process_instance_id tm;
     tm_task_definition_id := tm_task_definition_id tm;
     tm_state := tm_state tm; tm_properties_json := tm_properties_json tm;
     tm_json_data_hash := tm_json_data_hash tm;
     tm_python_env_data_hash := v;
     tm_start_in_seconds := tm_start_in_seconds tm;
     tm_end_in_seconds := tm_end_in_seconds tm;
     tm_instance_attributes := tm_instance_attributes tm |}.

Definition tm_with_times (s e : option Z) (tm : TaskModel) : TaskModel :=
  {| tm_guid := tm_guid tm; tm_bpmn_process_id := tm_bpmn_process_id tm;
     tm_process_instance_id := tm_process_instance_id tm;
     tm_task_definition_id := tm_task_definition_id tm;
     tm_state := tm_state tm; tm_properties_json := tm_properties_json tm;
     tm_json_data_hash := tm_json_data_hash tm;
     tm_python_env_data_hash := tm_python_env_data_hash tm;
     tm_start_in_seconds := s;
     tm_end_in_seconds := e;
     tm_instance_attributes := tm_instance_attributes tm |}.

Definition tm_with_instance_attributes (v : gmap string string) (tm : TaskModel) : TaskModel :=
  {| tm_guid := tm_guid tm; tm_bpmn_process_id := tm_bpmn_process_id tm;
     tm_process_instance_id := tm_process_instance_id tm;
     tm_task_definition_id := tm_task_definition_id tm;
     tm_state := tm_state tm; tm_properties_json := tm_properties_json tm;
     tm_json_data_hash := tm_json_data_hash tm;
     tm_python_env_data_hash := tm_python_env_data_hash tm;
     tm_start_in_seconds := tm_start_in_seconds tm;
     tm_end_in_seconds := tm_end_in_seconds tm;
     tm_instance_attributes := v |}.

Definition tp_with_parent (v : option string) (p : TaskProperties) : TaskProperties :=
  {| tp_parent := v; tp_children := tp_children p;
     tp_state := tp_state p; tp_task_spec := tp_task_spec p |}.

Definition tp_with_children (v : list string) (p : TaskProperties) : TaskProperties :=
  {| tp_parent := tp_parent p; tp_children := v;
     tp_state := tp_state p; tp_task_spec := tp_task_spec p |}.

Definition tp_with_state (v : Z) (p : TaskProperties) : TaskProperties :=
  {| tp_parent := tp_parent p; tp_children := tp_children p;
     tp_state := v; tp_task_spec := tp_task_spec p |}.

Definition pp_with_root (v : option string) (p : ProcessProperties) : ProcessProperties :=
  {| pp_root := v; pp_last_task := pp_last_task p;
     pp_success := pp_success p; pp_others := pp_others p |}.

Definition pp_with_last_task_and_success (l : option string) (ok : bool)
    (p : ProcessProperties) : ProcessProperties :=
  {| pp_root := pp_root p; pp_last_task := l;
     pp_success := ok; pp_others := pp_others p |}.

Definition bp_with_id (v : option Z) (b : BpmnProcessModel) : BpmnProcessModel :=
  {| bp_id := v; bp_guid := bp_guid b;
     bp_top_level_process_id := bp_top_level_process_id b;
     bp_direct_parent_process_id := bp_direct_parent_process_id b;
     bp_bpmn_process_definition_id := bp_bpmn_process_definition_id b;
     bp_properties_json := bp_properties_json b;
     bp_json_data_hash := bp_json_data_hash b |}.

Definition bp_with_top_level_process_id (v : option Z) (b : BpmnProcessModel) : BpmnProcessModel :=
  {| bp_id := bp_id b; bp_guid := bp_guid b;
     bp_top_level_process_id := v;
     bp_direct_parent_process_id := bp_direct_parent_process_id b;
     bp_bpmn_process_definition_id := bp_bpmn_process_definition_id b;
     bp_properties_json := bp_properties_json b;
     bp_json_data_hash := bp_json_data_hash b |}.

Definition bp_with_direct_parent_process_id (v : option Z) (b : BpmnProcessModel) : BpmnProcessModel :=
  {| bp_id := bp_id b; bp_guid := bp_guid b;
     bp_top_level_process_id := bp_top_level_process_id b;
     bp_direct_parent_process_id := v;
     bp_bpmn_process_definition_id := bp_bpmn_process_definition_id b;
     bp_properties_json := bp_properties_json b;
     bp_json_data_hash := bp_json_data_hash b |}.

Definition bp_with_bpmn_process_definition_id (v : option Z) (b : BpmnProcessModel) : BpmnProcessModel :=
  {| bp_id := bp_id b; bp_guid := bp_guid b;
     bp_top_level_process_id := bp_top_level_process_id b;
     bp_direct_parent_process_id := bp_direct_parent_process_id b;
     bp_bpmn_process_definition_id := v;
     bp_properties_json := bp_properties_json b;
     bp_json_data_hash := bp_json_data_hash b |}.

Definition bp_with_properties_json (v : option ProcessProperties) (b : BpmnProcessModel) : BpmnProcessModel :=
  {| bp_id := bp_id b; bp_guid := bp_guid b;
     bp_top_level_process_id := bp_top_level_process_id b;
     bp_direct_parent_process_id := bp_direct_parent_process_id b;
     bp_bpmn_process_definition_id := bp_bpmn_process_definition_id b;
     bp_properties_json := v;
     bp_json_data_hash := bp_json_data_hash b |}.

Definition bp_with_json_data_hash (v : option string) (b : BpmnProcessModel) : BpmnProcessModel :=
  {| bp_id := bp_id b; bp_guid := bp_guid b;
     bp_top_level_process_id := bp_top_level_process_id b;
     bp_direct_parent_process_id := bp_direct_parent_process_id b;
     bp_bpmn_process_definition_id := bp_bpmn_process_definition_id b;
     bp_properties_json := bp_properties_json b;
     bp_json_data_hash := v |}.

(** [getattr(task_model, name)] read as a [str], for the names the service
    passes: the two hash columns, and any other name, which is looked up
    among the attributes bound on the instance.  [None] stands for every
    value that is not a [str]: the [None] of an empty column, or what the
    class binds to the name. *)
Definition getattr (task_model : TaskModel) (name : string) : option string :=
  if decide (name = "json_data_hash") then tm_json_data_hash task_model
  else if decide (name = "python_env_data_hash") then tm_python_env_data_hash task_model
  else tm_instance_attributes task_model !! name.

(** [setattr(task_model, name, value)] *)
Definition setattr (task_model : TaskModel) (name : string) (value : string) : TaskModel :=
  if decide (name = "json_data_hash") then tm_with_json_data_hash (Some value) task_model
  else if decide (name = "python_env_data_hash") then tm_with_python_env_data_hash (Some value) task_model
  else tm_with_instance_attributes (<[name := value]> (tm_instance_attributes task_model)) task_model.

(** ** The database *)

(** The rows the session sees, in the order a query returns them. *)
Record Database : Type := {
  bpmn_process_rows : list BpmnProcessModel;
  task_rows : list TaskModel;
  task_definition_rows : list TaskDefinitionModel;
}.

(** [BpmnProcessModel.query.filter_by(id=id).first()] *)
Definition bpmn_process_by_id (rows : list BpmnProcessModel) (id : option Z) : option BpmnProcessModel :=
  match id with
  | Some _ => find (λ r, bool_decide (bp_id r = id)) rows
  | None => None
  end.

(** [BpmnProcessModel.query.filter_by(guid=guid).first()] *)
Definition bpmn_process_by_guid (rows : list BpmnProcessModel) (guid : string) : option BpmnProcessModel :=
  find (λ r, bool_decide (bp_guid r = Some guid)) rows.

(** [TaskModel.query.filter_by(guid=guid).first()] *)
Definition task_by_guid (rows : list TaskModel) (guid : string) : option TaskModel :=
  find (λ r, bool_decide (tm_guid r = guid)) rows.

(** [task_model.task_definition] *)
Definition task_definition_of (db : Database) (task_model : TaskModel) : option TaskDefinitionModel :=
  find (λ r, bool_decide (td_id r = tm_task_definition_id task_model)) (task_definition_rows db).

(** [task_model.bpmn_process] *)
Definition bpmn_process_of (db : Database) (task_model : TaskModel) : option BpmnProcessModel :=
  bpmn_process_by_id (bpmn_process_rows db) (tm_bpmn_process_id task_model).

(** ** Lineage queries *)

(** [BpmnProcessModel.direct_parent_process_id.in_(bpmn_process_ids)]:
    a NULL parent is in no list. *)
Definition direct_parent_in (bpmn_process_ids : list (option Z)) (r : BpmnProcessModel) : bool :=
  match bp_direct_parent_process_id r with
  | Some p => bool_decide (Some p ∈ bpmn_process_ids)
  | None => false
  end.

(** [TaskService.bpmn_process_and_descendants].  The recursion follows the
    rows of the table, so it takes fuel; [None] is fuel run out. *)
Fixpoint bpmn_process_and_descendants (fuel : nat) (db : Database)
    (bpmn_processes : list BpmnProcessModel) : option (list BpmnProcessModel) :=
  match fuel with
  | O => None
  | S fuel =>
      let bpmn_process_ids := map bp_id bpmn_processes in
      let direct_children :=
        filter (λ r, direct_parent_in bpmn_process_ids r = true) (bpmn_process_rows db) in
      if decide (0 < length direct_children)%nat then
        match bpmn_process_and_descendants fuel db direct_children with
        | Some descendants => Some (bpmn_processes ++ descendants)
        | None => None
        end
      else Some bpmn_processes
  end.

(** [TaskService.task_models_of_parent_bpmn_processes].  The second list
    holds what [.first()] returned, so [None] where a guid has no task. *)
Fixpoint task_models_of_parent_bpmn_processes (fuel : nat) (db : Database)
    (task_model : TaskModel) (stop_on_first_call_activity : bool)
    : option (result (list BpmnProcessModel * list (option TaskModel))) :=
  match fuel with
  | O => None
  | S fuel =>
      match bpmn_process_of db task_model with
      | None => Some (Raise AttributeError)
      | Some bpmn_process =>
          match bp_guid bpmn_process with
          | None => Some (Ok ([bpmn_process], []))
          | Some guid =>
              let parent_task_model := task_by_guid (task_rows db) guid in
              let ascend :=
                match parent_task_model with
                | Some parent =>
                    match task_models_of_parent_bpmn_processes fuel db parent
                            stop_on_first_call_activity with
                    | Some (Ok (b, t)) =>
                        Some (Ok (b ++ [bpmn_process], t ++ [parent_task_model]))
                    | other => other
                    end
                | None => Some (Ok ([bpmn_process], [parent_task_model]))
                end in
              if negb stop_on_first_call_activity then ascend
              else
                match parent_task_model with
                | None => Some (Raise AttributeError)
                | Some parent =>
                    match task_definition_of db parent with
                    | None => Some (Raise AttributeError)
                    | Some task_definition =>
                        if decide (td_typename task_definition ≠ "CallActivity")
                        then ascend
                        else Some (Ok ([bpmn_process], [parent_task_model]))
                    end
                end
          end
      end
  end.

(** [TaskService.bpmn_process_for_called_activity_or_top_level_process]:
    [bpmn_processes[0]] of the ascent that stops at a call activity. *)
Definition bpmn_process_for_called_activity_or_top_level_process (fuel : nat)
    (db : Database) (task_model : TaskModel) : option (result BpmnProcessModel) :=
  match task_models_of_parent_bpmn_processes fuel db task_model true with
  | Some (Ok (bpmn_processes, _)) =>
      match bpmn_processes with
      | b :: _ => Some (Ok b)
      | [] => Some (Raise KeyError)
      end
  | Some (Raise e) => Some (Raise e)
  | None => None
  end.

(** [BpmnProcessDefinitionModel], the columns the service reads. *)
Record BpmnProcessDefinitionModel : Type := {
  bpd_id : Z;
  bpd_bpmn_identifier : string;
  bpd_bpmn_name : option string;
}.

(** [bpmn_process.bpmn_process_definition], looked up in the rows of the
    definitions. *)
Definition bpmn_process_definition_of (definitions : list BpmnProcessDefinitionModel)
    (bpmn_process : BpmnProcessModel) : option BpmnProcessDefinitionModel :=
  match bp_bpmn_process_definition_id bpmn_process with
  | Some id => find (λ d, bool_decide (bpd_id d = id)) definitions
  | None => None
  end.

(** [bpmn_process.bpmn_process_definition.bpmn_identifier] *)
Definition bpmn_identifier_of (definitions : list BpmnProcessDefinitionModel)
    (bpmn_process : BpmnProcessModel) : result string :=
  match bpmn_process_definition_of definitions bpmn_process with
  | Some definition => Ok (bpd_bpmn_identifier definition)
  | None => Raise AttributeError
  end.

(** The appends of [full_bpmn_process_path], one process after the
    other. *)
Fixpoint bpmn_identifiers_of (definitions : list BpmnProcessDefinitionModel)
    (bpmn_processes : list BpmnProcessModel) : result (list string) :=
  match bpmn_processes with
  | [] => Ok []
  | bpmn_process :: rest =>
      match bpmn_identifier_of definitions bpmn_process with
      | Ok identifier =>
          match bpmn_identifiers_of definitions rest with
          | Ok identifiers => Ok (identifier :: identifiers)
          | Raise e => Raise e
          end
      | Raise e => Raise e
      end
  end.

(** [TaskService.full_bpmn_process_path].  A guid that is [None] or
    empty is falsy; the ascent called with no task reads an attribute of
    [None]. *)
Definition full_bpmn_process_path (fuel : nat) (db : Database)
    (definitions : list BpmnProcessDefinitionModel) (bpmn_process : BpmnProcessModel)
    : option (result (list string)) :=
  let parent_bpmn_processes :=
    match bp_guid bpmn_process with
    | Some guid =>
        if decide (guid = EmptyString) then Some (Ok [])
        else
          match task_by_guid (task_rows db) guid with
          | Some task_model =>
              match task_models_of_parent_bpmn_processes fuel db task_model false with
              | Some (Ok (parent_bpmn_processes, _)) => Some (Ok parent_bpmn_processes)
              | Some (Raise e) => Some (Raise e)
              | None => None
              end
          | None => Some (Raise AttributeError)
          end
    | None => Some (Ok [])
    end in
  match parent_bpmn_processes with
  | Some (Ok parent_bpmn_processes) =>
      Some (bpmn_identifiers_of definitions (parent_bpmn_processes ++ [bpmn_process]))
  | Some (Raise e) => Some (Raise e)
  | None => None
  end.

(** ** The state of one pass *)

(** A [TaskService] object with the session it works in: the rows the
    session holds, the process instance, and the four dictionaries of the
    pass.  [clock] counts the calls of [time.time()]. *)
Record ServiceState : Type := {
  db : Database;
  process_instance : ProcessInstanceModel;
  bpmn_processes : gmap string BpmnProcessModel;
  task_models : gmap string TaskModel;
  json_data_dicts : gmap string JsonDataDict;
  process_instance_events : gmap string ProcessInstanceEventModel;
  clock : nat;
}.

Definition with_db (v : Database) (s : ServiceState) : ServiceState :=
  {| db := v; process_instance := process_instance s;
     bpmn_processes := bpmn_processes s; task_models := task_models s;
     json_data_dicts := json_data_dicts s;
     process_instance_events := process_instance_events s; clock := clock s |}.

Definition with_process_instance (v : ProcessInstanceModel) (s : ServiceState) : ServiceState :=
  {| db := db s; process_instance := v;
     bpmn_processes := bpmn_processes s; task_models := task_models s;
     json_data_dicts := json_data_dicts s;
     process_instance_events := process_instance_events s; clock := clock s |}.

Definition with_bpmn_processes (v : gmap string BpmnProcessModel) (s : ServiceState) : ServiceState :=
  {| db := db s; process_instance := process_instance s;
     bpmn_processes := v; task_models := task_models s;
     json_data_dicts := json_data_dicts s;
     process_instance_events := process_instance_events s; clock := clock s |}.

Definition with_task_models (v : gmap string TaskModel) (s : ServiceState) : ServiceState :=
  {| db := db s; process_instance := process_instance s;
     bpmn_processes := bpmn_processes s; task_models := v;
     json_data_dicts := json_data_dicts s;
     process_instance_events := process_instance_events s; clock := clock s |}.

Definition with_json_data_dicts (v : gmap string JsonDataDict) (s : ServiceState) : ServiceState :=
  {| db := db s; process_instance := process_instance s;
     bpmn_processes := bpmn_processes s; task_models := task_models s;
     json_data_dicts := v;
     process_instance_events := process_instance_events s; clock := clock s |}.

Definition with_process_instance_events (v : gmap string ProcessInstanceEventModel)
    (s : ServiceState) : ServiceState :=
  {| db := db s; process_instance := process_instance s;
     bpmn_processes := bpmn_processes s; task_models := task_models s;
     json_data_dicts := json_data_dicts s;
     process_instance_events := v; clock := clock s |}.

Definition with_clock (v : nat) (s : ServiceState) : ServiceState :=
  {| db := db s; process_instance := process_instance s;
     bpmn_processes := bpmn_processes s; task_models := task_models s;
     json_data_dicts := json_data_dicts s;
     process_instance_events := process_instance_events s; clock := v |}.

Definition with_bpmn_process_rows (v : list BpmnProcessModel) (d : Database) : Database :=
  {| bpmn_process_rows := v; task_rows := task_rows d;
     task_definition_rows := task_definition_rows d |}.

(** [TaskService.__init__]: the four dictionaries start empty. *)
Definition TaskService_init (session : Database) (process_instance : ProcessInstanceModel)
    : ServiceState :=
  {| db := session; process_instance := process_instance;
     bpmn_processes := ∅; task_models := ∅; json_data_dicts := ∅;
     process_instance_events := ∅; clock := 0 |}.

(** A method of the service: it runs on a state and either returns a
    value and the state it leaves, or raises. *)
Definition M (A : Type) : Type := ServiceState → result (A * ServiceState).

Definition ret {A} (a : A) : M A := λ s, Ok (a, s).

Definition bind {A B} (m : M A) (k : A → M B) : M B :=
  λ s, match m s with
       | Ok (a, s') => k a s'
       | Raise e => Raise e
       end.

Definition raise {A} (e : exception) : M A := λ _, Raise e.

Definition get_state : M ServiceState := λ s, Ok (s, s).

Definition modify (f : ServiceState → ServiceState) : M unit := λ s, Ok (tt, f s).

(** A value that may be [None], used where Python dereferences it. *)
Definition deref {A} (o : option A) (e : exception) : M A :=
  match o with
  | Some a => ret a
  | None => raise e
  end.

Definition lift_result {A} (r : result A) : M A :=
  match r with
  | Ok a => ret a
  | Raise e => raise e
  end.

Notation "x <- m ;; k" := (bind m (λ x, k))
  (at level 100, m at next level, right associativity).
Notation "m ;;; k" := (bind m (λ _, k))
  (at level 100, right associativity).

(** A [for] loop over a list. *)
Fixpoint for_each {A} (body : A → M unit) (l : list A) : M unit :=
  match l with
  | [] => ret tt
  | x :: l' => body x ;;; for_each body l'
  end.

(** ** The session *)

(** The id the database gives the next row. *)
Definition next_id (rows : list BpmnProcessModel) : Z :=
  1 + foldr (λ r acc, Z.max (default 0 (bp_id r)) acc) 0 rows.

(** The in-memory object of a row, after an assignment to one of its
    attributes: the session holds one object per row. *)
Definition store_row (b : BpmnProcessModel) (rows : list BpmnProcessModel) : list BpmnProcessModel :=
  map (λ r, if decide (bp_id r = bp_id b) then b else r) rows.

(** [db.session.add(bpmn_process)]: a new object becomes a row, an
    object that is a row already stays the same row.  The id of a new
    row is the one the database gives it at the flush that follows;
    SQLAlchemy sets it on the object at that flush, which the next query
    of the session brings about, and not at the add as here.  So the id
    of a process just added stands for the id the row is going to have,
    which is what the code reads: both [add_tasks_to_bpmn_process] and
    [find_or_create_task_model_from_spiff_task] query for the task
    before they read the id of the process. *)
Definition session_add (b : BpmnProcessModel) : M BpmnProcessModel :=
  λ s,
    let rows := bpmn_process_rows (db s) in
    match bp_id b with
    | Some _ => Ok (b, with_db (with_bpmn_process_rows (store_row b rows) (db s)) s)
    | None =>
        let b' := bp_with_id (Some (next_id rows)) b in
        Ok (b', with_db (with_bpmn_process_rows (rows ++ [b']) (db s)) s)
    end.

(** [TaskModel.query.filter_by(guid=guid).first()] inside a pass.  A row
    has one object in the session: when the pass has changed the task
    already, the object is the one in [task_models]. *)
Definition session_task_by_guid (s : ServiceState) (guid : string) : option TaskModel :=
  match task_by_guid (task_rows (db s)) guid with
  | Some row => Some (default row (task_models s !! guid))
  | None => None
  end.

(** ** Walking the engine's objects *)

(** [list.remove(x)]: the first occurrence goes. *)
Fixpoint list_remove (x : string) (l : list string) : list string :=
  match l with
  | [] => []
  | y :: l' => if decide (y = x) then l' else y :: list_remove x l'
  end.

(** [a == b] on workflows *)
Definition wf_eqb (a b : BpmnWorkflow) : bool := Nat.eqb (wf_ref a) (wf_ref b).

(** [workflow.outer_workflow] *)
Definition outer_workflow (wf : BpmnWorkflow) : BpmnWorkflow :=
  default wf (wf_outer wf).

(** [workflow._get_outermost_workflow()] *)
Fixpoint _get_outermost_workflow (wf : BpmnWorkflow) : BpmnWorkflow :=
  match wf with
  | mkBpmnWorkflow _ _ _ _ _ (Some outer) => _get_outermost_workflow outer
  | mkBpmnWorkflow _ _ _ _ _ None => wf
  end.

(** [serializer.task_to_dict(spiff_task)]: the properties, and the
    ["data"] entry the service pops from them. *)
Definition task_to_dict (spiff_task : SpiffTask) : TaskProperties * json :=
  ({| tp_parent := st_parent spiff_task;
      tp_children := map st_id (st_children spiff_task);
      tp_state := st_state spiff_task;
      tp_task_spec := st_task_spec spiff_task |},
   st_data spiff_task).

(** [spiff_task._has_state(mask)]: [(self.state & mask) != 0] *)
Definition _has_state (spiff_task : SpiffTask) (mask : Z) : bool :=
  negb (Z.land (st_state spiff_task) mask =? 0)%Z.

(** Python's truth value of an optional number. *)
Definition truthy (o : option Z) : bool :=
  match o with
  | Some z => negb (z =? 0)%Z
  | None => false
  end.

(** What the flush hands to the database. *)
Inductive statement : Type :=
| bulk_save_bpmn_processes (objects : list BpmnProcessModel)
| bulk_save_task_models (objects : list TaskModel)
| bulk_save_process_instance_events (objects : list ProcessInstanceEventModel)
| insert_on_duplicate_key_update (rows : list JsonDataDict)
| insert_on_conflict_do_nothing (rows : list JsonDataDict).

(** ** The collaborators *)

(** What the service calls but does not define. *)
Record Collaborators : Type := {
  (** [sha256(s.encode("utf8")).hexdigest()] *)
  sha256_hexdigest : string → string;
  (** the string literal [json.dumps] writes for a [str] *)
  encode_basestring : string → string;
  (** [SpiffWorkflow.task.TaskStateNames], a dict from state number to
      name; [None] is a missing key *)
  TaskStateNames : Z → option string;
  (** [getattr(TaskState, name)]; [None] is a missing attribute *)
  TaskState : string → option Z;
  (** [TaskState.PREDICTED_MASK] *)
  PREDICTED_MASK : Z;
  (** successive results of [time.time()], in microseconds *)
  time_time : nat → Z;
  (** [workflow.subprocesses.items()] *)
  subprocesses : BpmnWorkflow → list (string * BpmnWorkflow);
  (** [workflow.get_task_from_id(UUID(task_id))] *)
  get_task_from_id : BpmnWorkflow → string → option SpiffTask;
  (** [serializer.workflow_to_dict] *)
  workflow_to_dict : BpmnWorkflow → WorkflowDict;
  (** [serializer.data_converter.convert] of
      [workflow.script_engine.environment.user_defined_state()] *)
  user_defined_state : BpmnWorkflow → json;
  (** [bpmn_definition_to_task_definitions_mappings[spec][task_spec].id] *)
  task_definition_mapping : string → string → option Z;
  (** [bpmn_definition_to_task_definitions_mappings[spec]["bpmn_process_definition"].id] *)
  bpmn_process_definition_mapping : string → option Z;
  (** [ProcessInstanceEventType.task_completed.value] *)
  task_completed : string;
  (** [current_app.config["SPIFFWORKFLOW_BACKEND_DATABASE_TYPE"]] *)
  database_type : string;
}.

(** * Example data *)

(** The states of SpiffWorkflow and their names. *)
Definition spiff_TaskStateNames (n : Z) : option string :=
  if decide (n = 1) then Some "MAYBE"
  else if decide (n = 2) then Some "LIKELY"
  else if decide (n = 4) then Some "FUTURE"
  else if decide (n = 8) then Some "WAITING"
  else if decide (n = 16) then Some "READY"
  else if decide (n = 32) then Some "STARTED"
  else if decide (n = 64) then Some "COMPLETED"
  else if decide (n = 128) then Some "ERROR"
  else if decide (n = 256) then Some "CANCELLED"
  else None.

Definition spiff_TaskState (name : string) : option Z :=
  if decide (name = "MAYBE") then Some 1
  else if decide (name = "LIKELY") then Some 2
  else if decide (name = "FUTURE") then Some 4
  else if decide (name = "WAITING") then Some 8
  else if decide (name = "READY") then Some 16
  else if decide (name = "STARTED") then Some 32
  else if decide (name = "COMPLETED") then Some 64
  else if decide (name = "ERROR") then Some 128
  else if decide (name = "CANCELLED") then Some 256
  else if decide (name = "PREDICTED_MASK") then Some 3
  else None.

(** A top level workflow with a task X that has a speculative child Y
    and a ready child Z, and a workflow nested in it. *)
Definition top_workflow : BpmnWorkflow :=
  mkBpmnWorkflow 0 "P" (JDict [("a", JInt 1)]) (Some "x") false None.

Definition sub_workflow : BpmnWorkflow :=
  mkBpmnWorkflow 1 "S" (JDict []) None false (Some top_workflow).

Definition task_y : SpiffTask :=
  mkSpiffTask "y" (Some "x") 1 "Y" (JDict []) top_workflow [].

Definition task_z : SpiffTask :=
  mkSpiffTask "z" (Some "x") 16 "Z" (JDict []) top_workflow [].

Definition task_x : SpiffTask :=
  mkSpiffTask "x" None 64 "X"
    (JDict [("b", JInt 2); ("a", JList [JNull; JBool true])])
    top_workflow [task_y; task_z].

Definition no_properties : ProcessProperties :=
  {| pp_root := None; pp_last_task := None; pp_success := false; pp_others := [] |}.

(** Collaborators for the examples.  The digest is a stand-in: the
    theorems hold for every digest function. *)
Definition sample : Collaborators :=
  {| sha256_hexdigest := λ text, "digest of " +:+ text;
     encode_basestring := λ text, "'" +:+ text +:+ "'";
     TaskStateNames := spiff_TaskStateNames;
     TaskState := spiff_TaskState;
     PREDICTED_MASK := 3;
     time_time := λ n, 1700000000000000 + Z.of_nat n;
     subprocesses := λ _, [("c", sub_workflow)];
     get_task_from_id :=
       λ _ guid, find (λ t, bool_decide (st_id t = guid)) [task_x; task_y; task_z];
     workflow_to_dict :=
       λ wf, {| wd_tasks := []; wd_data := wf_data wf; wd_properties := no_properties |};
     user_defined_state := λ _, JDict [];
     task_definition_mapping := λ _ _, Some 7;
     bpmn_process_definition_mapping := λ _, Some 3;
     task_completed := "task_completed";
     database_type := "postgres" |}.

Definition top_row : BpmnProcessModel :=
  {| bp_id := Some 1; bp_guid := None; bp_top_level_process_id := None;
     bp_direct_parent_process_id := None; bp_bpmn_process_definition_id := Some 3;
     bp_properties_json := Some no_properties; bp_json_data_hash := None |}.

(** A service at the start of a pass, the top level process persisted. *)
Definition fresh_service : ServiceState :=
  TaskService_init
    {| bpmn_process_rows := [top_row]; task_rows := []; task_definition_rows := [] |}
    {| pi_id := 1; pi_bpmn_process_id := Some 1 |}.

(** The database of the docstring of
    [task_models_of_parent_bpmn_processes]: a top level process, a
    subprocess task A in it, a call activity B in the subprocess, and a
    script task C in the called process. *)
Definition nested_row (id : Z) (guid : string) (parent : Z) : BpmnProcessModel :=
  {| bp_id := Some id; bp_guid := Some guid; bp_top_level_process_id := Some 1;
     bp_direct_parent_process_id := Some parent; bp_bpmn_process_definition_id := Some 3;
     bp_properties_json := Some no_properties; bp_json_data_hash := None |}.

Definition task_row (guid : string) (process definition : Z) : TaskModel :=
  {| tm_guid := guid; tm_bpmn_process_id := Some process; tm_process_instance_id := 1;
     tm_task_definition_id := definition; tm_state := Some "READY";
     tm_properties_json := None; tm_json_data_hash := None;
     tm_python_env_data_hash := None; tm_start_in_seconds := None;
     tm_end_in_seconds := None; tm_instance_attributes := ∅ |}.

Definition nested_database : Database :=
  {| bpmn_process_rows := [top_row; nested_row 2 "A" 1; nested_row 3 "B" 2];
     task_rows := [task_row "A" 1 1; task_row "B" 2 2; task_row "C" 3 3];
     task_definition_rows :=
       [ {| td_id := 1; td_typename := "SubProcess" |};
         {| td_id := 2; td_typename := "CallActivity" |};
         {| td_id := 3; td_typename := "ScriptTask" |} ] |}.

(** The depth of a row in the example: its id. *)
Definition row_rank (b : BpmnProcessModel) : nat := Z.to_nat (default 0 (bp_id b)).

(** What holds of the value and the state a run returns; a run that
    raises has nothing to show. *)
Definition from_run {A} (r : result (A * ServiceState))
    (Q : A → ServiceState → Prop) : Prop :=
  match r with
  | Ok (a, s) => Q a s
  | Raise _ => False
  end.

Definition stale_task : TaskModel :=
  tm_with_python_env_data_hash (Some "stale")
    (tm_with_properties_json (Some (task_to_dict task_z).1) (task_row "z" 1 7)).

Definition unchanged_payload : json := JDict [("a", JInt 1)].

Definition payload_a_b : json :=
  JDict [("a", JInt 1); ("b", JDict [("x", JNull); ("y", JBool true)])].

Definition payload_b_a : json :=
  JDict [("b", JDict [("y", JBool true); ("x", JNull)]); ("a", JInt 1)].

(** A task in the nested workflow, and the task of the top level
    workflow that stands for that workflow. *)
Definition task_s : SpiffTask :=
  mkSpiffTask "s" None 16 "S1" (JDict []) sub_workflow [].

Definition task_c : SpiffTask :=
  mkSpiffTask "c" None 32 "Call" (JDict []) top_workflow [].

(** The collaborators of [sample], with the task of the subprocess
    known to the top level workflow. *)
Definition nested_sample : Collaborators :=
  {| sha256_hexdigest := sha256_hexdigest sample;
     encode_basestring := encode_basestring sample;
     TaskStateNames := TaskStateNames sample;
     TaskState := TaskState sample;
     PREDICTED_MASK := PREDICTED_MASK sample;
     time_time := time_time sample;
     subprocesses := subprocesses sample;
     get_task_from_id :=
       λ _ guid, find (λ t, bool_decide (st_id t = guid)) [task_x; task_y; task_z; task_c];
     workflow_to_dict := workflow_to_dict sample;
     user_defined_state := user_defined_state sample;
     task_definition_mapping := task_definition_mapping sample;
     bpmn_process_definition_mapping := bpmn_process_definition_mapping sample;
     task_completed := task_completed sample;
     database_type := database_type sample |}.

(** The tasks dict of the top level workflow as the serializer gives it,
    a task before its children, and the collaborators of [sample] with
    that dict. *)
Definition listed_tasks : list (string * TaskProperties) :=
  [("x", (task_to_dict task_x).1); ("y", (task_to_dict task_y).1);
   ("z", (task_to_dict task_z).1)].

Definition listing_sample : Collaborators :=
  {| sha256_hexdigest := sha256_hexdigest sample;
     encode_basestring := encode_basestring sample;
     TaskStateNames := TaskStateNames sample;
     TaskState := TaskState sample;
     PREDICTED_MASK := PREDICTED_MASK sample;
     time_time := time_time sample;
     subprocesses := subprocesses sample;
     get_task_from_id := get_task_from_id sample;
     workflow_to_dict :=
       λ wf, {| wd_tasks := listed_tasks; wd_data := wf_data wf;
                wd_properties := no_properties |};
     user_defined_state := user_defined_state sample;
     task_definition_mapping := task_definition_mapping sample;
     bpmn_process_definition_mapping := bpmn_process_definition_mapping sample;
     task_completed := task_completed sample;
     database_type := database_type sample |}.

(** A service at the start of the first pass of an instance: no process
    is persisted yet. *)
Definition new_service : ServiceState :=
  TaskService_init
    {| bpmn_process_rows := []; task_rows := []; task_definition_rows := [] |}
    {| pi_id := 1; pi_bpmn_process_id := None |}.

(** The entry of X in [task_models], with both its children listed. *)
Definition parent_entry : TaskModel :=
  tm_with_properties_json (Some (task_to_dict task_x).1) (task_row "x" 1 7).

(** A database in which the guid of a nested process names no task. *)
Definition dangling_database : Database :=
  {| bpmn_process_rows := [top_row; nested_row 2 "A" 1];
     task_rows := [task_row "C" 2 3];
     task_definition_rows := [ {| td_id := 3; td_typename := "ScriptTask" |} ] |}.

(** The process definition the rows of the examples refer to. *)
Definition process_definitions : list BpmnProcessDefinitionModel :=
  [ {| bpd_id := 3; bpd_bpmn_identifier := "P"; bpd_bpmn_name := None |} ].

Section TaskService.
Context (env : Collaborators).

(** ** Content hash *)

(** One item of a dict: the encoded key, a colon, the serialized value. *)
Definition render_item (kv : string * string) : string :=
  encode_basestring env kv.1 +:+ ": " +:+ kv.2.

(** [json.dumps(payload, sort_keys=True)] with the default separators.
    The items of a dict are sorted on their keys; as the order looks at
    keys only, the values are serialized before the sort. *)
Fixpoint dumps (j : json) : string :=
  match j with
  | JNull => "null"
  | JBool true => "true"
  | JBool false => "false"
  | JInt n => pretty n
  | JStr s => encode_basestring env s
  | JList items => "[" +:+ String.concat ", " (map dumps items) +:+ "]"
  | JDict entries =>
      "{" +:+
      String.concat ", "
        (map render_item
           (merge_sort key_le
              (map (λ kv, let '(k, v) := kv in (k, dumps v))
                 entries)))
      +:+ "}"
  end.

(** [sha256(json.dumps(payload, sort_keys=True).encode("utf8")).hexdigest()],
    as both update functions compute it. *)
Definition hash_of (payload : json) : string :=
  sha256_hexdigest env (dumps payload).

(** ** Change detection *)

(** [TaskService.update_task_data_on_bpmn_process]: the process with its
    hash column as the call leaves it, and the dict returned. *)
Definition update_task_data_on_bpmn_process (bpmn_process : BpmnProcessModel)
    (bpmn_process_data_dict : json) : BpmnProcessModel * option JsonDataDict :=
  let bpmn_process_data_hash := hash_of bpmn_process_data_dict in
  if decide (bp_json_data_hash bpmn_process ≠ Some bpmn_process_data_hash) then
    (bp_with_json_data_hash (Some bpmn_process_data_hash) bpmn_process,
     Some {| jd_hash := bpmn_process_data_hash; jd_data := bpmn_process_data_dict |})
  else (bpmn_process, None).

(** [TaskService.update_task_data_on_task_model_and_return_dict_if_updated] *)
Definition update_task_data_on_task_model_and_return_dict_if_updated
    (task_model : TaskModel) (task_data_dict : json) (task_model_data_column : string)
    : TaskModel * option JsonDataDict :=
  let task_data_hash := hash_of task_data_dict in
  if decide (getattr task_model task_model_data_column ≠ Some task_data_hash) then
    (setattr task_model task_model_data_column task_data_hash,
     Some {| jd_hash := task_data_hash; jd_data := task_data_dict |})
  else (task_model, None).

(** [TaskService.reset_task_model] *)
Definition reset_task_model (task_model : TaskModel) (state : string)
    (json_data_hash python_env_data_hash : option string) : result TaskModel :=
  let task_model :=
    match json_data_hash with
    | None =>
        (update_task_data_on_task_model_and_return_dict_if_updated
           task_model empty_dict "json_data_hash").1
    | Some h => tm_with_json_data_hash (Some h) task_model
    end in
  let task_model :=
    match python_env_data_hash with
    | None =>
        (update_task_data_on_task_model_and_return_dict_if_updated
           task_model empty_dict "python_env_data").1
    | Some h => tm_with_python_env_data_hash (Some h) task_model
    end in
  let task_model := tm_with_times None None (tm_with_state (Some state) task_model) in
  match TaskState env state with
  | None => Raise AttributeError
  | Some n =>
      match tm_properties_json task_model with
      | None => Raise TypeError
      | Some new_properties_json =>
          Ok (tm_with_properties_json (Some (tp_with_state n new_properties_json)) task_model)
      end
  end.

(** [TaskService.reset_task_model_dict], on the dict of a task model
    row. *)
Definition reset_task_model_dict (task_model : gmap string json) (state : string)
    : gmap string json :=
  <["end_in_seconds" := JNull]>
    (<["start_in_seconds" := JNull]> (<["state" := JStr state]> task_model)).

(** ** Pruning a speculative task *)

(** [TaskService.remove_spiff_task_from_parent]: the [task_models] dict as
    the call leaves it. *)
Definition remove_spiff_task_from_parent (spiff_task : SpiffTask)
    (task_models : gmap string TaskModel) : result (gmap string TaskModel) :=
  match st_parent spiff_task with
  | None => Raise AttributeError
  | Some spiff_task_parent_guid =>
      let spiff_task_guid := st_id spiff_task in
      match task_models !! spiff_task_parent_guid with
      | Some parent_task_model =>
          match tm_properties_json parent_task_model with
          | None => Raise TypeError
          | Some properties =>
              if decide (spiff_task_guid ∈ tp_children properties) then
                let new_parent_properties_json :=
                  tp_with_children (list_remove spiff_task_guid (tp_children properties))
                    properties in
                Ok (<[spiff_task_parent_guid :=
                        tm_with_properties_json (Some new_parent_properties_json)
                          parent_task_model]> task_models)
              else Ok task_models
          end
      | None => Ok task_models
      end
  end.

(** The call of [remove_spiff_task_from_parent] on [self.task_models]. *)
Definition prune (spiff_task : SpiffTask) : M unit :=
  s <- get_state ;;
  task_models' <- lift_result (remove_spiff_task_from_parent spiff_task (task_models s)) ;;
  modify (with_task_models task_models').

(** [self.json_data_dicts[d["hash"]] = d] when a dict was returned. *)
Definition buffer_json_data (d : option JsonDataDict) : M unit :=
  match d with
  | Some json_data_dict =>
      modify (λ s, with_json_data_dicts
                     (<[jd_hash json_data_dict := json_data_dict]> (json_data_dicts s)) s)
  | None => ret tt
  end.

(** ** Updating one task *)

(** [TaskService.update_task_model]: returns the task model as the call
    leaves it. *)
Definition update_task_model (task_model : TaskModel) (spiff_task : SpiffTask) : M TaskModel :=
  let '(new_properties_json, spiff_task_data) := task_to_dict spiff_task in
  let new_properties_json :=
    if decide (tp_task_spec new_properties_json = "Start")
    then tp_with_parent None new_properties_json
    else new_properties_json in
  let python_env_data_dict := user_defined_state env (st_workflow spiff_task) in
  let task_model := tm_with_properties_json (Some new_properties_json) task_model in
  name <- deref (TaskStateNames env (tp_state new_properties_json)) KeyError ;;
  let task_model := tm_with_state (Some name) task_model in
  let '(task_model, json_data_dict) :=
    update_task_data_on_task_model_and_return_dict_if_updated
      task_model spiff_task_data "json_data_hash" in
  let '(task_model, python_env_dict) :=
    update_task_data_on_task_model_and_return_dict_if_updated
      task_model python_env_data_dict "python_env_data_hash" in
  buffer_json_data json_data_dict ;;;
  buffer_json_data python_env_dict ;;;
  ret task_model.

(** [TaskService._create_task] *)
Definition _create_task (bpmn_process : BpmnProcessModel)
    (process_instance : ProcessInstanceModel) (spiff_task : SpiffTask) : result TaskModel :=
  match task_definition_mapping env (wf_spec_name (st_workflow spiff_task))
          (st_task_spec spiff_task) with
  | None => Raise KeyError
  | Some task_definition_id =>
      Ok {| tm_guid := st_id spiff_task;
            tm_bpmn_process_id := bp_id bpmn_process;
            tm_process_instance_id := pi_id process_instance;
            tm_task_definition_id := task_definition_id;
            tm_state := None; tm_properties_json := None;
            tm_json_data_hash := None; tm_python_env_data_hash := None;
            tm_start_in_seconds := None; tm_end_in_seconds := None;
            tm_instance_attributes := ∅ |}
  end.

(** [TaskService.add_tasks_to_bpmn_process] *)
Definition add_tasks_to_bpmn_process (tasks : list (string * TaskProperties))
    (spiff_workflow : BpmnWorkflow) (bpmn_process : BpmnProcessModel) : M unit :=
  for_each
    (λ item,
       let '(task_id, task_properties) := item in
       if decide (tp_task_spec task_properties = "Root") then ret tt
       else
         spiff_task <- deref (get_task_from_id env spiff_workflow task_id) AttributeError ;;
         if _has_state spiff_task (PREDICTED_MASK env) then prune spiff_task
         else
           s <- get_state ;;
           task_model <-
             match session_task_by_guid s task_id with
             | Some task_model => ret task_model
             | None => lift_result (_create_task bpmn_process (process_instance s) spiff_task)
             end ;;
           task_model <- update_task_model task_model spiff_task ;;
           modify (λ s, with_task_models (<[tm_guid task_model := task_model]> (task_models s)) s))
    tasks.

(** ** Resolving the process of a task *)

(** [TaskService._task_subprocess] *)
Definition _task_subprocess (spiff_task : SpiffTask) : option string * option BpmnWorkflow :=
  let top_level_workflow := _get_outermost_workflow (st_workflow spiff_task) in
  let my_wf := st_workflow spiff_task in
  if negb (wf_eqb my_wf top_level_workflow) then
    match find (λ item, wf_eqb item.2 my_wf) (subprocesses env top_level_workflow) with
    | Some (sp_id, sp) => (Some sp_id, Some sp)
    | None => (None, None)
    end
  else (None, None).

(** The loop of [add_bpmn_process] that looks for the direct parent: every
    subprocess that is the outer workflow replaces the parent found so
    far by the row of its guid, and raises when there is no such row.
    The loop starts from the top level process, so the check for [None]
    that follows it in the source never fires. *)
Fixpoint direct_bpmn_process_parent (rows : list BpmnProcessModel)
    (outer : BpmnWorkflow) (subprocesses : list (string * BpmnWorkflow))
    (direct_bpmn_process_parent0 : BpmnProcessModel) : result BpmnProcessModel :=
  match subprocesses with
  | [] => Ok direct_bpmn_process_parent0
  | (subprocess_guid, subprocess) :: rest =>
      if wf_eqb subprocess outer then
        match bpmn_process_by_guid rows subprocess_guid with
        | None => Raise BpmnProcessNotFoundError
        | Some found => direct_bpmn_process_parent rows outer rest found
        end
      else direct_bpmn_process_parent rows outer rest direct_bpmn_process_parent0
  end.

(** The loop of [add_bpmn_process] that points the root to the Start
    task: the last task with spec ["Start"] wins. *)
Definition root_of_start_task (tasks : list (string * TaskProperties))
    (bpmn_process_dict : ProcessProperties) : ProcessProperties :=
  fold_left
    (λ d item, if decide (tp_task_spec item.2 = "Start")
               then pp_with_root (Some item.1) d else d)
    tasks bpmn_process_dict.

(** [TaskService.add_bpmn_process].  The assignment to
    [process_instance.bpmn_process] is made with the id the row gets
    when it is added to the session. *)
Definition add_bpmn_process (bpmn_process_dict : WorkflowDict)
    (spiff_workflow : BpmnWorkflow) (top_level_process : option BpmnProcessModel)
    (bpmn_process_guid : option string) : M BpmnProcessModel :=
  let tasks := wd_tasks bpmn_process_dict in
  let bpmn_process_data_dict := wd_data bpmn_process_dict in
  let bpmn_process_dict := wd_properties bpmn_process_dict in
  s <- get_state ;;
  let rows := bpmn_process_rows (db s) in
  let existing :=
    match top_level_process with
    | Some top =>
        find (λ r, bool_decide (bp_top_level_process_id r = bp_id top
                                ∧ bp_guid r = bpmn_process_guid)) rows
    | None =>
        match pi_bpmn_process_id (process_instance s) with
        | Some id => bpmn_process_by_id rows (Some id)
        | None => None
        end
    end in
  created <-
    match existing with
    | Some bpmn_process => ret (false, bpmn_process)
    | None =>
        bpmn_process_definition_id <-
          deref (bpmn_process_definition_mapping env (wf_spec_name spiff_workflow)) KeyError ;;
        let bpmn_process :=
          {| bp_id := None; bp_guid := bpmn_process_guid;
             bp_top_level_process_id := None;
             bp_direct_parent_process_id := None;
             bp_bpmn_process_definition_id := Some bpmn_process_definition_id;
             bp_properties_json := None; bp_json_data_hash := None |} in
        match top_level_process with
        | Some top =>
            parent <-
              lift_result
                (direct_bpmn_process_parent rows (outer_workflow spiff_workflow)
                   (subprocesses env (_get_outermost_workflow spiff_workflow)) top) ;;
            ret (true, bp_with_direct_parent_process_id (bp_id parent) bpmn_process)
        | None => ret (true, bpmn_process)
        end
    end ;;
  let '(bpmn_process_is_new, bpmn_process) := created in
  let bpmn_process_dict := root_of_start_task tasks bpmn_process_dict in
  let bpmn_process := bp_with_properties_json (Some bpmn_process_dict) bpmn_process in
  let '(bpmn_process, bpmn_process_json_data) :=
    update_task_data_on_bpmn_process bpmn_process bpmn_process_data_dict in
  buffer_json_data bpmn_process_json_data ;;;
  let bpmn_process :=
    match top_level_process with
    | None => bpmn_process
    | Some top =>
        match bp_top_level_process_id bpmn_process with
        | None => bp_with_top_level_process_id (bp_id top) bpmn_process
        | Some _ => bpmn_process
        end
    end in
  bpmn_process <- session_add bpmn_process ;;
  match top_level_process with
  | None =>
      modify (λ s, with_process_instance
                     {| pi_id := pi_id (process_instance s);
                        pi_bpmn_process_id := bp_id bpmn_process |} s)
  | Some _ => ret tt
  end ;;;
  (if bpmn_process_is_new
   then add_tasks_to_bpmn_process tasks spiff_workflow bpmn_process
   else ret tt) ;;;
  ret bpmn_process.

(** [TaskService.task_bpmn_process]; [self.process_instance.bpmn_process]
    is the row of [bpmn_process_id], [None] without one. *)
Definition task_bpmn_process (spiff_task : SpiffTask) : M (option BpmnProcessModel) :=
  let '(subprocess_guid, subprocess) := _task_subprocess spiff_task in
  s <- get_state ;;
  let process_instance_bpmn_process :=
    bpmn_process_by_id (bpmn_process_rows (db s)) (pi_bpmn_process_id (process_instance s)) in
  match subprocess with
  | None =>
      match pi_bpmn_process_id (process_instance s) with
      | None =>
          let spiff_workflow := _get_outermost_workflow (st_workflow spiff_task) in
          bpmn_process <-
            add_bpmn_process (workflow_to_dict env spiff_workflow) spiff_workflow None None ;;
          ret (Some bpmn_process)
      | Some _ => ret process_instance_bpmn_process
      end
  | Some subprocess =>
      match bpmn_process_by_guid (bpmn_process_rows (db s)) (default EmptyString subprocess_guid) with
      | Some bpmn_process => ret (Some bpmn_process)
      | None =>
          let spiff_workflow := st_workflow spiff_task in
          bpmn_process <-
            add_bpmn_process (workflow_to_dict env subprocess) spiff_workflow
              process_instance_bpmn_process subprocess_guid ;;
          ret (Some bpmn_process)
      end
  end.

(** [TaskService.find_or_create_task_model_from_spiff_task] *)
Definition find_or_create_task_model_from_spiff_task (spiff_task : SpiffTask)
    : M (option BpmnProcessModel * TaskModel) :=
  let spiff_task_guid := st_id spiff_task in
  s <- get_state ;;
  match session_task_by_guid s spiff_task_guid with
  | Some task_model => ret (None, task_model)
  | None =>
      bpmn_process <- task_bpmn_process spiff_task ;;
      s <- get_state ;;
      match session_task_by_guid s spiff_task_guid with
      | Some task_model => ret (bpmn_process, task_model)
      | None =>
          task_definition_id <-
            deref (task_definition_mapping env (wf_spec_name (st_workflow spiff_task))
                     (st_task_spec spiff_task)) KeyError ;;
          created <- deref bpmn_process AttributeError ;;
          ret (bpmn_process,
               {| tm_guid := spiff_task_guid;
                  tm_bpmn_process_id := bp_id created;
                  tm_process_instance_id := pi_id (process_instance s);
                  tm_task_definition_id := task_definition_id;
                  tm_state := None; tm_properties_json := None;
                  tm_json_data_hash := None; tm_python_env_data_hash := None;
                  tm_start_in_seconds := None; tm_end_in_seconds := None;
                  tm_instance_attributes := ∅ |})
      end
  end.

(** ** Updating the processes *)

(** [bpmn_process.guid or "top_level"] *)
Definition bpmn_process_key (bpmn_process : BpmnProcessModel) : string :=
  match bp_guid bpmn_process with
  | Some guid => if decide (guid = EmptyString) then "top_level" else guid
  | None => "top_level"
  end.

(** [TaskService.update_bpmn_process].  The recursion goes up the outer
    workflows, of which there are finitely many. *)
Fixpoint update_bpmn_process (spiff_workflow : BpmnWorkflow)
    (bpmn_process : BpmnProcessModel) : M unit :=
  new_properties_json <- deref (bp_properties_json bpmn_process) TypeError ;;
  let new_properties_json :=
    pp_with_last_task_and_success (wf_last_task spiff_workflow) (wf_success spiff_workflow)
      new_properties_json in
  let bpmn_process := bp_with_properties_json (Some new_properties_json) bpmn_process in
  let '(bpmn_process, bpmn_process_json_data) :=
    update_task_data_on_bpmn_process bpmn_process (wf_data spiff_workflow) in
  buffer_json_data bpmn_process_json_data ;;;
  modify (λ s, with_bpmn_processes
                 (<[bpmn_process_key bpmn_process := bpmn_process]> (bpmn_processes s))
                 (with_db (with_bpmn_process_rows
                             (store_row bpmn_process (bpmn_process_rows (db s))) (db s)) s)) ;;;
  match spiff_workflow with
  | mkBpmnWorkflow _ _ _ _ _ (Some outer) =>
      s <- get_state ;;
      direct_parent_bpmn_process <-
        deref (bpmn_process_by_id (bpmn_process_rows (db s))
                 (bp_direct_parent_process_id bpmn_process)) AttributeError ;;
      update_bpmn_process outer direct_parent_bpmn_process
  | mkBpmnWorkflow _ _ _ _ _ None => ret tt
  end.

(** Modelled from the spec:
    [ProcessInstanceTmpService.add_event_to_process_instance] with
    [add_to_db_session=False], which is not part of these sources.  It
    builds the lifecycle event of the given type, task and time. *)
Definition add_event_to_process_instance (process_instance : ProcessInstanceModel)
    (event_type : string) (task_guid : string) (timestamp : Z) : ProcessInstanceEventModel :=
  {| ev_process_instance_id := pi_id process_instance;
     ev_event_type := event_type;
     ev_task_guid := task_guid;
     ev_timestamp := timestamp |}.

(** [task_model.end_in_seconds or task_model.start_in_seconds or time.time()];
    the clock is read only when both times are falsy. *)
Definition completion_timestamp (task_model : TaskModel) : M Z :=
  if truthy (tm_end_in_seconds task_model) then ret (default 0 (tm_end_in_seconds task_model))
  else if truthy (tm_start_in_seconds task_model)
       then ret (default 0 (tm_start_in_seconds task_model))
       else s <- get_state ;;
            modify (with_clock (S (clock s))) ;;;
            ret (time_time env (clock s)).

(** Lines 220-233 of [update_task_model_with_spiff_task]: the event of
    a task whose state is ["COMPLETED"]. *)
Definition record_completion (task_model : TaskModel) : M unit :=
  if decide (tm_state task_model = Some "COMPLETED") then
    timestamp <- completion_timestamp task_model ;;
    s <- get_state ;;
    let process_instance_event :=
      add_event_to_process_instance (process_instance s) (task_completed env)
        (tm_guid task_model) timestamp in
    modify (with_process_instance_events
              (<[tm_guid task_model := process_instance_event]> (process_instance_events s)))
  else ret tt.

(** [TaskService.update_task_model_with_spiff_task].  The task model is
    one object, so the entry of [task_models] is written with the times
    the lines after it assign. *)
Definition update_task_model_with_spiff_task (spiff_task : SpiffTask)
    (start_and_end_times : option StartAndEndTimes) : M TaskModel :=
  s <- get_state ;;
  found <-
    match task_models s !! st_id spiff_task with
    | Some task_model => ret (None, task_model)
    | None => find_or_create_task_model_from_spiff_task spiff_task
    end ;;
  let '(new_bpmn_process, task_model) := found in
  s <- get_state ;;
  let bpmn_process :=
    match new_bpmn_process with
    | Some b => Some b
    | None => bpmn_process_by_id (bpmn_process_rows (db s)) (tm_bpmn_process_id task_model)
    end in
  task_model <- update_task_model task_model spiff_task ;;
  bpmn_process <- deref bpmn_process AttributeError ;;
  let '(bpmn_process, bpmn_process_json_data) :=
    update_task_data_on_bpmn_process bpmn_process (wf_data (st_workflow spiff_task)) in
  buffer_json_data bpmn_process_json_data ;;;
  let task_model :=
    match start_and_end_times with
    | Some times => tm_with_times (start_in_seconds times) (end_in_seconds times) task_model
    | None => task_model
    end in
  modify (λ s, with_task_models (<[tm_guid task_model := task_model]> (task_models s)) s) ;;;
  record_completion task_model ;;;
  update_bpmn_process (st_workflow spiff_task) bpmn_process ;;;
  ret task_model.

(** ** The walk *)

(** [TaskService.process_spiff_task_children] *)
Fixpoint process_spiff_task_children (spiff_task : SpiffTask) : M unit :=
  match spiff_task with
  | mkSpiffTask _ _ _ _ _ _ children =>
      for_each
        (λ child_spiff_task,
           if _has_state child_spiff_task (PREDICTED_MASK env) then prune child_spiff_task
           else
             update_task_model_with_spiff_task child_spiff_task None ;;;
             process_spiff_task_children child_spiff_task)
        children
  end.

(** [TaskService.process_spiff_task_parent_subprocess_tasks].  The ascent
    follows the engine's subprocess table, so it takes fuel; [None] is
    fuel run out. *)
Fixpoint process_spiff_task_parent_subprocess_tasks (fuel : nat) (spiff_task : SpiffTask)
    (s : ServiceState) : option (result (unit * ServiceState)) :=
  match fuel with
  | O => None
  | S fuel =>
      match (_task_subprocess spiff_task).1 with
      | Some parent_subprocess_guid =>
          match get_task_from_id env (_get_outermost_workflow (st_workflow spiff_task))
                  parent_subprocess_guid with
          | Some spiff_task_of_parent_subprocess =>
              match (update_task_model_with_spiff_task spiff_task_of_parent_subprocess None ;;;
                     process_spiff_task_children spiff_task_of_parent_subprocess) s with
              | Ok (_, s') =>
                  process_spiff_task_parent_subprocess_tasks fuel
                    spiff_task_of_parent_subprocess s'
              | Raise e => Some (Raise e)
              end
          | None => Some (Ok (tt, s))
          end
      | None => Some (Ok (tt, s))
      end
  end.

(** ** The flush *)

(** [dict.values()] *)
Definition values {A} (m : gmap string A) : list A := (map_to_list m).*2.

(** [TaskService.insert_or_update_json_data_records]: the statement it
    executes, if any. *)
Definition insert_or_update_json_data_records
    (json_data_hash_to_json_data_dict_mapping : gmap string JsonDataDict) : list statement :=
  let list_of_dicts := values json_data_hash_to_json_data_dict_mapping in
  if decide (0 < length list_of_dicts)%nat then
    if decide (database_type env = "mysql")
    then [insert_on_duplicate_key_update list_of_dicts]
    else [insert_on_conflict_do_nothing list_of_dicts]
  else [].

(** [TaskService.save_objects_to_database]: the statements it issues, in
    order. *)
Definition save_objects_to_database (s : ServiceState) : list statement :=
  [ bulk_save_bpmn_processes (values (bpmn_processes s));
    bulk_save_task_models (values (task_models s));
    bulk_save_process_instance_events (values (process_instance_events s)) ]
  ++ insert_or_update_json_data_records (json_data_dicts s).

(** [TaskService.process_parents_and_children_and_save_to_database] *)
Definition process_parents_and_children_and_save_to_database (fuel : nat)
    (spiff_task : SpiffTask) (s : ServiceState)
    : option (result (list statement * ServiceState)) :=
  match process_spiff_task_children spiff_task s with
  | Ok (_, s1) =>
      match process_spiff_task_parent_subprocess_tasks fuel spiff_task s1 with
      | Some (Ok (_, s2)) => Some (Ok (save_objects_to_database s2, s2))
      | Some (Raise e) => Some (Raise e)
      | None => None
      end
  | Raise e => Some (Raise e)
  end.

(** [TaskService.insert_or_update_json_data_dict] *)
Definition insert_or_update_json_data_dict (json_data_dict : JsonDataDict) : list statement :=
  insert_or_update_json_data_records {[jd_hash json_data_dict := json_data_dict]}.

(** ** Notions the claims are stated with *)

(** A row descends from the given processes: its chain of
    [direct_parent_process_id] leads to one of them. *)
Inductive descends_from (db : Database) (roots : list BpmnProcessModel)
    : BpmnProcessModel → Prop :=
| descends_child r p :
    r ∈ bpmn_process_rows db →
    bp_direct_parent_process_id r = Some p →
    Some p ∈ map bp_id roots →
    descends_from db roots r
| descends_further r q p :
    r ∈ bpmn_process_rows db →
    bp_direct_parent_process_id r = Some p →
    bp_id q = Some p →
    descends_from db roots q →
    descends_from db roots r.

(** The nesting of processes in the database has no cycle: a process
    ranks above the process in which its boundary task lives, and above
    its direct parent. *)
Record nesting_well_founded (db : Database) (rank : BpmnProcessModel → nat) : Prop := {
  rank_of_direct_parent :
    ∀ parent child,
      parent ∈ bpmn_process_rows db → child ∈ bpmn_process_rows db →
      is_Some (bp_id parent) →
      bp_direct_parent_process_id child = bp_id parent →
      (rank parent < rank child)%nat;
  rank_of_boundary_task :
    ∀ b guid t b',
      b ∈ bpmn_process_rows db → bp_guid b = Some guid →
      task_by_guid (task_rows db) guid = Some t →
      bpmn_process_of db t = Some b' →
      (rank b' < rank b)%nat;
}.

(** The references the lineage queries follow all resolve: a task has
    its process and its definition, and a nested process has its boundary
    task. *)
Record references_resolve (db : Database) : Prop := {
  task_has_bpmn_process :
    ∀ t, t ∈ task_rows db → is_Some (bpmn_process_of db t);
  task_has_task_definition :
    ∀ t, t ∈ task_rows db → is_Some (task_definition_of db t);
  process_has_boundary_task :
    ∀ b guid, b ∈ bpmn_process_rows db → bp_guid b = Some guid →
      is_Some (task_by_guid (task_rows db) guid);
}.

(** [task_model.task_definition.typename == "CallActivity"] *)
Definition is_call_activity (db : Database) (task_model : TaskModel) : Prop :=
  ∃ task_definition,
    task_definition_of db task_model = Some task_definition
    ∧ td_typename task_definition = "CallActivity".

(** The properties [update_task_model] writes for a task: those of the
    serializer, without parent for the task of spec ["Start"]. *)
Definition properties_of (spiff_task : SpiffTask) : TaskProperties :=
  if decide (st_task_spec spiff_task = "Start")
  then tp_with_parent None (task_to_dict spiff_task).1
  else (task_to_dict spiff_task).1.

(** The state column of a task model is the name [TaskStateNames] has
    for the state number in its properties. *)
Definition state_matches_properties (task_model : TaskModel) : Prop :=
  ∃ properties name,
    tm_properties_json task_model = Some properties
    ∧ TaskStateNames env (tp_state properties) = Some name
    ∧ tm_state task_model = Some name.

(** Every entry of [json_data_dicts] is stored under its own hash. *)
Definition json_data_keyed (m : gmap string JsonDataDict) : Prop :=
  ∀ h d, m !! h = Some d → jd_hash d = h.

(** A step that leaves all of the state but [json_data_dicts], which
    stays keyed by hash. *)
Definition only_json_data_buffered (s s' : ServiceState) : Prop :=
  db s' = db s
  ∧ process_instance s' = process_instance s
  ∧ bpmn_processes s' = bpmn_processes s
  ∧ task_models s' = task_models s
  ∧ process_instance_events s' = process_instance_events s
  ∧ clock s' = clock s
  ∧ (json_data_keyed (json_data_dicts s) → json_data_keyed (json_data_dicts s')).

(** A method that, started where [P] holds, leaves [Q] when it returns. *)
Definition hoare {A} (P : ServiceState → Prop) (m : M A)
    (Q : A → ServiceState → Prop) : Prop :=
  ∀ s a s', P s → m s = Ok (a, s') → Q a s'.

(** A method that never raises the exception [e]. *)
Definition never_raises {A} (e : exception) (m : M A) : Prop :=
  ∀ s, m s ≠ Raise e.

(** Every entry of a dictionary of the pass is stored under the identity
    of the object it holds: a task under its guid, a process under its
    guid or ["top_level"], a payload under its hash, an event under the
    guid of its task. *)
Definition buffers_keyed (s : ServiceState) : Prop :=
  (∀ k tm, task_models s !! k = Some tm → tm_guid tm = k)
  ∧ (∀ k b, bpmn_processes s !! k = Some b → bpmn_process_key b = k)
  ∧ json_data_keyed (json_data_dicts s)
  ∧ (∀ k ev, process_instance_events s !! k = Some ev → ev_task_guid ev = k).

(** A step that records no event and does not read the clock; it keeps
    the id of the process instance and leaves the dictionaries keyed. *)
Definition quiet_step (s s' : ServiceState) : Prop :=
  process_instance_events s' = process_instance_events s
  ∧ clock s' = clock s
  ∧ pi_id (process_instance s') = pi_id (process_instance s)
  ∧ (buffers_keyed s → buffers_keyed s').

(** A method all of whose returning runs are steps of [T]. *)
Definition steps_by {A} (T : relation ServiceState) (m : M A) : Prop :=
  ∀ s a s', m s = Ok (a, s') → T s s'.

(** The time an event gets: the end time of the task model when it is
    truthy, else its start time when that is truthy, else the clock. *)
Definition timestamp_of (task_model : TaskModel) (now : Z) : Z :=
  if truthy (tm_end_in_seconds task_model) then default 0 (tm_end_in_seconds task_model)
  else if truthy (tm_start_in_seconds task_model)
       then default 0 (tm_start_in_seconds task_model)
       else now.

(** Where [add_bpmn_process] creates a process below the top level
    process [top]: its query found no row of that guid below [top]. *)
Definition creates_below (s : ServiceState) (top : BpmnProcessModel)
    (bpmn_process_guid : option string) : Prop :=
  find (λ r, bool_decide (bp_top_level_process_id r = bp_id top
                          ∧ bp_guid r = bpmn_process_guid))
    (bpmn_process_rows (db s)) = None.




(** A task is speculative: its state is one of the predicted states. *)
Definition speculative (spiff_task : SpiffTask) : bool :=
  _has_state spiff_task (PREDICTED_MASK env).

(** A task with all the tasks below it. *)
Fixpoint subtree (spiff_task : SpiffTask) : list SpiffTask :=
  match spiff_task with
  | mkSpiffTask _ _ _ _ _ _ children => spiff_task :: flat_map subtree children
  end.

(** The tasks the descent from a task reaches: the task, and below it
    what is reached through children that are not speculative. *)
Fixpoint visited (spiff_task : SpiffTask) : list SpiffTask :=
  match spiff_task with
  | mkSpiffTask _ _ _ _ _ _ children =>
      spiff_task
      :: flat_map (λ child, if speculative child then [] else visited child) children
  end.

(** The guids of the children of a task that are not speculative. *)
Definition kept_children (spiff_task : SpiffTask) : list string :=
  map st_id (filter (λ child, speculative child = false) (st_children spiff_task)).

(** The entry of a task in [task_models] lists exactly the children that
    are not speculative. *)
Definition pruned_entry (s : ServiceState) (spiff_task : SpiffTask) : Prop :=
  ∃ task_model properties,
    task_models s !! st_id spiff_task = Some task_model
    ∧ tm_properties_json task_model = Some properties
    ∧ tp_children properties = kept_children spiff_task.

(** The speculative children met by the descent point to their parent. *)
Definition speculative_children_linked (spiff_task : SpiffTask) : Prop :=
  ∀ parent child,
    parent ∈ visited spiff_task → child ∈ st_children parent →
    speculative child = true → st_parent child = Some (st_id parent).

(** The process of a task has its row already, so that
    [task_bpmn_process] finds it and creates nothing. *)
Definition process_persisted (s : ServiceState) (spiff_task : SpiffTask) : Prop :=
  match _task_subprocess spiff_task with
  | (guid, Some _) =>
      is_Some (bpmn_process_by_guid (bpmn_process_rows (db s)) (default EmptyString guid))
  | (_, None) => is_Some (pi_bpmn_process_id (process_instance s))
  end.

(** An item of a tasks dict that [add_tasks_to_bpmn_process] handles: its
    spec is not ["Root"], and the workflow has the task of its id. *)
Definition listed (spiff_workflow : BpmnWorkflow) (item : string * TaskProperties)
    (spiff_task : SpiffTask) : Prop :=
  tp_task_spec item.2 ≠ "Root"
  ∧ get_task_from_id env spiff_workflow item.1 = Some spiff_task.

(** A tasks dict that lists a task before its speculative children.  The
    dict has every id once; a task is found under its own id, and so are
    its children; a speculative child points to its parent and has its
    item, not of spec ["Root"], after the item of the parent. *)
Definition parents_listed_first (spiff_workflow : BpmnWorkflow)
    (tasks : list (string * TaskProperties)) : Prop :=
  NoDup tasks.*1
  ∧ ∀ before item after spiff_task,
      tasks = before ++ item :: after →
      listed spiff_workflow item spiff_task →
      st_id spiff_task = item.1
      ∧ (speculative spiff_task = false →
         NoDup (map st_id (st_children spiff_task))
         ∧ ∀ child,
             child ∈ st_children spiff_task →
             get_task_from_id env spiff_workflow (st_id child) = Some child
             ∧ (speculative child = true →
                st_parent child = Some (st_id spiff_task)
                ∧ ∃ properties,
                    (st_id child, properties) ∈ after
                    ∧ tp_task_spec properties ≠ "Root")).

(** A child that is still in the entry of its parent when the items of
    the ids [pruned] have been handled. *)
Definition still_listed (pruned : list string) (child : SpiffTask) : Prop :=
  ¬ (speculative child = true ∧ st_id child ∈ pruned).

Global Instance still_listed_dec pruned child : Decision (still_listed pruned child).
Proof. unfold still_listed. apply _. Defined.

(** What the loop of [add_tasks_to_bpmn_process] has achieved after the
    items [handled]: the entry of every task written lists its children
    but the speculative ones met since. *)
Definition entries_pruned_so_far (spiff_workflow : BpmnWorkflow)
    (handled : list (string * TaskProperties)) (s : ServiceState) : Prop :=
  ∀ item spiff_task,
    item ∈ handled → listed spiff_workflow item spiff_task →
    speculative spiff_task = false →
    ∃ task_model properties,
      task_models s !! item.1 = Some task_model
      ∧ tm_properties_json task_model = Some properties
      ∧ tp_children properties
        = map st_id (filter (still_listed handled.*1) (st_children spiff_task)).

(** The session knows a task only with its process: a task that is in
    [task_models] or has a row has the row of its process. *)
Definition known_with_process (s : ServiceState) (spiff_task : SpiffTask) : Prop :=
  is_Some (task_models s !! st_id spiff_task)
  ∨ is_Some (task_by_guid (task_rows (db s)) (st_id spiff_task)) →
  process_persisted s spiff_task.

(** The id and the guid of every process row, in the order of the rows. *)
Definition row_keys (rows : list BpmnProcessModel) : list (option Z * option string) :=
  map (λ r, (bp_id r, bp_guid r)) rows.

(** Two states of a session with the same process rows, up to the
    attributes a pass assigns, and the same process instance. *)
Definition same_session (s s' : ServiceState) : Prop :=
  row_keys (bpmn_process_rows (db s')) = row_keys (bpmn_process_rows (db s))
  ∧ task_rows (db s') = task_rows (db s)
  ∧ process_instance s' = process_instance s.

(** An item of a dict, its value serialized. *)
Definition dumps_item (kv : string * json) : string * string := (kv.1, dumps kv.2).

(** What the ascent returns, read from the innermost process outwards:
    position 0 is the process of the task; the task at a position is the
    boundary task of the process at that position and lives in the
    process at the next one. *)
Definition outermost_first (db : Database) (task_model : TaskModel)
    (bpmn_processes : list BpmnProcessModel) (task_models : list TaskModel) : Prop :=
  reverse bpmn_processes !! 0%nat = bpmn_process_of db task_model
  ∧ (∀ i t, reverse task_models !! i = Some t →
       ∃ b, reverse bpmn_processes !! i = Some b ∧ bp_guid b = Some (tm_guid t))
  ∧ (∀ i t b, reverse task_models !! i = Some t →
       reverse bpmn_processes !! S i = Some b → bpmn_process_of db t = Some b).

(** Where the ascent ends: at the top level process, which has no guid
    and no boundary task, or, when asked to stop there, at the first call
    activity met, which is then the outermost task, with the process it
    called as the outermost process. *)
Definition ends_at (db : Database) (stop : bool)
    (bpmn_processes : list BpmnProcessModel) (task_models : list TaskModel) : Prop :=
  (length bpmn_processes = S (length task_models)
   ∧ (∃ b, head bpmn_processes = Some b ∧ bp_guid b = None)
   ∧ (stop = true → Forall (λ t, ¬ is_call_activity db t) task_models))
  ∨ (stop = true
     ∧ length bpmn_processes = length task_models
     ∧ (∃ t b, head task_models = Some t ∧ head bpmn_processes = Some b
               ∧ is_call_activity db t ∧ bp_guid b = Some (tm_guid t))
     ∧ Forall (λ t, ¬ is_call_activity db t) (tail task_models)).

(** The session with its rows keyed once. *)
Definition session_sound (s : ServiceState) : Prop :=
  buffers_keyed s ∧ NoDup (map bp_id (bpmn_process_rows (db s))).

(** The guids of a task and of the tasks below it. *)
Definition guids (spiff_task : SpiffTask) : list string := map st_id (subtree spiff_task).

(** What the descent below one task achieves, given that the entry of
    the task lists all its children. *)
Definition descent_prunes (spiff_task : SpiffTask) : Prop :=
  ∀ s s',
    session_sound s →
    (∀ u, u ∈ visited spiff_task → process_persisted s u) →
    NoDup (guids spiff_task) →
    speculative_children_linked spiff_task →
    (∃ task_model properties,
       task_models s !! st_id spiff_task = Some task_model
       ∧ tm_properties_json task_model = Some properties
       ∧ tp_children properties = map st_id (st_children spiff_task)) →
    process_spiff_task_children spiff_task s = Ok (tt, s') →
    session_sound s'
    ∧ same_session s s'
    ∧ (∀ k, k ∉ guids spiff_task → task_models s' !! k = task_models s !! k)
    ∧ (∀ u, u ∈ visited spiff_task → pruned_entry s' u)
    ∧ (∀ u, u ∈ subtree spiff_task → u ∉ visited spiff_task →
            task_models s' !! st_id u = task_models s !! st_id u).

(** ** Notions the further properties are stated with *)

(** A step that leaves [task_models] and the events as they are, and
    does not read the clock. *)
Definition keeps_task_models (s s' : ServiceState) : Prop :=
  task_models s' = task_models s
  ∧ process_instance_events s' = process_instance_events s
  ∧ clock s' = clock s.

(** The last task of spec ["Start"] in the tasks of a workflow dict. *)
Definition last_start_task (tasks : list (string * TaskProperties))
    : option (string * TaskProperties) :=
  last (filter (λ item, tp_task_spec item.2 = "Start") tasks).

(** The processes from the top level process down to a process, each
    nested in the one before it through the task its guid names.  The
    lookups decide every step, so a process has at most one chain. *)
Inductive enclosing_chain (db : Database) : BpmnProcessModel → list BpmnProcessModel → Prop :=
| chain_top b :
    bp_guid b = None → enclosing_chain db b [b]
| chain_nested b guid boundary outer l :
    bp_guid b = Some guid →
    task_by_guid (task_rows db) guid = Some boundary →
    bpmn_process_of db boundary = Some outer →
    enclosing_chain db outer l →
    enclosing_chain db b (l ++ [b]).

(** From a process outwards to a second one, through boundary tasks of
    which none is a call activity. *)
Inductive called_from (db : Database) : BpmnProcessModel → BpmnProcessModel → Prop :=
| called_here b :
    called_from db b b
| called_further b guid boundary outer b' :
    bp_guid b = Some guid →
    task_by_guid (task_rows db) guid = Some boundary →
    ¬ is_call_activity db boundary →
    bpmn_process_of db boundary = Some outer →
    called_from db outer b' →
    called_from db b b'.

(** * Properties *)

(** ** The order on keys *)

Lemma ascii_compare_refl (c : Ascii.ascii) : Ascii.compare c c = Eq.
Proof. unfold Ascii.compare. apply N.compare_refl. Qed.

Lemma ascii_compare_lt_trans (a b c : Ascii.ascii) :
  Ascii.compare a b = Lt → Ascii.compare b c = Lt → Ascii.compare a c = Lt.
Proof.
  unfold Ascii.compare. rewrite !N.compare_lt_iff. lia.
Qed.

Lemma string_compare_not_gt_trans (a b c : string) :
  String.compare a b ≠ Gt → String.compare b c ≠ Gt → String.compare a c ≠ Gt.
Proof.
  revert b c. induction a as [|x a IH]; intros [|y b] [|z c]; simpl; try congruence.
  destruct (Ascii.compare x y) eqn:Hxy; try congruence.
  - apply Ascii.compare_eq_iff in Hxy as ->.
    destruct (Ascii.compare y z) eqn:Hyz; try congruence. apply IH.
  - destruct (Ascii.compare y z) eqn:Hyz; try congruence.
    + apply Ascii.compare_eq_iff in Hyz as ->. rewrite Hxy. congruence.
    + rewrite (ascii_compare_lt_trans x y z Hxy Hyz). congruence.
Qed.

Lemma string_leb_trans (a b c : string) :
  String.leb a b = true → String.leb b c = true → String.leb a c = true.
Proof.
  unfold String.leb. intros Hab Hbc.
  pose proof (string_compare_not_gt_trans a b c) as H.
  destruct (String.compare a b), (String.compare b c), (String.compare a c);
    try reflexivity; try discriminate; exfalso; apply H; congruence.
Qed.

Global Instance key_le_transitive : Transitive key_le.
Proof. intros a b c. unfold key_le. apply string_leb_trans. Qed.

Global Instance key_le_total : Total key_le.
Proof. intros a b. unfold key_le. apply String.leb_total. Qed.

Lemma NoDup_fst_same_key {A} (l : list (string * A)) (x y : string * A) :
  NoDup l.*1 → x ∈ l → y ∈ l → x.1 = y.1 → x = y.
Proof.
  induction l as [|z l IH]; simpl; intros Hnd Hx Hy Hk.
  { by apply elem_of_nil in Hx. }
  apply NoDup_cons in Hnd as [Hz Hnd].
  apply elem_of_cons in Hx as [->|Hx]; apply elem_of_cons in Hy as [->|Hy]; auto.
  - exfalso. apply Hz. rewrite Hk. apply list_elem_of_fmap. by exists y.
  - exfalso. apply Hz. rewrite <- Hk. apply list_elem_of_fmap. by exists x.
Qed.

(** Sorting the items of a dict gives one list, whatever order they were
    inserted in. *)
Lemma merge_sort_key_le_unique (l1 l2 : list (string * string)) :
  NoDup l1.*1 → l1 ≡ₚ l2 → merge_sort key_le l1 = merge_sort key_le l2.
Proof.
  intros Hnd Hperm.
  apply (Sorted_unique_strong key_le).
  - intros x1 x2 Hx1 Hx2 H12 H21.
    apply (NoDup_fst_same_key l1); auto.
    + by rewrite merge_sort_Permutation in Hx1.
    + rewrite merge_sort_Permutation in Hx2. by rewrite Hperm.
    + apply String.leb_antisym; assumption.
  - apply Sorted_merge_sort; apply _.
  - apply Sorted_merge_sort; apply _.
  - by rewrite !merge_sort_Permutation.
Qed.

(** ** Serialization *)

Lemma dumps_dict (entries : list (string * json)) :
  dumps (JDict entries) =
  "{" +:+ String.concat ", " (map render_item (merge_sort key_le (map dumps_item entries)))
      +:+ "}".
Proof.
  assert (map (λ kv : string * json, let '(k, v) := kv in (k, dumps v)) entries
          = map dumps_item entries) as Hmap.
  { apply map_ext. by intros [k v]. }
  simpl. by rewrite Hmap.
Qed.

Lemma dumps_same_payload (j1 : json) :
  dict_keys_unique j1 → ∀ j2, same_payload j1 j2 → dumps j1 = dumps j2.
Proof.
  induction j1 as [| | | |items IH|entries IH] using json_nested_ind;
    intros Hu j2 Hs; inversion Hs; subst; try reflexivity.
  - inversion Hu as [| | | |? Hitems|]; subst.
    simpl. do 3 f_equal.
    match goal with H : Forall2 same_payload items _ |- _ => rename H into HF end.
    clear Hs Hu. induction HF as [|x y l l' Hxy HF IHF]; [reflexivity|].
    apply Forall_cons in IH as [IHx IH]. apply Forall_cons in Hitems as [Hx Hitems].
    simpl. f_equal; auto.
  - inversion Hu as [| | | | |? Hnd Hvals]; subst.
    match goal with H : entries ≡ₚ _ |- _ => rename H into Hperm end.
    match goal with H : Forall2 _ _ _ |- _ => rename H into HF end.
    rewrite !dumps_dict. do 4 f_equal.
    assert (map dumps_item kvs = map dumps_item kvs2) as <-.
    { rewrite Hperm in IH, Hvals. clear Hperm Hs Hu Hnd.
      induction HF as [|x y l l' [Hk Hxy] HF IHF]; [reflexivity|].
      apply Forall_cons in IH as [IHx IH]. apply Forall_cons in Hvals as [Hx Hvals].
      simpl. f_equal; auto.
      unfold dumps_item. rewrite Hk. f_equal. auto. }
    apply merge_sort_key_le_unique.
    + rewrite <- list_fmap_compose. exact Hnd.
    + by apply fmap_Permutation.
Qed.

(** ** The methods, step by step *)

Lemma bind_Ok {A B} (m : M A) (k : A → M B) (s s' : ServiceState) (b : B) :
  bind m k s = Ok (b, s') ↔ ∃ a s1, m s = Ok (a, s1) ∧ k a s1 = Ok (b, s').
Proof.
  unfold bind. split.
  - destruct (m s) as [[a s1]|e]; [|discriminate]. intros H. by exists a, s1.
  - intros (a & s1 & -> & H). exact H.
Qed.

Lemma deref_Ok {A} (o : option A) (e : exception) (s s' : ServiceState) (a : A) :
  deref o e s = Ok (a, s') ↔ o = Some a ∧ s' = s.
Proof.
  unfold deref, ret, raise. destruct o; split.
  - intros [= -> ->]. done.
  - intros [[= ->] ->]. done.
  - discriminate.
  - intros [[=] _].
Qed.

Lemma lift_result_Ok {A} (r : result A) (s s' : ServiceState) (a : A) :
  lift_result r s = Ok (a, s') ↔ r = Ok a ∧ s' = s.
Proof.
  unfold lift_result, ret, raise. destruct r; split.
  - intros [= -> ->]. done.
  - intros [[= ->] ->]. done.
  - discriminate.
  - intros [[=] _].
Qed.

Lemma ret_Ok {A} (a a' : A) (s s' : ServiceState) :
  ret a s = Ok (a', s') ↔ a' = a ∧ s' = s.
Proof. unfold ret. split; [intros [= -> ->]|intros [-> ->]]; done. Qed.

Lemma modify_Ok (f : ServiceState → ServiceState) (s s' : ServiceState) (u : unit) :
  modify f s = Ok (u, s') ↔ s' = f s.
Proof. unfold modify. destruct u. split; [intros [= ->]|intros ->]; done. Qed.

Lemma get_state_Ok (s s' x : ServiceState) :
  get_state s = Ok (x, s') ↔ x = s ∧ s' = s.
Proof. unfold get_state. split; [intros [= -> ->]|intros [-> ->]]; done. Qed.

(** Splits a run that returned into the runs of its steps. *)
Ltac step_in H :=
  first
    [ apply bind_Ok in H as (? & ? & ? & H)
    | apply deref_Ok in H as [? ?]
    | apply lift_result_Ok in H as [? ?]
    | apply ret_Ok in H as [? ?]
    | apply modify_Ok in H
    | apply get_state_Ok in H as [? ?] ].

(** ** Attributes *)

Lemma getattr_setattr (task_model : TaskModel) (name value : string) :
  getattr (setattr task_model name value) name = Some value.
Proof.
  unfold getattr, setattr. repeat case_decide; simpl; try done.
  apply lookup_insert_eq.
Qed.

Lemma setattr_other_name_keeps_python_env_data_hash (task_model : TaskModel)
    (name value : string) :
  name ≠ "python_env_data_hash" →
  tm_python_env_data_hash (setattr task_model name value) = tm_python_env_data_hash task_model.
Proof. intros Hne. unfold setattr. repeat case_decide; simpl; congruence. Qed.

Lemma update_task_data_columns (task_model : TaskModel) (payload : json) (column : string) :
  let task_model' :=
    (update_task_data_on_task_model_and_return_dict_if_updated task_model payload column).1 in
  tm_guid task_model' = tm_guid task_model
  ∧ tm_state task_model' = tm_state task_model
  ∧ tm_properties_json task_model' = tm_properties_json task_model
  ∧ tm_start_in_seconds task_model' = tm_start_in_seconds task_model
  ∧ tm_end_in_seconds task_model' = tm_end_in_seconds task_model
  ∧ tm_bpmn_process_id task_model' = tm_bpmn_process_id task_model.
Proof.
  unfold update_task_data_on_task_model_and_return_dict_if_updated, setattr.
  repeat case_decide; simpl; done.
Qed.

Lemma update_task_data_stored_hash (task_model : TaskModel) (payload : json) (column : string) :
  getattr (update_task_data_on_task_model_and_return_dict_if_updated
             task_model payload column).1 column = Some (hash_of payload).
Proof.
  unfold update_task_data_on_task_model_and_return_dict_if_updated.
  case_decide as Hne; simpl.
  - apply getattr_setattr.
  - exact Hne.
Qed.

(** ** Claims about hashing and change detection *)

(** C6: the content hash is the sha256 digest of the serialization with
    sorted keys, so two payloads that are structurally equal, also when
    their dicts list the keys in different orders, get the same hash, and
    a task model updated with either stores the same hash. *)
Theorem hash_of_same_payload (payload1 payload2 : json) :
  dict_keys_unique payload1 →
  same_payload payload1 payload2 →
  hash_of payload1 = sha256_hexdigest env (dumps payload1)
  ∧ hash_of payload1 = hash_of payload2
  ∧ ∀ task_model column,
      (update_task_data_on_task_model_and_return_dict_if_updated
         task_model payload1 column).1
      = (update_task_data_on_task_model_and_return_dict_if_updated
           task_model payload2 column).1.
Proof.
  intros Hu Hs.
  assert (hash_of payload1 = hash_of payload2) as Hh.
  { unfold hash_of. f_equal. by apply dumps_same_payload. }
  split; [reflexivity|]. split; [exact Hh|].
  intros task_model column.
  unfold update_task_data_on_task_model_and_return_dict_if_updated.
  rewrite Hh. by case_decide.
Qed.

(** C3: change detection is idempotent.  When the hash of the payload is
    the hash stored on the task model (on the process), the update returns
    [None] and leaves the model as it is; so the same update run a second
    time returns no dict to write. *)
Theorem change_detection_is_idempotent (task_model : TaskModel)
    (bpmn_process : BpmnProcessModel) (payload : json) (column : string) :
  getattr task_model column = Some (hash_of payload) →
  bp_json_data_hash bpmn_process = Some (hash_of payload) →
  update_task_data_on_task_model_and_return_dict_if_updated task_model payload column
    = (task_model, None)
  ∧ update_task_data_on_bpmn_process bpmn_process payload = (bpmn_process, None)
  ∧ (∀ task_model0,
       let first_run :=
         update_task_data_on_task_model_and_return_dict_if_updated task_model0 payload column in
       update_task_data_on_task_model_and_return_dict_if_updated first_run.1 payload column
         = (first_run.1, None))
  ∧ (∀ bpmn_process0,
       let first_run := update_task_data_on_bpmn_process bpmn_process0 payload in
       update_task_data_on_bpmn_process first_run.1 payload = (first_run.1, None)).
Proof.
  intros Htm Hbp.
  assert (∀ tm, getattr tm column = Some (hash_of payload) →
            update_task_data_on_task_model_and_return_dict_if_updated tm payload column
            = (tm, None)) as Htask.
  { intros tm H. unfold update_task_data_on_task_model_and_return_dict_if_updated.
    rewrite H. by case_decide. }
  assert (∀ b, bp_json_data_hash b = Some (hash_of payload) →
            update_task_data_on_bpmn_process b payload = (b, None)) as Hproc.
  { intros b H. unfold update_task_data_on_bpmn_process. rewrite H. by case_decide. }
  repeat split; auto.
  - intros tm0 first_run. apply Htask. apply update_task_data_stored_hash.
  - intros b0 first_run. apply Hproc. subst first_run.
    unfold update_task_data_on_bpmn_process. case_decide as Hne; simpl; done.
Qed.

(** C2, as the code has it: [reset_task_model] with the default hash
    arguments sets the state, clears both times and resets
    [json_data_hash] to the hash of [{}], but it writes the second hash
    under the name ["python_env_data"], so the column
    [python_env_data_hash] keeps the value it had. *)
Theorem reset_task_model_keeps_python_env_data_hash (task_model task_model' : TaskModel)
    (state : string) :
  reset_task_model task_model state None None = Ok task_model' →
  tm_state task_model' = Some state
  ∧ tm_start_in_seconds task_model' = None
  ∧ tm_end_in_seconds task_model' = None
  ∧ tm_json_data_hash task_model' = Some (hash_of empty_dict)
  ∧ tm_python_env_data_hash task_model' = tm_python_env_data_hash task_model.
Proof.
  unfold reset_task_model.
  destruct (TaskState env state) as [n|]; [|discriminate].
  set (tm1 := (update_task_data_on_task_model_and_return_dict_if_updated
                 task_model empty_dict "json_data_hash").1).
  set (tm2 := (update_task_data_on_task_model_and_return_dict_if_updated
                 tm1 empty_dict "python_env_data").1).
  assert (tm_json_data_hash tm1 = Some (hash_of empty_dict)) as H1.
  { pose proof (update_task_data_stored_hash task_model empty_dict "json_data_hash") as H.
    unfold getattr in H. by rewrite decide_True in H. }
  assert (tm_json_data_hash tm2 = tm_json_data_hash tm1
          ∧ tm_python_env_data_hash tm2 = tm_python_env_data_hash tm1) as [H2 H3].
  { unfold tm2, update_task_data_on_task_model_and_return_dict_if_updated, setattr.
    repeat case_decide; simpl; done. }
  assert (tm_python_env_data_hash tm1 = tm_python_env_data_hash task_model) as H4.
  { unfold tm1, update_task_data_on_task_model_and_return_dict_if_updated, setattr.
    repeat case_decide; simpl; done. }
  clearbody tm2. clearbody tm1.
  simpl. destruct (tm_properties_json tm2) as [props|] eqn:Hprops; [|discriminate].
  intros [= <-]. simpl.
  repeat split; congruence.
Qed.

(** ** Lineage queries *)

Lemma find_Some_elem_of {A} (f : A → bool) (l : list A) (x : A) :
  find f l = Some x → x ∈ l ∧ f x = true.
Proof. intros H. apply find_some in H as [H1 H2]. by apply list_elem_of_In in H1. Qed.

Lemma bpmn_process_by_id_Some rows id b :
  bpmn_process_by_id rows id = Some b → b ∈ rows ∧ bp_id b = id ∧ is_Some id.
Proof.
  unfold bpmn_process_by_id. destruct id as [z|]; [|discriminate].
  intros H. apply find_Some_elem_of in H as [H1 H2].
  apply bool_decide_eq_true in H2. eauto.
Qed.

Lemma task_by_guid_Some rows guid t :
  task_by_guid rows guid = Some t → t ∈ rows ∧ tm_guid t = guid.
Proof.
  unfold task_by_guid. intros H. apply find_Some_elem_of in H as [H1 H2].
  by apply bool_decide_eq_true in H2.
Qed.

Lemma direct_parent_in_true ids r :
  direct_parent_in ids r = true ↔
  ∃ p, bp_direct_parent_process_id r = Some p ∧ Some p ∈ ids.
Proof.
  unfold direct_parent_in. destruct (bp_direct_parent_process_id r) as [p|].
  - rewrite bool_decide_eq_true. split; [eauto|]. by intros (? & [= <-] & ?).
  - split; [discriminate|]. by intros (? & [=] & _).
Qed.

Lemma descends_from_children db roots children r :
  Forall (descends_from db roots) children →
  descends_from db children r → descends_from db roots r.
Proof.
  intros Hch Hr. induction Hr as [r p Hin Hpar Hp|r q p Hin Hpar Hq Hd IH].
  - apply list_elem_of_fmap in Hp as (q & Hq & Hqin).
    rewrite Forall_forall in Hch. eapply descends_further; eauto.
  - eapply descends_further; eauto.
Qed.

Lemma bpmn_process_and_descendants_unfold fuel db l :
  bpmn_process_and_descendants (S fuel) db l =
  let direct_children :=
    filter (λ r, direct_parent_in (map bp_id l) r = true) (bpmn_process_rows db) in
  if decide (0 < length direct_children)%nat then
    match bpmn_process_and_descendants fuel db direct_children with
    | Some descendants => Some (l ++ descendants)
    | None => None
    end
  else Some l.
Proof. reflexivity. Qed.

Lemma no_direct_children_of_nil (rows : list BpmnProcessModel) :
  filter (λ r, direct_parent_in [] r = true) rows = [].
Proof.
  induction rows as [|r rows IH]; [done|].
  rewrite filter_cons. case_decide as Hr; [|done].
  apply direct_parent_in_true in Hr as (p & _ & Hp). by apply elem_of_nil in Hp.
Qed.

(** The rows below a list of rows that all rank high enough. *)
Lemma bpmn_process_and_descendants_of_rows db rank bound :
  nesting_well_founded db rank →
  (∀ r, r ∈ bpmn_process_rows db → (rank r < bound)%nat) →
  ∀ k l,
    Forall (λ x, x ∈ bpmn_process_rows db ∧ (bound ≤ rank x + k)%nat) l →
    ∃ descendants,
      bpmn_process_and_descendants (S k) db l = Some (l ++ descendants)
      ∧ Forall (descends_from db l) descendants.
Proof.
  intros Hwf Hbound. induction k as [|k IH]; intros l Hl.
  - assert (l = []) as ->.
    { destruct l as [|x l]; [done|]. apply Forall_cons in Hl as [[Hx Hr] _].
      specialize (Hbound x Hx). lia. }
    exists []. split; [|constructor].
    rewrite bpmn_process_and_descendants_unfold. simpl.
    by rewrite no_direct_children_of_nil.
  - rewrite bpmn_process_and_descendants_unfold. cbv zeta.
    set (children := filter _ (bpmn_process_rows db)).
    case_decide as Hlen; [|exists []; rewrite app_nil_r; split; [done|constructor]].
    assert (Forall (λ c, c ∈ bpmn_process_rows db ∧
                         ∃ p, bp_direct_parent_process_id c = Some p ∧ Some p ∈ map bp_id l)
              children) as Hch.
    { apply Forall_forall. intros c Hc. apply list_elem_of_filter in Hc as [Hc1 Hc2].
      split; [done|]. by apply direct_parent_in_true. }
    assert (Forall (descends_from db l) children) as Hdesc.
    { eapply Forall_impl; [exact Hch|]. intros c (Hc & p & Hp & Hin).
      eapply descends_child; eauto. }
    destruct (IH children) as (ds & Hrun & Hds).
    { rewrite Forall_forall in Hch, Hl. apply Forall_forall. intros c Hc.
      destruct (Hch c Hc) as (Hrow & p & Hp & Hin).
      apply list_elem_of_fmap in Hin as (q & Hq & Hqin).
      destruct (Hl q Hqin) as (Hqrow & Hqrank).
      split; [done|].
      assert (rank q < rank c)%nat; [|lia].
      apply (rank_of_direct_parent db rank Hwf q c Hqrow Hrow).
      - rewrite <- Hq. eauto.
      - congruence. }
    rewrite Hrun. exists (children ++ ds). split; [done|].
    apply Forall_app. split; [done|].
    eapply Forall_impl; [exact Hds|]. intros r. by apply descends_from_children.
Qed.

(** C10: [bpmn_process_and_descendants] returns the given list, in its
    order, followed only by rows that descend from it; when no row has a
    parent in the list, it returns the list as given.  The nesting of the
    rows has no cycle, so the recursion ends. *)
Theorem bpmn_process_and_descendants_prefix (db : Database)
    (rank : BpmnProcessModel → nat) (bpmn_processes : list BpmnProcessModel) :
  nesting_well_founded db rank →
  ∃ fuel descendants,
    bpmn_process_and_descendants fuel db bpmn_processes = Some (bpmn_processes ++ descendants)
    ∧ Forall (descends_from db bpmn_processes) descendants
    ∧ ((∀ r, r ∈ bpmn_process_rows db →
             direct_parent_in (map bp_id bpmn_processes) r = false) →
       descendants = []).
Proof.
  intros Hwf.
  set (bound := S (foldr (λ r acc, Nat.max (rank r) acc) 0%nat (bpmn_process_rows db))).
  assert (∀ r, r ∈ bpmn_process_rows db → (rank r < bound)%nat) as Hbound.
  { unfold bound. generalize (bpmn_process_rows db) as rows.
    induction rows as [|x rows IH]; intros r Hr; [by apply elem_of_nil in Hr|].
    simpl. apply elem_of_cons in Hr as [->|Hr]; [lia|]. specialize (IH r Hr). lia. }
  set (children := filter (λ r, direct_parent_in (map bp_id bpmn_processes) r = true)
                     (bpmn_process_rows db)).
  destruct (decide (0 < length children)%nat) as [Hlen|Hlen].
  - destruct (bpmn_process_and_descendants_of_rows db rank bound Hwf Hbound bound children)
      as (ds & Hrun & Hds).
    { apply Forall_forall. intros c Hc. apply list_elem_of_filter in Hc as [_ Hc].
      split; [done|lia]. }
    exists (S (S bound)), (children ++ ds).
    rewrite bpmn_process_and_descendants_unfold. cbv zeta. fold children.
    rewrite decide_True by done. rewrite Hrun. split; [done|]. split.
    + apply Forall_app. split.
      * apply Forall_forall. intros c Hc. apply list_elem_of_filter in Hc as [Hc1 Hc2].
        apply direct_parent_in_true in Hc1 as (p & Hp & Hin).
        eapply descends_child; eauto.
      * eapply Forall_impl; [exact Hds|]. intros r. apply descends_from_children.
        apply Forall_forall. intros c Hc. apply list_elem_of_filter in Hc as [Hc1 Hc2].
        apply direct_parent_in_true in Hc1 as (p & Hp & Hin).
        eapply descends_child; eauto.
    + intros Hnone. exfalso. destruct children as [|c cs] eqn:Hcs; [simpl in Hlen; lia|].
      assert (c ∈ children) as Hc by (rewrite Hcs; left).
      apply list_elem_of_filter in Hc as [Hc1 Hc2]. rewrite (Hnone c Hc2) in Hc1. discriminate.
  - exists 1%nat, []. rewrite bpmn_process_and_descendants_unfold. cbv zeta. fold children.
    rewrite decide_False by done. rewrite app_nil_r. split; [done|]. split; [constructor|done].
Qed.

Lemma task_models_of_parent_bpmn_processes_unfold fuel db task_model stop :
  task_models_of_parent_bpmn_processes (S fuel) db task_model stop =
  match bpmn_process_of db task_model with
  | None => Some (Raise AttributeError)
  | Some bpmn_process =>
      match bp_guid bpmn_process with
      | None => Some (Ok ([bpmn_process], []))
      | Some guid =>
          let parent_task_model := task_by_guid (task_rows db) guid in
          let ascend :=
            match parent_task_model with
            | Some parent =>
                match task_models_of_parent_bpmn_processes fuel db parent stop with
                | Some (Ok (b, t)) =>
                    Some (Ok (b ++ [bpmn_process], t ++ [parent_task_model]))
                | other => other
                end
            | None => Some (Ok ([bpmn_process], [parent_task_model]))
            end in
          if negb stop then ascend
          else
            match parent_task_model with
            | None => Some (Raise AttributeError)
            | Some parent =>
                match task_definition_of db parent with
                | None => Some (Raise AttributeError)
                | Some task_definition =>
                    if decide (td_typename task_definition ≠ "CallActivity")
                    then ascend
                    else Some (Ok ([bpmn_process], [parent_task_model]))
                end
            end
      end
  end.
Proof. reflexivity. Qed.

Lemma ascent_of_ranked_process db rank stop :
  nesting_well_founded db rank →
  references_resolve db →
  ∀ n task_model b,
    bpmn_process_of db task_model = Some b →
    (rank b < n)%nat →
    ∃ bpmn_processes task_models,
      task_models_of_parent_bpmn_processes n db task_model stop
        = Some (Ok (bpmn_processes, map Some task_models))
      ∧ outermost_first db task_model bpmn_processes task_models
      ∧ ends_at db stop bpmn_processes task_models.
Proof.
  intros Hwf Href. induction n as [|n IH]; intros task_model b Hb Hrank; [lia|].
  rewrite task_models_of_parent_bpmn_processes_unfold, Hb.
  pose proof (bpmn_process_by_id_Some _ _ _ Hb) as (Hbrow & _ & _).
  destruct (bp_guid b) as [guid|] eqn:Hguid.
  2:{ exists [b], []. split; [done|]. split.
      - split; [by rewrite Hb|]. split.
        + intros i t H. by destruct i.
        + intros i t b0 H. by destruct i.
      - left. split; [done|]. split; [by exists b|]. intros _. constructor. }
  destruct (process_has_boundary_task db Href b guid Hbrow Hguid) as [parent Hparent].
  cbv zeta. rewrite Hparent.
  pose proof (task_by_guid_Some _ _ _ Hparent) as [Hprow Hpguid].
  destruct (task_has_bpmn_process db Href parent Hprow) as [b' Hb'].
  destruct (task_has_task_definition db Href parent Hprow) as [td Htd].
  assert (rank b' < n)%nat as Hrank'.
  { pose proof (rank_of_boundary_task db rank Hwf b guid parent b' Hbrow Hguid Hparent Hb').
    lia. }
  destruct (IH parent b' Hb' Hrank') as (bs & ts & Hrun & (Hfirst & Hbound & Hown) & Hend).
  assert (∃ bpmn_processes task_models,
            match task_models_of_parent_bpmn_processes n db parent stop with
            | Some (Ok (b0, t)) => Some (Ok (b0 ++ [b], t ++ [Some parent]))
            | other => other
            end = Some (Ok (bpmn_processes, map Some task_models))
            ∧ outermost_first db task_model bpmn_processes task_models
            ∧ (length bpmn_processes = S (length task_models)
               ∧ (∃ b, head bpmn_processes = Some b ∧ bp_guid b = None)
               ∧ (stop = true → ¬ is_call_activity db parent →
                  Forall (λ t, ¬ is_call_activity db t) task_models)
               ∨ stop = true
                 ∧ length bpmn_processes = length task_models
                 ∧ (∃ t b, head task_models = Some t ∧ head bpmn_processes = Some b
                           ∧ is_call_activity db t ∧ bp_guid b = Some (tm_guid t))
                 ∧ (¬ is_call_activity db parent →
                    Forall (λ t, ¬ is_call_activity db t) (tail task_models))))
    as Hascend.
  { exists (bs ++ [b]), (ts ++ [parent]). rewrite Hrun. split.
    { by rewrite map_app. }
    split.
    - unfold outermost_first. rewrite !reverse_app. simpl. split; [by rewrite Hb|]. split.
      + intros [|i] t; simpl.
        * intros [= <-]. exists b. by rewrite Hpguid.
        * apply Hbound.
      + intros [|i] t b0; simpl.
        * intros [= <-] Hb0. rewrite Hfirst in Hb0. congruence.
        * apply Hown.
    - destruct Hend as [(Hlen & (b0 & Hhead & Htop) & Hnone)
                       |(Hstop & Hlen & (t0 & b0 & Hht & Hhb & Hca & Hg) & Hnone)].
      + left. rewrite !length_app. simpl. split; [lia|]. split.
        * exists b0. split; [|done]. destruct bs; [discriminate|done].
        * intros Hstop Hp. apply Forall_app. split; [auto|]. by constructor.
      + right. split; [done|]. rewrite !length_app. simpl. split; [lia|]. split.
        * exists t0, b0. destruct ts; [discriminate|]. destruct bs; [discriminate|].
          simpl in *. done.
        * intros Hp. destruct ts as [|t1 ts]; [discriminate|]. simpl in *.
          apply Forall_app. split; [done|]. by constructor. }
  destruct stop; simpl.
  - rewrite Htd. case_decide as Hca.
    + destruct Hascend as (bs' & ts' & Hrun' & Hfirst' & Hend').
      exists bs', ts'. split; [done|]. split; [done|].
      assert (¬ is_call_activity db parent) as Hnca.
      { intros (td' & Htd' & Hty). congruence. }
      destruct Hend' as [(H1 & H2 & H3)|(H1 & H2 & H3 & H4)].
      * left. split; [done|]. split; [done|]. auto.
      * right. split; [done|]. split; [done|]. split; [done|]. auto.
    + exists [b], [parent]. split; [done|]. split.
      * unfold outermost_first. simpl. split; [by rewrite Hb|]. split.
        -- intros [|i] t; simpl; [|rewrite lookup_nil; discriminate].
           intros [= <-]. exists b. by rewrite Hpguid.
        -- intros [|i] t b0; simpl; rewrite ?lookup_nil; discriminate.
      * right. split; [done|]. split; [done|]. split; [|constructor].
        exists parent, b. split; [done|]. split; [done|]. split; [|by rewrite Hpguid].
        exists td. done.
  - destruct Hascend as (bs' & ts' & Hrun' & Hfirst' & Hend').
    exists bs', ts'. split; [done|]. split; [done|].
    destruct Hend' as [(H1 & H2 & H3)|(H1 & _)]; [|discriminate].
    left. split; [done|]. split; [done|]. discriminate.
Qed.

(** C7: [task_models_of_parent_bpmn_processes] returns the processes that
    enclose a task and the boundary tasks between them, outermost first:
    every process and task comes after the process it is nested in.  With
    [stop_on_first_call_activity] the ascent ends at the first boundary
    task that is a call activity, which with its process is then the
    outermost pair returned.  In a database whose references resolve and
    whose nesting has no cycle, the call returns. *)
Theorem task_models_of_parent_bpmn_processes_outermost_first (db : Database)
    (rank : BpmnProcessModel → nat) (task_model : TaskModel)
    (stop_on_first_call_activity : bool) :
  nesting_well_founded db rank →
  references_resolve db →
  is_Some (bpmn_process_of db task_model) →
  ∃ fuel bpmn_processes task_models,
    task_models_of_parent_bpmn_processes fuel db task_model stop_on_first_call_activity
      = Some (Ok (bpmn_processes, map Some task_models))
    ∧ outermost_first db task_model bpmn_processes task_models
    ∧ ends_at db stop_on_first_call_activity bpmn_processes task_models.
Proof.
  intros Hwf Href [b Hb].
  destruct (ascent_of_ranked_process db rank stop_on_first_call_activity Hwf Href
              (S (rank b)) task_model b Hb) as (bs & ts & H); [lia|].
  exists (S (rank b)), bs, ts. exact H.
Qed.

(** ** Reasoning about methods *)



Lemma hoare_raise {A} P (e : exception) (Q : A → ServiceState → Prop) :
  hoare P (raise e) Q.
Proof. intros s a s' _ Hrun. discriminate. Qed.

Lemma hoare_get_state (P : ServiceState → Prop) (Q : ServiceState → ServiceState → Prop) :
  (∀ s, P s → Q s s) → hoare P get_state Q.
Proof. intros H s a s' HP Hrun. apply get_state_Ok in Hrun as [-> ->]. auto. Qed.

Lemma hoare_modify (P : ServiceState → Prop) f (Q : unit → ServiceState → Prop) :
  (∀ s, P s → Q tt (f s)) → hoare P (modify f) Q.
Proof. intros H s [] s' HP Hrun. apply modify_Ok in Hrun as ->. auto. Qed.

Lemma hoare_deref {A} (P : ServiceState → Prop) (o : option A) e
    (Q : A → ServiceState → Prop) :
  (∀ a s, o = Some a → P s → Q a s) → hoare P (deref o e) Q.
Proof. intros H s a s' HP Hrun. apply deref_Ok in Hrun as [-> ->]. auto. Qed.

Lemma hoare_lift_result {A} (P : ServiceState → Prop) (r : result A)
    (Q : A → ServiceState → Prop) :
  (∀ a s, r = Ok a → P s → Q a s) → hoare P (lift_result r) Q.
Proof. intros H s a s' HP Hrun. apply lift_result_Ok in Hrun as [-> ->]. auto. Qed.

Lemma hoare_consequence {A} (P P' : ServiceState → Prop) (m : M A)
    (Q Q' : A → ServiceState → Prop) :
  hoare P' m Q' → (∀ s, P s → P' s) → (∀ a s, Q' a s → Q a s) → hoare P m Q.
Proof. intros Hm HP HQ s a s' H Hrun. apply HQ. eapply Hm; eauto. Qed.


Lemma never_raises_bind {A B} e (m : M A) (k : A → M B) :
  never_raises e m → (∀ a, never_raises e (k a)) → never_raises e (bind m k).
Proof.
  intros Hm Hk s. unfold bind. specialize (Hm s).
  destruct (m s) as [[a s1]|e']; [apply Hk|congruence].
Qed.

Lemma never_raises_ret {A} e (a : A) : never_raises e (ret a).
Proof. intros s. discriminate. Qed.

Lemma never_raises_get_state e : never_raises e get_state.
Proof. intros s. discriminate. Qed.

Lemma never_raises_modify e f : never_raises e (modify f).
Proof. intros s. discriminate. Qed.

Lemma never_raises_raise {A} e e' : e' ≠ e → never_raises (A := A) e (raise e').
Proof. intros Hne s. unfold raise. congruence. Qed.

Lemma never_raises_deref {A} e e' (o : option A) : e' ≠ e → never_raises e (deref o e').
Proof.
  intros Hne. destruct o; simpl; [apply never_raises_ret|by apply never_raises_raise].
Qed.

Lemma never_raises_for_each {A} e (body : A → M unit) (l : list A) :
  (∀ x, never_raises e (body x)) → never_raises e (for_each body l).
Proof.
  intros Hbody. induction l as [|x l IH]; simpl.
  - apply never_raises_ret.
  - apply never_raises_bind; auto.
Qed.

(** ** Updating one task *)

Lemma only_json_data_buffered_refl s : only_json_data_buffered s s.
Proof. unfold only_json_data_buffered. tauto. Qed.

Lemma only_json_data_buffered_trans s1 s2 s3 :
  only_json_data_buffered s1 s2 → only_json_data_buffered s2 s3 →
  only_json_data_buffered s1 s3.
Proof. unfold only_json_data_buffered. intuition congruence. Qed.

Lemma json_data_keyed_insert m d :
  json_data_keyed m → json_data_keyed (<[jd_hash d := d]> m).
Proof.
  intros Hm h d'. rewrite lookup_insert. case_decide as Hh.
  - intros [= <-]. done.
  - apply Hm.
Qed.

Lemma buffer_json_data_Ok d s u s' :
  buffer_json_data d s = Ok (u, s') → only_json_data_buffered s s'.
Proof.
  destruct d as [d|]; simpl; intros H.
  - apply modify_Ok in H as ->. unfold only_json_data_buffered; simpl.
    repeat split; try done. apply json_data_keyed_insert.
  - apply ret_Ok in H as [_ ->]. apply only_json_data_buffered_refl.
Qed.

Lemma update_task_model_unfold task_model spiff_task s :
  update_task_model task_model spiff_task s =
  (name <- deref (TaskStateNames env (tp_state (properties_of spiff_task))) KeyError ;;
   let first :=
     update_task_data_on_task_model_and_return_dict_if_updated
       (tm_with_state (Some name)
          (tm_with_properties_json (Some (properties_of spiff_task)) task_model))
       (st_data spiff_task) "json_data_hash" in
   let second :=
     update_task_data_on_task_model_and_return_dict_if_updated first.1
       (user_defined_state env (st_workflow spiff_task)) "python_env_data_hash" in
   buffer_json_data first.2 ;;;
   buffer_json_data second.2 ;;;
   ret second.1) s.
Proof.
  unfold update_task_model, properties_of, task_to_dict, bind.
  cbv beta iota zeta.
  destruct (deref _ KeyError s) as [[name s1]|e]; [|reflexivity].
  destruct (update_task_data_on_task_model_and_return_dict_if_updated
              (tm_with_state _ _) _ _) as [tm1 d1].
  cbn [fst snd].
  destruct (update_task_data_on_task_model_and_return_dict_if_updated tm1 _ _) as [tm2 d2].
  reflexivity.
Qed.

Lemma update_task_model_Ok task_model spiff_task s task_model' s' :
  update_task_model task_model spiff_task s = Ok (task_model', s') →
  tm_guid task_model' = tm_guid task_model
  ∧ tm_bpmn_process_id task_model' = tm_bpmn_process_id task_model
  ∧ tm_properties_json task_model' = Some (properties_of spiff_task)
  ∧ tm_state task_model' = TaskStateNames env (st_state spiff_task)
  ∧ is_Some (tm_state task_model')
  ∧ tm_start_in_seconds task_model' = tm_start_in_seconds task_model
  ∧ tm_end_in_seconds task_model' = tm_end_in_seconds task_model
  ∧ only_json_data_buffered s s'.
Proof.
  rewrite update_task_model_unfold. intros H.
  apply bind_Ok in H as (name & s1 & Hname & H).
  apply deref_Ok in Hname as [Hname ->].
  cbv zeta in H.
  set (tm0 := tm_with_state (Some name)
                (tm_with_properties_json (Some (properties_of spiff_task)) task_model)) in *.
  set (first := update_task_data_on_task_model_and_return_dict_if_updated
                  tm0 (st_data spiff_task) "json_data_hash") in *.
  set (second := update_task_data_on_task_model_and_return_dict_if_updated first.1
                   (user_defined_state env (st_workflow spiff_task))
                   "python_env_data_hash") in *.
  apply bind_Ok in H as (u1 & s2 & H1 & H).
  apply bind_Ok in H as (u2 & s3 & H2 & H).
  apply ret_Ok in H as [-> ->].
  apply buffer_json_data_Ok in H1. apply buffer_json_data_Ok in H2.
  pose proof (only_json_data_buffered_trans _ _ _ H1 H2) as Hframe.
  pose proof (update_task_data_columns tm0 (st_data spiff_task) "json_data_hash") as Hc1.
  pose proof (update_task_data_columns first.1
                (user_defined_state env (st_workflow spiff_task)) "python_env_data_hash") as Hc2.
  cbv zeta in Hc1, Hc2. fold first in Hc1. fold second in Hc2.
  assert (tm_guid tm0 = tm_guid task_model) as G0 by reflexivity.
  assert (tm_bpmn_process_id tm0 = tm_bpmn_process_id task_model) as B0 by reflexivity.
  assert (tm_properties_json tm0 = Some (properties_of spiff_task)) as P0 by reflexivity.
  assert (tm_state tm0 = Some name) as S0 by reflexivity.
  assert (tm_start_in_seconds tm0 = tm_start_in_seconds task_model) as T0 by reflexivity.
  assert (tm_end_in_seconds tm0 = tm_end_in_seconds task_model) as E0 by reflexivity.
  clearbody second. clearbody first. clearbody tm0.
  destruct Hc1 as (? & ? & ? & ? & ? & ?), Hc2 as (? & ? & ? & ? & ? & ?).
  assert (tp_state (properties_of spiff_task) = st_state spiff_task) as Hst.
  { unfold properties_of. by case_decide. }
  rewrite Hst in Hname.
  split_and!; try exact Hframe; try congruence.
  exists name. congruence.
Qed.

(** [reset_task_model] writes the state name given and the number
    [TaskState] has for it; the two agree when [TaskStateNames] maps the
    number back to the name. *)
Lemma reset_task_model_state_matches_properties task_model state h1 h2 task_model' :
  reset_task_model task_model state h1 h2 = Ok task_model' →
  ∃ properties n,
    tm_properties_json task_model' = Some properties
    ∧ TaskState env state = Some n
    ∧ tp_state properties = n
    ∧ tm_state task_model' = Some state
    ∧ (TaskStateNames env n = Some state →
       TaskStateNames env (tp_state properties) = tm_state task_model').
Proof.
  unfold reset_task_model.
  destruct (TaskState env state) as [n|]; [|discriminate].
  match goal with |- context [tm_properties_json ?t] =>
    destruct (tm_properties_json t) as [props|] end; [|discriminate].
  intros [= <-]. exists (tp_with_state n props), n. simpl. repeat split; done.
Qed.

(** C9, as the code has it: of the operations that write the state of a
    task, [update_task_model] keeps the state column and the snapshot
    consistent: the state it writes is the name [TaskStateNames] gives
    to the state number of the properties it writes, and the properties
    of a task of spec ["Start"] have no parent.  [reset_task_model]
    writes the name it is given and the number [TaskState] has under
    that name, which are consistent exactly when [TaskStateNames] maps
    the number back to the name; [reset_task_model_dict] writes the
    state and leaves the snapshot as it was. *)
Theorem task_state_writes_match_properties (task_model : TaskModel)
    (spiff_task : SpiffTask) (s : ServiceState) (state : string)
    (json_data_hash python_env_data_hash : option string)
    (task_model_dict : gmap string json) :
  (∀ task_model' s',
     update_task_model task_model spiff_task s = Ok (task_model', s') →
     state_matches_properties task_model'
     ∧ ∃ properties,
         tm_properties_json task_model' = Some properties
         ∧ tp_state properties = st_state spiff_task
         ∧ tp_task_spec properties = st_task_spec spiff_task
         ∧ (tp_task_spec properties = "Start" → tp_parent properties = None))
  ∧ (∀ task_model',
       reset_task_model task_model state json_data_hash python_env_data_hash
         = Ok task_model' →
       ∃ properties n,
         tm_properties_json task_model' = Some properties
         ∧ TaskState env state = Some n
         ∧ tp_state properties = n
         ∧ tm_state task_model' = Some state
         ∧ (state_matches_properties task_model' ↔ TaskStateNames env n = Some state))
  ∧ reset_task_model_dict task_model_dict state !! "state" = Some (JStr state)
  ∧ reset_task_model_dict task_model_dict state !! "properties_json"
    = task_model_dict !! "properties_json".
Proof.
  split_and!.
  - intros task_model' s' H.
    apply update_task_model_Ok in H as (_ & _ & Hp & Hs & [name Hn] & _).
    assert (tp_state (properties_of spiff_task) = st_state spiff_task
            ∧ tp_task_spec (properties_of spiff_task) = st_task_spec spiff_task) as [H1 H2].
    { unfold properties_of. by case_decide. }
    split.
    + exists (properties_of spiff_task), name. rewrite H1. split_and!; congruence.
    + exists (properties_of spiff_task). rewrite H1, H2. split_and!; try done.
      intros Hstart. unfold properties_of. by rewrite decide_True.
  - intros task_model' H.
    apply reset_task_model_state_matches_properties in H
      as (properties & n & Hp & Hn & Hst & Hs & Hok).
    exists properties, n. split_and!; try done. split.
    + intros (properties' & name & Hp' & Hname & Hs'). congruence.
    + intros Hname. exists properties, state. rewrite Hst. done.
  - unfold reset_task_model_dict.
    rewrite lookup_insert_ne by done. rewrite lookup_insert_ne by done.
    apply lookup_insert_eq.
  - unfold reset_task_model_dict. by rewrite !lookup_insert_ne by done.
Qed.

(** ** Steps of a method *)

Section steps.
Context (T : relation ServiceState) `{!PreOrder T}.

Lemma steps_by_bind {A B} (m : M A) (k : A → M B) :
  steps_by T m → (∀ a, steps_by T (k a)) → steps_by T (bind m k).
Proof.
  intros Hm Hk s b s' Hrun. apply bind_Ok in Hrun as (a & s1 & H1 & H2).
  transitivity s1; [by eapply Hm|by eapply Hk].
Qed.

Lemma steps_by_ret {A} (a : A) : steps_by T (ret a).
Proof. intros s a' s' Hrun. apply ret_Ok in Hrun as [_ ->]. reflexivity. Qed.

Lemma steps_by_raise {A} e : steps_by T (raise (A := A) e).
Proof. intros s a s' Hrun. discriminate. Qed.

Lemma steps_by_get_state : steps_by T get_state.
Proof. intros s a s' Hrun. apply get_state_Ok in Hrun as [_ ->]. reflexivity. Qed.

Lemma steps_by_deref {A} (o : option A) e : steps_by T (deref o e).
Proof. intros s a s' Hrun. apply deref_Ok in Hrun as [_ ->]. reflexivity. Qed.

Lemma steps_by_lift_result {A} (r : result A) : steps_by T (lift_result r).
Proof. intros s a s' Hrun. apply lift_result_Ok in Hrun as [_ ->]. reflexivity. Qed.

Lemma steps_by_modify f : (∀ s, T s (f s)) → steps_by T (modify f).
Proof. intros Hf s a s' Hrun. apply modify_Ok in Hrun as ->. apply Hf. Qed.

Lemma steps_by_for_each {A} (body : A → M unit) (l : list A) :
  (∀ x, steps_by T (body x)) → steps_by T (for_each body l).
Proof.
  intros Hbody. induction l as [|x l IH]; simpl.
  - apply steps_by_ret.
  - apply steps_by_bind; auto.
Qed.
End steps.

Global Instance quiet_step_preorder : PreOrder quiet_step.
Proof.
  split.
  - intros s. unfold quiet_step. tauto.
  - intros s1 s2 s3. unfold quiet_step. intuition congruence.
Qed.

(** Takes a method apart along its binds. *)
Ltac steps :=
  repeat lazymatch goal with
    | |- steps_by _ (ret _) => apply steps_by_ret; solve [apply _]
    | |- steps_by _ (raise _) => apply steps_by_raise; solve [apply _]
    | |- steps_by _ get_state => apply steps_by_get_state; solve [apply _]
    | |- steps_by _ (deref _ _) => apply steps_by_deref; solve [apply _]
    | |- steps_by _ (lift_result _) => apply steps_by_lift_result; solve [apply _]
    | |- steps_by _ (bind _ _) => apply steps_by_bind; [apply _| |intros ?]
    | |- steps_by _ (for_each _ _) => apply steps_by_for_each; [apply _|intros ?]
    end.

Lemma only_json_data_buffered_quiet s s' :
  only_json_data_buffered s s' → quiet_step s s'.
Proof.
  intros (H1 & H2 & H3 & H4 & H5 & H6 & H7). unfold quiet_step, buffers_keyed.
  rewrite H2, H3, H4, H5, H6. tauto.
Qed.

Lemma buffer_json_data_quiet d : steps_by quiet_step (buffer_json_data d).
Proof.
  intros s u s' H. apply buffer_json_data_Ok in H.
  by apply only_json_data_buffered_quiet.
Qed.

Lemma update_task_model_quiet task_model spiff_task :
  steps_by quiet_step (update_task_model task_model spiff_task).
Proof.
  intros s tm s' H. apply update_task_model_Ok in H.
  apply only_json_data_buffered_quiet. tauto.
Qed.

Lemma insert_task_model_quiet task_model s :
  quiet_step s (with_task_models (<[tm_guid task_model := task_model]> (task_models s)) s).
Proof.
  unfold quiet_step, buffers_keyed; simpl. split_and!; try done.
  intros (H1 & H2 & H3 & H4). split_and!; try done.
  intros k tm. rewrite lookup_insert. case_decide; [by intros [= <-]|apply H1].
Qed.

Lemma remove_spiff_task_from_parent_keyed spiff_task (task_models task_models' : gmap string TaskModel) :
  remove_spiff_task_from_parent spiff_task task_models = Ok task_models' →
  (∀ k tm, task_models !! k = Some tm → tm_guid tm = k) →
  ∀ k tm, task_models' !! k = Some tm → tm_guid tm = k.
Proof.
  unfold remove_spiff_task_from_parent.
  destruct (st_parent spiff_task) as [parent|]; [|discriminate].
  destruct (task_models !! parent) as [ptm|] eqn:Hp; [|by intros [= <-]].
  destruct (tm_properties_json ptm) as [props|]; [|discriminate].
  case_decide; intros [= <-]; [|done].
  intros Hk k tm. rewrite lookup_insert. case_decide; [|apply Hk].
  intros [= <-]. simpl. subst. by apply Hk.
Qed.

Lemma prune_quiet spiff_task : steps_by quiet_step (prune spiff_task).
Proof.
  intros s u s' H. unfold prune in H.
  apply bind_Ok in H as (s0 & s1 & H0 & H). apply get_state_Ok in H0 as [-> ->].
  apply bind_Ok in H as (tms & s1 & H0 & H). apply lift_result_Ok in H0 as [H0 ->].
  apply modify_Ok in H as ->.
  unfold quiet_step, buffers_keyed; simpl. split_and!; try done.
  intros (H1 & H2 & H3 & H4). split_and!; try done.
  by eapply remove_spiff_task_from_parent_keyed.
Qed.

Lemma add_tasks_to_bpmn_process_quiet tasks spiff_workflow bpmn_process :
  steps_by quiet_step (add_tasks_to_bpmn_process tasks spiff_workflow bpmn_process).
Proof.
  unfold add_tasks_to_bpmn_process. steps.
  destruct x as [task_id task_properties]. case_decide; steps.
  destruct (_has_state _ _); [apply prune_quiet|]. steps.
  - destruct (session_task_by_guid _ _); steps.
  - apply update_task_model_quiet.
  - apply steps_by_modify; try apply _; intros s. apply insert_task_model_quiet.
Qed.

Lemma session_add_quiet b : steps_by quiet_step (session_add b).
Proof.
  intros s b' s' H. unfold session_add in H.
  destruct (bp_id b); injection H as <- <-; unfold quiet_step, buffers_keyed; simpl; tauto.
Qed.

Lemma add_bpmn_process_quiet bpmn_process_dict spiff_workflow top_level_process guid :
  steps_by quiet_step
    (add_bpmn_process bpmn_process_dict spiff_workflow top_level_process guid).
Proof.
  unfold add_bpmn_process. steps.
  - destruct (match top_level_process with Some _ => _ | None => _ end); steps.
    destruct top_level_process; steps.
  - destruct a0 as [is_new b].
    destruct (update_task_data_on_bpmn_process _ _) as [b' d]. steps.
    + apply buffer_json_data_quiet.
    + apply session_add_quiet.
    + destruct top_level_process; steps.
      apply steps_by_modify; try apply _; intros s.
      unfold quiet_step, buffers_keyed; simpl; tauto.
    + destruct is_new; steps. apply add_tasks_to_bpmn_process_quiet.
Qed.

Lemma task_bpmn_process_quiet spiff_task : steps_by quiet_step (task_bpmn_process spiff_task).
Proof.
  unfold task_bpmn_process. destruct (_task_subprocess spiff_task) as [g [sp|]]; steps.
  - destruct (bpmn_process_by_guid _ _); steps. apply add_bpmn_process_quiet.
  - destruct (pi_bpmn_process_id _); steps. apply add_bpmn_process_quiet.
Qed.

Lemma find_or_create_task_model_from_spiff_task_quiet spiff_task :
  steps_by quiet_step (find_or_create_task_model_from_spiff_task spiff_task).
Proof.
  unfold find_or_create_task_model_from_spiff_task. steps.
  destruct (session_task_by_guid _ _); steps.
  - apply task_bpmn_process_quiet.
  - destruct (session_task_by_guid _ _); steps.
Qed.

Lemma store_bpmn_process_quiet b s :
  quiet_step s
    (with_bpmn_processes (<[bpmn_process_key b := b]> (bpmn_processes s))
       (with_db (with_bpmn_process_rows (store_row b (bpmn_process_rows (db s))) (db s)) s)).
Proof.
  unfold quiet_step, buffers_keyed; simpl. split_and!; try done.
  intros (H1 & H2 & H3 & H4). split_and!; try done.
  intros k b'. rewrite lookup_insert. case_decide; [by intros [= <-]|apply H2].
Qed.

Lemma update_bpmn_process_quiet spiff_workflow :
  ∀ bpmn_process, steps_by quiet_step (update_bpmn_process spiff_workflow bpmn_process).
Proof.
  induction spiff_workflow as [ref spec data last ok|ref spec data last ok outer IH]
    using BpmnWorkflow_outer_ind; intros bpmn_process; simpl; steps.
  - destruct (update_task_data_on_bpmn_process _ _) as [b' d]. steps.
    + apply buffer_json_data_quiet.
    + apply steps_by_modify; try apply _; intros s. apply store_bpmn_process_quiet.
  - destruct (update_task_data_on_bpmn_process _ _) as [b' d]. steps.
    + apply buffer_json_data_quiet.
    + apply steps_by_modify; try apply _; intros s. apply store_bpmn_process_quiet.
    + apply IH.
Qed.

(** ** Updating a task from the engine *)

Lemma completion_timestamp_Ok task_model s timestamp s' :
  completion_timestamp task_model s = Ok (timestamp, s') →
  timestamp = timestamp_of task_model (time_time env (clock s))
  ∧ process_instance_events s' = process_instance_events s
  ∧ process_instance s' = process_instance s
  ∧ task_models s' = task_models s
  ∧ bpmn_processes s' = bpmn_processes s
  ∧ json_data_dicts s' = json_data_dicts s
  ∧ db s' = db s.
Proof.
  unfold completion_timestamp, timestamp_of.
  destruct (truthy (tm_end_in_seconds task_model)).
  { intros H. apply ret_Ok in H as [-> ->]. done. }
  destruct (truthy (tm_start_in_seconds task_model)).
  { intros H. apply ret_Ok in H as [-> ->]. done. }
  intros H. apply bind_Ok in H as (s0 & s1 & H0 & H). apply get_state_Ok in H0 as [-> ->].
  apply bind_Ok in H as (u & s1 & H0 & H). apply modify_Ok in H0 as ->.
  apply ret_Ok in H as [-> ->]. done.
Qed.

(** A run of [update_task_model_with_spiff_task] that returns, step by
    step. *)
Lemma update_task_model_with_spiff_task_run spiff_task times s task_model s' :
  update_task_model_with_spiff_task spiff_task times s = Ok (task_model, s') →
  ∃ new_bpmn_process task_model0 s1 task_model1 s2 bpmn_process s3 s5,
    (match task_models s !! st_id spiff_task with
     | Some found => new_bpmn_process = None ∧ task_model0 = found ∧ s1 = s
     | None =>
         find_or_create_task_model_from_spiff_task spiff_task s
         = Ok ((new_bpmn_process, task_model0), s1)
     end)
    ∧ update_task_model task_model0 spiff_task s1 = Ok (task_model1, s2)
    ∧ match new_bpmn_process with
      | Some b => Some b
      | None => bpmn_process_by_id (bpmn_process_rows (db s1)) (tm_bpmn_process_id task_model0)
      end = Some bpmn_process
    ∧ task_model =
        match times with
        | Some t => tm_with_times (start_in_seconds t) (end_in_seconds t) task_model1
        | None => task_model1
        end
    ∧ buffer_json_data
        (update_task_data_on_bpmn_process bpmn_process (wf_data (st_workflow spiff_task))).2 s2
      = Ok (tt, s3)
    ∧ record_completion task_model
        (with_task_models (<[tm_guid task_model := task_model]> (task_models s3)) s3)
      = Ok (tt, s5)
    ∧ update_bpmn_process (st_workflow spiff_task)
        (update_task_data_on_bpmn_process bpmn_process (wf_data (st_workflow spiff_task))).1 s5
      = Ok (tt, s').
Proof.
  unfold update_task_model_with_spiff_task. intros H.
  apply bind_Ok in H as (s0 & ? & H0 & H). apply get_state_Ok in H0 as [-> ->].
  apply bind_Ok in H as ([nbp tm0] & s1 & Hfound & H).
  apply bind_Ok in H as (s1' & ? & H0 & H). apply get_state_Ok in H0 as [-> ->].
  apply bind_Ok in H as (tm1 & s2 & Hupd & H).
  apply bind_Ok in H as (bp & ? & Hbp & H). apply deref_Ok in Hbp as [Hbp ->].
  destruct (update_task_data_on_bpmn_process bp (wf_data (st_workflow spiff_task)))
    as [bp' jd] eqn:Hjd.
  apply bind_Ok in H as ([] & s3 & Hbuf & H).
  apply bind_Ok in H as ([] & s4 & Hmod & H). apply modify_Ok in Hmod as ->.
  apply bind_Ok in H as ([] & s5 & Hev & H).
  apply bind_Ok in H as ([] & s6 & Hubp & H). apply ret_Ok in H as [-> ->].
  exists nbp, tm0, s1, tm1, s2, bp, s3, s5. rewrite Hjd. simpl.
  split_and!; try done.
  destruct (task_models s !! st_id spiff_task).
  - apply ret_Ok in Hfound as [[= -> ->] ->]. done.
  - done.
Qed.

Lemma record_completion_Ok task_model s u s' :
  record_completion task_model s = Ok (u, s') →
  process_instance s' = process_instance s
  ∧ task_models s' = task_models s
  ∧ bpmn_processes s' = bpmn_processes s
  ∧ json_data_dicts s' = json_data_dicts s
  ∧ db s' = db s
  ∧ if decide (tm_state task_model = Some "COMPLETED") then
      process_instance_events s' =
        <[tm_guid task_model :=
            add_event_to_process_instance (process_instance s) (task_completed env)
              (tm_guid task_model) (timestamp_of task_model (time_time env (clock s)))]>
          (process_instance_events s)
    else process_instance_events s' = process_instance_events s ∧ clock s' = clock s.
Proof.
  unfold record_completion. case_decide as Hc.
  - intros H. apply bind_Ok in H as (ts & s1 & Hts & H).
    apply completion_timestamp_Ok in Hts as (-> & He & Hp & Ht & Hb & Hj & Hd).
    apply bind_Ok in H as (s0 & ? & H0 & H). apply get_state_Ok in H0 as [-> ->].
    apply modify_Ok in H as ->. simpl. rewrite Hp, He. done.
  - intros H. apply ret_Ok in H as [_ ->]. done.
Qed.

(** C5, as the code has it: [update_task_model_with_spiff_task] records an
    event exactly when the state it has written is ["COMPLETED"].  The
    time of the event is the end time of the task when that is truthy,
    else its start time when that is truthy, else the clock; a time of
    zero counts as absent. *)
Theorem update_task_model_with_spiff_task_event (spiff_task : SpiffTask)
    (times : option StartAndEndTimes) (s s' : ServiceState) (task_model : TaskModel) :
  update_task_model_with_spiff_task spiff_task times s = Ok (task_model, s') →
  tm_state task_model = TaskStateNames env (st_state spiff_task)
  ∧ (tm_state task_model = Some "COMPLETED" →
     process_instance_events s' =
       <[tm_guid task_model :=
           {| ev_process_instance_id := pi_id (process_instance s);
              ev_event_type := task_completed env;
              ev_task_guid := tm_guid task_model;
              ev_timestamp := timestamp_of task_model (time_time env (clock s)) |}]>
         (process_instance_events s))
  ∧ (tm_state task_model ≠ Some "COMPLETED" →
     process_instance_events s' = process_instance_events s).
Proof.
  intros H. apply update_task_model_with_spiff_task_run in H
    as (nbp & tm0 & s1 & tm1 & s2 & bp & s3 & s5 & Hfound & Hupd & Hbp & -> & Hbuf & Hev & Hubp).
  assert (quiet_step s s1) as Q1.
  { destruct (task_models s !! st_id spiff_task).
    - destruct Hfound as (_ & _ & ->). reflexivity.
    - by apply find_or_create_task_model_from_spiff_task_quiet in Hfound. }
  pose proof (update_task_model_quiet _ _ _ _ _ Hupd) as Q2.
  pose proof (buffer_json_data_quiet _ _ _ _ Hbuf) as Q3.
  pose proof (update_bpmn_process_quiet _ _ _ _ _ Hubp) as Q5.
  assert (quiet_step s s3) as Q by (etrans; [exact Q1|]; etrans; eauto).
  destruct Q as (Qe & Qc & Qp & _). destruct Q5 as (Q5e & _).
  apply update_task_model_Ok in Hupd as (_ & _ & _ & Hstate & _ & _ & _ & _).
  apply record_completion_Ok in Hev as (_ & _ & _ & _ & _ & Hev). simpl in Hev.
  set (task_model := match times with Some _ => _ | None => _ end) in *.
  assert (tm_state task_model = tm_state tm1) as Hst.
  { unfold task_model. by destruct times. }
  split; [congruence|]. split.
  - intros Hc. rewrite decide_True in Hev by done.
    rewrite Q5e, Hev. unfold add_event_to_process_instance. by rewrite Qe, Qc, Qp.
  - intros Hc. rewrite decide_False in Hev by done. destruct Hev as [Hev _].
    by rewrite Q5e, Hev.
Qed.

(** ** The direct parent of a new process *)

Lemma direct_bpmn_process_parent_no_match rows outer subs parent0 :
  (∀ guid sp, (guid, sp) ∈ subs → wf_eqb sp outer = false) →
  direct_bpmn_process_parent rows outer subs parent0 = Ok parent0.
Proof.
  induction subs as [|[guid sp] subs IH]; intros Hno; simpl; [done|].
  rewrite (Hno guid sp) by left. apply IH. intros g w Hin. apply (Hno g w). by right.
Qed.

Lemma direct_bpmn_process_parent_Raise rows outer subs parent0 e :
  direct_bpmn_process_parent rows outer subs parent0 = Raise e →
  e = BpmnProcessNotFoundError
  ∧ ∃ guid sp, (guid, sp) ∈ subs ∧ wf_eqb sp outer = true
               ∧ bpmn_process_by_guid rows guid = None.
Proof.
  revert parent0. induction subs as [|[guid sp] subs IH]; intros parent0; simpl; [done|].
  destruct (wf_eqb sp outer) eqn:Heq.
  - destruct (bpmn_process_by_guid rows guid) as [found|] eqn:Hrow.
    + intros H. apply IH in H as (-> & g & w & Hin & Hw & Hg).
      split; [done|]. exists g, w. split; [by right|done].
    + intros [= <-]. split; [done|]. exists guid, sp. split; [left|done].
  - intros H. apply IH in H as (-> & g & w & Hin & Hw & Hg).
    split; [done|]. exists g, w. split; [by right|done].
Qed.

Lemma never_raises_lift_result {A} e (r : result A) :
  r ≠ Raise e → never_raises e (lift_result r).
Proof. intros Hr s. destruct r; simpl; [discriminate|]. unfold raise. congruence. Qed.

Lemma remove_spiff_task_from_parent_not_BpmnProcessNotFoundError spiff_task tms :
  remove_spiff_task_from_parent spiff_task tms ≠ Raise BpmnProcessNotFoundError.
Proof.
  unfold remove_spiff_task_from_parent.
  repeat (case_match; try discriminate).
Qed.

Lemma buffer_json_data_never_raises e d : never_raises e (buffer_json_data d).
Proof. intros s. destruct d; simpl; discriminate. Qed.

Lemma update_task_model_never_BpmnProcessNotFoundError task_model spiff_task :
  never_raises BpmnProcessNotFoundError (update_task_model task_model spiff_task).
Proof.
  intros s. rewrite update_task_model_unfold. revert s.
  apply never_raises_bind; [by apply never_raises_deref|]. intros name. cbv zeta.
  apply never_raises_bind; [apply buffer_json_data_never_raises|]. intros u1.
  apply never_raises_bind; [apply buffer_json_data_never_raises|]. intros u2.
  apply never_raises_ret.
Qed.

Lemma add_tasks_to_bpmn_process_never_BpmnProcessNotFoundError tasks wf b :
  never_raises BpmnProcessNotFoundError (add_tasks_to_bpmn_process tasks wf b).
Proof.
  unfold add_tasks_to_bpmn_process. apply never_raises_for_each.
  intros [task_id task_properties]. case_decide; [apply never_raises_ret|].
  apply never_raises_bind; [by apply never_raises_deref|]. intros spiff_task.
  destruct (_has_state _ _).
  - unfold prune. apply never_raises_bind; [apply never_raises_get_state|]. intros s0.
    apply never_raises_bind; [|intros; apply never_raises_modify].
    apply never_raises_lift_result, remove_spiff_task_from_parent_not_BpmnProcessNotFoundError.
  - apply never_raises_bind; [apply never_raises_get_state|]. intros s0.
    apply never_raises_bind.
    { destruct (session_task_by_guid _ _); [apply never_raises_ret|].
      apply never_raises_lift_result. unfold _create_task. by case_match. }
    intros tm. apply never_raises_bind; [|intros; apply never_raises_modify].
    apply update_task_model_never_BpmnProcessNotFoundError.
Qed.

Lemma bind_Raise {A B} (m : M A) (k : A → M B) s e :
  bind m k s = Raise e →
  m s = Raise e ∨ ∃ a s1, m s = Ok (a, s1) ∧ k a s1 = Raise e.
Proof.
  unfold bind. destruct (m s) as [[a s1]|e']; [|intros [= ->]; by left].
  intros H. right. by exists a, s1.
Qed.

Lemma session_add_Ok b s b' s' :
  session_add b s = Ok (b', s') →
  bp_direct_parent_process_id b' = bp_direct_parent_process_id b
  ∧ bp_guid b' = bp_guid b
  ∧ bp_top_level_process_id b' = bp_top_level_process_id b
  ∧ bp_properties_json b' = bp_properties_json b
  ∧ bp_json_data_hash b' = bp_json_data_hash b.
Proof.
  unfold session_add. destruct (bp_id b) eqn:Hid; intros [= <- <-]; simpl; done.
Qed.

Lemma lift_result_Raise {A} (r : result A) s e :
  lift_result r s = Raise e → r = Raise e.
Proof. destruct r; simpl; [discriminate|]. unfold raise. congruence. Qed.

Lemma deref_Raise {A} (o : option A) e0 s e :
  deref o e0 s = Raise e → o = None ∧ e = e0.
Proof. destruct o; simpl; [discriminate|]. unfold raise. by intros [= ->]. Qed.

Lemma session_add_never_raises e b : never_raises e (session_add b).
Proof. intros s. unfold session_add. by destruct (bp_id b). Qed.

(** C4, as the code has it: [add_bpmn_process] starts the search for the
    direct parent from the top level process.  When no subprocess of the
    outermost workflow is the outer workflow of the new one, it does not
    raise [BpmnProcessNotFoundError]: the new process gets the top level
    process as direct parent.  The error is raised only for a subprocess
    that is the outer workflow and has no row of its guid. *)
Theorem add_bpmn_process_direct_parent (bpmn_process_dict : WorkflowDict)
    (spiff_workflow : BpmnWorkflow) (top : BpmnProcessModel)
    (bpmn_process_guid : option string) (s : ServiceState) :
  creates_below s top bpmn_process_guid →
  ((∀ guid sp, (guid, sp) ∈ subprocesses env (_get_outermost_workflow spiff_workflow) →
               wf_eqb sp (outer_workflow spiff_workflow) = false) →
   add_bpmn_process bpmn_process_dict spiff_workflow (Some top) bpmn_process_guid s
     ≠ Raise BpmnProcessNotFoundError
   ∧ ∀ b s',
       add_bpmn_process bpmn_process_dict spiff_workflow (Some top) bpmn_process_guid s
         = Ok (b, s') →
       bp_direct_parent_process_id b = bp_id top)
  ∧ (add_bpmn_process bpmn_process_dict spiff_workflow (Some top) bpmn_process_guid s
       = Raise BpmnProcessNotFoundError →
     ∃ guid sp,
       (guid, sp) ∈ subprocesses env (_get_outermost_workflow spiff_workflow)
       ∧ wf_eqb sp (outer_workflow spiff_workflow) = true
       ∧ bpmn_process_by_guid (bpmn_process_rows (db s)) guid = None).
Proof.
  intros Hnew. unfold creates_below in Hnew.
  set (search := direct_bpmn_process_parent (bpmn_process_rows (db s))
                   (outer_workflow spiff_workflow)
                   (subprocesses env (_get_outermost_workflow spiff_workflow)) top).
  assert (∀ b s',
            add_bpmn_process bpmn_process_dict spiff_workflow (Some top) bpmn_process_guid s
              = Ok (b, s') →
            ∃ parent, search = Ok parent ∧ bp_direct_parent_process_id b = bp_id parent)
    as Hok.
  { intros b s' H. unfold add_bpmn_process in H.
    apply bind_Ok in H as (s0 & ? & H0 & H). apply get_state_Ok in H0 as [-> ->].
    cbv zeta in H. rewrite Hnew in H.
    apply bind_Ok in H as ([is_new b0] & s1 & Hcreate & H).
    apply bind_Ok in Hcreate as (d & ? & H0 & Hcreate). apply deref_Ok in H0 as [Hd ->].
    apply bind_Ok in Hcreate as (parent & ? & H0 & Hcreate).
    apply lift_result_Ok in H0 as [Hparent ->].
    apply ret_Ok in Hcreate as [[= -> ->] ->].
    exists parent. split; [exact Hparent|].
    destruct (update_task_data_on_bpmn_process _ _) as [b1 jd] eqn:Hjd.
    apply bind_Ok in H as ([] & s2 & _ & H).
    apply bind_Ok in H as (b2 & s3 & Hadd & H).
    apply bind_Ok in H as ([] & s4 & _ & H).
    apply bind_Ok in H as ([] & s5 & _ & H).
    apply ret_Ok in H as [-> ->].
    apply session_add_Ok in Hadd as (-> & _).
    unfold update_task_data_on_bpmn_process in Hjd.
    case_decide; injection Hjd as <- <-; by destruct (bp_top_level_process_id _). }
  assert (add_bpmn_process bpmn_process_dict spiff_workflow (Some top) bpmn_process_guid s
            = Raise BpmnProcessNotFoundError →
          search = Raise BpmnProcessNotFoundError) as Hraise.
  { intros H. unfold add_bpmn_process in H.
    apply bind_Raise in H as [H|(s0 & ? & H0 & H)]; [discriminate|].
    apply get_state_Ok in H0 as [-> ->]. cbv zeta in H. rewrite Hnew in H.
    apply bind_Raise in H as [H|([is_new b0] & s1 & _ & H)].
    - apply bind_Raise in H as [H|(d & ? & H0 & H)].
      { by apply deref_Raise in H as [_ [=]]. }
      apply deref_Ok in H0 as [_ ->].
      apply bind_Raise in H as [H|(parent & ? & _ & H)]; [|discriminate].
      by apply lift_result_Raise in H.
    - exfalso. revert H.
      destruct (update_task_data_on_bpmn_process _ _) as [b1 jd].
      revert s1. apply never_raises_bind; [apply buffer_json_data_never_raises|]. intros u.
      apply never_raises_bind; [apply session_add_never_raises|]. intros b2.
      apply never_raises_bind; [apply never_raises_ret|]. intros u2.
      apply never_raises_bind; [|intros; apply never_raises_ret].
      destruct is_new; [|apply never_raises_ret].
      apply add_tasks_to_bpmn_process_never_BpmnProcessNotFoundError. }
  split.
  - intros Hno. pose proof (direct_bpmn_process_parent_no_match
      (bpmn_process_rows (db s)) _ _ top Hno) as Hsearch. fold search in Hsearch. split.
    + intros H. apply Hraise in H. congruence.
    + intros b s' H. apply Hok in H as (parent & Hp & ->). congruence.
  - intros H. apply Hraise in H. unfold search in H.
    by apply direct_bpmn_process_parent_Raise in H as [_ H].
Qed.

(** ** The dictionaries of a pass *)

Lemma TaskService_init_buffers_keyed session process_instance :
  buffers_keyed (TaskService_init session process_instance).
Proof.
  unfold buffers_keyed, json_data_keyed; simpl.
  split_and!; intros k x; rewrite lookup_empty; discriminate.
Qed.


Lemma record_completion_keeps_keyed task_model :
  hoare buffers_keyed (record_completion task_model) (λ _, buffers_keyed).
Proof.
  intros s u s' (H1 & H2 & H3 & H4) Hrun.
  apply record_completion_Ok in Hrun as (Hp & Ht & Hb & Hj & Hd & Hev).
  unfold buffers_keyed. rewrite Ht, Hb, Hj. split_and!; try done.
  case_decide.
  - rewrite Hev. intros k ev. rewrite lookup_insert. case_decide; [|apply H4].
    by intros [= <-].
  - destruct Hev as [-> _]. done.
Qed.

Lemma update_task_model_with_spiff_task_keeps_keyed spiff_task times :
  hoare buffers_keyed (update_task_model_with_spiff_task spiff_task times)
    (λ _, buffers_keyed).
Proof.
  intros s tm s' Hk H. apply update_task_model_with_spiff_task_run in H
    as (nbp & tm0 & s1 & tm1 & s2 & bp & s3 & s5 & Hfound & Hupd & Hbp & Htm & Hbuf & Hev & Hubp).
  assert (buffers_keyed s1) as Hk1.
  { destruct (task_models s !! st_id spiff_task).
    - destruct Hfound as (_ & _ & ->). done.
    - apply find_or_create_task_model_from_spiff_task_quiet in Hfound as (_ & _ & _ & H).
      auto. }
  apply update_task_model_quiet in Hupd as (_ & _ & _ & H12).
  apply buffer_json_data_quiet in Hbuf as (_ & _ & _ & H23).
  pose proof (insert_task_model_quiet tm s3) as (_ & _ & _ & H34).
  apply (record_completion_keeps_keyed tm) in Hev; [|auto].
  apply update_bpmn_process_quiet in Hubp as (_ & _ & _ & H5). auto.
Qed.










(** ** A walk that creates no process *)

Lemma NoDup_fmap_same {A B} (f : A → B) (l : list A) (x y : A) :
  NoDup (map f l) → x ∈ l → y ∈ l → f x = f y → x = y.
Proof.
  induction l as [|z l IH]; simpl; intros Hnd Hx Hy Hf.
  { by apply elem_of_nil in Hx. }
  apply NoDup_cons in Hnd as [Hz Hnd].
  apply elem_of_cons in Hx as [->|Hx]; apply elem_of_cons in Hy as [->|Hy]; auto.
  - exfalso. apply Hz. rewrite Hf. apply list_elem_of_fmap. by exists y.
  - exfalso. apply Hz. rewrite <- Hf. apply list_elem_of_fmap. by exists x.
Qed.

Global Instance same_session_preorder : PreOrder same_session.
Proof.
  split.
  - intros s. by unfold same_session.
  - intros s1 s2 s3. unfold same_session. intuition congruence.
Qed.

Lemma row_keys_ids rows : map bp_id rows = (row_keys rows).*1.
Proof. unfold row_keys. rewrite <- list_fmap_compose. done. Qed.

Lemma row_keys_guids rows : map bp_guid rows = (row_keys rows).*2.
Proof. unfold row_keys. rewrite <- list_fmap_compose. done. Qed.

Lemma store_row_keys b rows :
  NoDup (map bp_id rows) →
  (∃ r, r ∈ rows ∧ bp_id r = bp_id b ∧ bp_guid r = bp_guid b) →
  row_keys (store_row b rows) = row_keys rows.
Proof.
  intros Hnd (r & Hr & Hid & Hguid). unfold store_row, row_keys.
  rewrite map_map. apply map_ext_in. intros r' Hr'. apply list_elem_of_In in Hr'.
  case_decide as Heq; [|done].
  assert (r' = r) as -> by (eapply (NoDup_fmap_same bp_id); eauto; congruence).
  congruence.
Qed.

Lemma bpmn_process_by_guid_Some rows guid b :
  bpmn_process_by_guid rows guid = Some b → b ∈ rows ∧ bp_guid b = Some guid.
Proof.
  unfold bpmn_process_by_guid. intros H. apply find_Some_elem_of in H as [H1 H2].
  by apply bool_decide_eq_true in H2.
Qed.

Lemma find_is_Some {A} (f : A → bool) (l : list A) :
  is_Some (find f l) ↔ ∃ x, x ∈ l ∧ f x = true.
Proof.
  split.
  - intros [x Hx]. exists x. by apply find_Some_elem_of.
  - intros (x & Hx & Hf). destruct (find f l) eqn:E; [eauto|].
    apply list_elem_of_In in Hx. pose proof (find_none f l E x Hx). congruence.
Qed.

Lemma bpmn_process_by_guid_is_Some rows guid :
  is_Some (bpmn_process_by_guid rows guid) ↔ Some guid ∈ map bp_guid rows.
Proof.
  unfold bpmn_process_by_guid. rewrite find_is_Some, list_elem_of_fmap. split.
  - intros (r & Hr & Hg). apply bool_decide_eq_true in Hg. eauto.
  - intros (r & Hg & Hr). exists r. split; [done|]. by apply bool_decide_eq_true.
Qed.

Lemma process_persisted_same_session s s' spiff_task :
  same_session s s' → process_persisted s spiff_task → process_persisted s' spiff_task.
Proof.
  intros (Hrows & _ & Hpi). unfold process_persisted.
  destruct (_task_subprocess spiff_task) as [guid [sp|]].
  - rewrite !bpmn_process_by_guid_is_Some, !row_keys_guids, Hrows. done.
  - by rewrite Hpi.
Qed.

Lemma NoDup_ids_same_session s s' :
  same_session s s' →
  NoDup (map bp_id (bpmn_process_rows (db s))) →
  NoDup (map bp_id (bpmn_process_rows (db s'))).
Proof. intros (Hrows & _). by rewrite !row_keys_ids, Hrows. Qed.

Lemma only_json_data_buffered_same_session s s' :
  only_json_data_buffered s s' → same_session s s' ∧ task_models s' = task_models s.
Proof.
  intros (H1 & H2 & H3 & H4 & _). unfold same_session. by rewrite H1, H2.
Qed.

Lemma session_task_by_guid_Some s guid tm :
  buffers_keyed s → session_task_by_guid s guid = Some tm → tm_guid tm = guid.
Proof.
  intros (Hk & _). unfold session_task_by_guid.
  destruct (task_by_guid _ _) as [row|] eqn:Hrow; [|discriminate].
  apply task_by_guid_Some in Hrow as [_ Hrow].
  destruct (task_models s !! guid) as [found|] eqn:Hfound; simpl; intros [= <-]; auto.
Qed.

(** With the row of the process at hand [task_bpmn_process] looks it up
    and leaves the state alone. *)
Lemma task_bpmn_process_persisted spiff_task s found s' :
  process_persisted s spiff_task →
  task_bpmn_process spiff_task s = Ok (found, s') →
  s' = s ∧ ∀ b, found = Some b → b ∈ bpmn_process_rows (db s).
Proof.
  unfold process_persisted, task_bpmn_process.
  destruct (_task_subprocess spiff_task) as [guid [sp|]]; intros Hp H.
  - apply bind_Ok in H as (s0 & ? & H0 & H). apply get_state_Ok in H0 as [-> ->].
    destruct Hp as [b Hb]. rewrite Hb in H. apply ret_Ok in H as [-> ->].
    split; [done|]. intros b' [= <-]. by apply bpmn_process_by_guid_Some in Hb as [Hb _].
  - apply bind_Ok in H as (s0 & ? & H0 & H). apply get_state_Ok in H0 as [-> ->].
    destruct Hp as [id Hid]. rewrite Hid in H. apply ret_Ok in H as [-> ->].
    split; [done|]. intros b Hb. by apply bpmn_process_by_id_Some in Hb as [Hb _].
Qed.

Lemma find_or_create_task_model_from_spiff_task_persisted spiff_task s found task_model s' :
  buffers_keyed s →
  process_persisted s spiff_task →
  find_or_create_task_model_from_spiff_task spiff_task s = Ok ((found, task_model), s') →
  s' = s
  ∧ tm_guid task_model = st_id spiff_task
  ∧ ∀ b, found = Some b → b ∈ bpmn_process_rows (db s).
Proof.
  intros Hk Hp H. unfold find_or_create_task_model_from_spiff_task in H.
  apply bind_Ok in H as (s0 & ? & H0 & H). apply get_state_Ok in H0 as [-> ->].
  destruct (session_task_by_guid s (st_id spiff_task)) as [tm|] eqn:Hq.
  { apply ret_Ok in H as [[= -> ->] ->]. split; [done|]. split; [|done].
    by eapply session_task_by_guid_Some. }
  apply bind_Ok in H as (b & s1 & Hb & H).
  apply task_bpmn_process_persisted in Hb as [-> Hb]; [|done].
  apply bind_Ok in H as (s0 & ? & H0 & H). apply get_state_Ok in H0 as [-> ->].
  rewrite Hq in H.
  apply bind_Ok in H as (td & ? & H0 & H). apply deref_Ok in H0 as [_ ->].
  apply bind_Ok in H as (created & ? & H0 & H). apply deref_Ok in H0 as [_ ->].
  apply ret_Ok in H as [[= -> ->] ->]. done.
Qed.

Lemma update_task_data_on_bpmn_process_keys b payload :
  bp_id (update_task_data_on_bpmn_process b payload).1 = bp_id b
  ∧ bp_guid (update_task_data_on_bpmn_process b payload).1 = bp_guid b
  ∧ bp_direct_parent_process_id (update_task_data_on_bpmn_process b payload).1
    = bp_direct_parent_process_id b
  ∧ bp_properties_json (update_task_data_on_bpmn_process b payload).1
    = bp_properties_json b.
Proof. unfold update_task_data_on_bpmn_process. by case_decide. Qed.

(** [update_bpmn_process] on a row of the session changes no task model
    and keeps the rows what they are. *)
Lemma update_bpmn_process_same_session spiff_workflow :
  ∀ bpmn_process s u s',
    NoDup (map bp_id (bpmn_process_rows (db s))) →
    (∃ r, r ∈ bpmn_process_rows (db s)
          ∧ bp_id r = bp_id bpmn_process ∧ bp_guid r = bp_guid bpmn_process) →
    update_bpmn_process spiff_workflow bpmn_process s = Ok (u, s') →
    same_session s s' ∧ task_models s' = task_models s.
Proof.
  induction spiff_workflow as [ref spec data last ok|ref spec data last ok outer IH]
    using BpmnWorkflow_outer_ind; intros b s u s' Hnd Hrow H; simpl in H.
  all: apply bind_Ok in H as (props & ? & H0 & H); apply deref_Ok in H0 as [Hprops ->].
  all: match type of H with context [update_task_data_on_bpmn_process ?x ?y] =>
         pose proof (update_task_data_on_bpmn_process_keys x y) as (Kid & Kguid & Kpar & _);
         destruct (update_task_data_on_bpmn_process x y) as [b' jd]
       end; simpl in Kid, Kguid, Kpar.
  all: apply bind_Ok in H as ([] & s1 & Hbuf & H);
       apply buffer_json_data_Ok, only_json_data_buffered_same_session in Hbuf
         as [S1 T1].
  all: apply bind_Ok in H as ([] & s2 & Hmod & H); apply modify_Ok in Hmod.
  all: assert (same_session s1 s2 ∧ task_models s2 = task_models s1) as [S2 T2].
  1,3: subst s2; unfold same_session; simpl; split; [|done]; split; [|done];
       apply store_row_keys;
       [by eapply NoDup_ids_same_session
       |destruct S1 as (S1 & _); destruct Hrow as (r & Hr & Hrid & Hrguid);
        assert ((bp_id b', bp_guid b') ∈ row_keys (bpmn_process_rows (db s1))) as Hin
          by (rewrite S1; apply list_elem_of_fmap; exists r; split; [congruence|done]);
        apply list_elem_of_fmap in Hin as (r1 & [= E1 E2] & Hr1); eauto].
  - apply ret_Ok in H as [_ ->]. split; [by etrans|congruence].
  - apply bind_Ok in H as (s0 & ? & H0 & H). apply get_state_Ok in H0 as [-> ->].
    apply bind_Ok in H as (parent & ? & H0 & H). apply deref_Ok in H0 as [Hparent ->].
    apply bpmn_process_by_id_Some in Hparent as (Hparent & _).
    apply IH in H as [S3 T3].
    + split; [etrans; [exact S1|]; by etrans|congruence].
    + eapply NoDup_ids_same_session; [|exact Hnd]. by etrans.
    + eauto.
Qed.

Lemma tp_children_properties_of spiff_task :
  tp_children (properties_of spiff_task) = map st_id (st_children spiff_task).
Proof. unfold properties_of. by case_decide. Qed.

(** With the row of its process at hand, the update of a task writes the
    entry of the task and no other. *)
Lemma update_task_model_with_spiff_task_persisted spiff_task times s task_model s' :
  session_sound s →
  process_persisted s spiff_task →
  update_task_model_with_spiff_task spiff_task times s = Ok (task_model, s') →
  task_models s' = <[st_id spiff_task := task_model]> (task_models s)
  ∧ tm_properties_json task_model = Some (properties_of spiff_task)
  ∧ same_session s s'
  ∧ session_sound s'.
Proof.
  intros [Hk Hnd] Hp Hrun.
  pose proof (update_task_model_with_spiff_task_keeps_keyed _ _ _ _ _ Hk Hrun) as Hk'.
  apply update_task_model_with_spiff_task_run in Hrun
    as (nbp & tm0 & s1 & tm1 & s2 & bp & s3 & s5 & Hfound & Hupd & Hbp & Htm & Hbuf & Hev & Hubp).
  assert (s1 = s ∧ tm_guid tm0 = st_id spiff_task
          ∧ ∀ b, nbp = Some b → b ∈ bpmn_process_rows (db s)) as (-> & Hguid & Hnbp).
  { destruct (task_models s !! st_id spiff_task) as [found|] eqn:Hb.
    - destruct Hfound as (-> & -> & ->). split; [done|]. split; [|done].
      destruct Hk as (Hk & _). by apply Hk.
    - by eapply find_or_create_task_model_from_spiff_task_persisted. }
  assert (bp ∈ bpmn_process_rows (db s)) as Hbprow.
  { destruct nbp as [b|]; [apply Hnbp; congruence|].
    by apply bpmn_process_by_id_Some in Hbp as [Hbp _]. }
  apply update_task_model_Ok in Hupd as (G1 & _ & P1 & _ & _ & _ & _ & F1).
  apply only_json_data_buffered_same_session in F1 as [S1 T1].
  apply buffer_json_data_Ok, only_json_data_buffered_same_session in Hbuf as [S2 T2].
  apply record_completion_Ok in Hev as (Ep & Et & _ & _ & Ed & _). simpl in Ep, Et, Ed.
  assert (same_session s s5) as S5.
  { etrans; [exact S1|]. etrans; [exact S2|]. unfold same_session. by rewrite Ed, Ep. }
  pose proof (update_task_data_on_bpmn_process_keys bp (wf_data (st_workflow spiff_task)))
    as (Kid & Kguid & _).
  apply update_bpmn_process_same_session in Hubp as [S6 T6].
  2:{ by eapply NoDup_ids_same_session. }
  2:{ destruct S5 as (S5 & _).
      assert ((bp_id bp, bp_guid bp) ∈ row_keys (bpmn_process_rows (db s5))) as Hin.
      { rewrite S5. apply list_elem_of_fmap. by exists bp. }
      apply list_elem_of_fmap in Hin as (r & [= E1 E2] & Hr).
      exists r. split; [done|]. split; congruence. }
  assert (tm_guid task_model = st_id spiff_task
          ∧ tm_properties_json task_model = Some (properties_of spiff_task)) as [G P].
  { subst task_model. destruct times; simpl; split; congruence. }
  assert (same_session s s') as S by (by etrans).
  split_and!; try done.
  - rewrite T6, Et, G, T2, T1. done.
  - split; [done|]. by eapply NoDup_ids_same_session.
Qed.

Lemma list_remove_middle x pre rest :
  x ∉ pre → list_remove x (pre ++ x :: rest) = pre ++ rest.
Proof.
  induction pre as [|y pre IH]; simpl; intros Hx.
  - by rewrite decide_True.
  - apply not_elem_of_cons in Hx as [Hxy Hx]. rewrite decide_False by done.
    f_equal. auto.
Qed.

(** [prune] on a speculative task whose parent has the entry [pre ++
    guid :: rest]: the guid goes, and nothing else changes. *)
Lemma prune_Ok spiff_task parent s u s' task_model properties pre rest :
  st_parent spiff_task = Some parent →
  task_models s !! parent = Some task_model →
  tm_properties_json task_model = Some properties →
  tp_children properties = pre ++ st_id spiff_task :: rest →
  st_id spiff_task ∉ pre →
  prune spiff_task s = Ok (u, s') →
  same_session s s'
  ∧ db s' = db s
  ∧ (∀ k, k ≠ parent → task_models s' !! k = task_models s !! k)
  ∧ ∃ task_model' properties',
      task_models s' !! parent = Some task_model'
      ∧ tm_properties_json task_model' = Some properties'
      ∧ tp_children properties' = pre ++ rest.
Proof.
  intros Hparent Hentry Hprops Hchildren Hpre H. unfold prune in H.
  apply bind_Ok in H as (s0 & ? & H0 & H). apply get_state_Ok in H0 as [-> ->].
  apply bind_Ok in H as (tms & ? & H0 & H). apply lift_result_Ok in H0 as [H0 ->].
  apply modify_Ok in H as ->. simpl.
  unfold remove_spiff_task_from_parent in H0.
  rewrite Hparent, Hentry, Hprops in H0.
  rewrite decide_True in H0.
  2:{ rewrite Hchildren. apply elem_of_app. right. left. }
  injection H0 as <-. split_and!; try done.
  - intros k Hk. by rewrite lookup_insert_ne.
  - eexists _, _. rewrite lookup_insert_eq. split; [done|]. simpl. split; [done|].
    simpl. rewrite Hchildren. by apply list_remove_middle.
Qed.

Lemma elem_of_flat_map {A B} (f : A → list B) (l : list A) (y : B) :
  y ∈ flat_map f l ↔ ∃ x, x ∈ l ∧ y ∈ f x.
Proof.
  rewrite list_elem_of_In, in_flat_map. split; intros (x & Hx & Hy); exists x.
  - by rewrite !list_elem_of_In.
  - by rewrite <- !list_elem_of_In.
Qed.

Lemma subtree_unfold spiff_task :
  subtree spiff_task = spiff_task :: flat_map subtree (st_children spiff_task).
Proof. by destruct spiff_task. Qed.

Lemma visited_unfold spiff_task :
  visited spiff_task =
  spiff_task
  :: flat_map (λ child, if speculative child then [] else visited child)
       (st_children spiff_task).
Proof. by destruct spiff_task. Qed.

Lemma process_spiff_task_children_unfold spiff_task :
  process_spiff_task_children spiff_task =
  for_each
    (λ child_spiff_task,
       if _has_state child_spiff_task (PREDICTED_MASK env) then prune child_spiff_task
       else
         update_task_model_with_spiff_task child_spiff_task None ;;;
         process_spiff_task_children child_spiff_task)
    (st_children spiff_task).
Proof. by destruct spiff_task. Qed.

Lemma guids_unfold spiff_task :
  guids spiff_task = st_id spiff_task :: flat_map guids (st_children spiff_task).
Proof.
  unfold guids at 1. rewrite subtree_unfold. simpl. f_equal.
  induction (st_children spiff_task) as [|c l IH]; simpl; [done|].
  rewrite map_app. by f_equal.
Qed.

Lemma guid_in_guids spiff_task : st_id spiff_task ∈ guids spiff_task.
Proof. rewrite guids_unfold. left. Qed.

Lemma subtree_guid spiff_task u : u ∈ subtree spiff_task → st_id u ∈ guids spiff_task.
Proof. intros H. unfold guids. apply list_elem_of_fmap. by exists u. Qed.

Lemma visited_in_subtree spiff_task :
  ∀ u, u ∈ visited spiff_task → u ∈ subtree spiff_task.
Proof.
  induction spiff_task as [id parent state spec data wf children IH]
    using SpiffTask_nested_ind.
  intros u. rewrite visited_unfold, subtree_unfold. simpl.
  rewrite !elem_of_cons, !elem_of_flat_map. intros [->|(c & Hc & Hu)]; [by left|].
  right. exists c. split; [done|]. rewrite Forall_forall in IH.
  destruct (speculative c); [by apply elem_of_nil in Hu|]. by apply IH.
Qed.

Lemma speculative_children_linked_child spiff_task child :
  speculative_children_linked spiff_task →
  child ∈ st_children spiff_task → speculative child = false →
  speculative_children_linked child.
Proof.
  intros Hl Hc Hs parent c Hparent. apply Hl.
  rewrite visited_unfold. right. apply elem_of_flat_map. exists child.
  split; [done|]. by rewrite Hs.
Qed.

Lemma subtree_head_guid spiff_task u :
  NoDup (guids spiff_task) → u ∈ subtree spiff_task → u ∉ visited spiff_task →
  st_id u ≠ st_id spiff_task.
Proof.
  rewrite guids_unfold, subtree_unfold, visited_unfold.
  intros Hnd Hu Hv. apply NoDup_cons in Hnd as [Hhead _].
  apply elem_of_cons in Hu as [->|Hu]; [exfalso; apply Hv; left|].
  intros Heq. apply Hhead. rewrite <- Heq.
  apply elem_of_flat_map in Hu as (c & Hc & Hu). apply elem_of_flat_map.
  exists c. split; [done|]. by apply subtree_guid.
Qed.

(** The loop over the children of the task with guid [pid]: [pre] holds
    the guids the entry of the task keeps from the children done. *)
Lemma descent_loop pid (todo : list SpiffTask) :
  Forall descent_prunes todo →
  ∀ pre s s',
    session_sound s →
    (∀ c u, c ∈ todo → speculative c = false → u ∈ visited c → process_persisted s u) →
    NoDup (flat_map guids todo) →
    (∀ k, k ∈ flat_map guids todo → k ≠ pid ∧ k ∉ pre) →
    (∀ c, c ∈ todo → speculative c = true → st_parent c = Some pid) →
    (∀ c, c ∈ todo → speculative c = false → speculative_children_linked c) →
    (∃ task_model properties,
       task_models s !! pid = Some task_model
       ∧ tm_properties_json task_model = Some properties
       ∧ tp_children properties = pre ++ map st_id todo) →
    for_each
      (λ child_spiff_task,
         if _has_state child_spiff_task (PREDICTED_MASK env) then prune child_spiff_task
         else
           update_task_model_with_spiff_task child_spiff_task None ;;;
           process_spiff_task_children child_spiff_task)
      todo s = Ok (tt, s') →
    session_sound s'
    ∧ same_session s s'
    ∧ (∃ task_model properties,
         task_models s' !! pid = Some task_model
         ∧ tm_properties_json task_model = Some properties
         ∧ tp_children properties
           = pre ++ map st_id (filter (λ c, speculative c = false) todo))
    ∧ (∀ k, k ≠ pid → k ∉ flat_map guids todo → task_models s' !! k = task_models s !! k)
    ∧ (∀ c u, c ∈ todo → speculative c = false → u ∈ visited c → pruned_entry s' u)
    ∧ (∀ c u, c ∈ todo → u ∈ subtree c → speculative c = true ∨ u ∉ visited c →
              task_models s' !! st_id u = task_models s !! st_id u).
Proof.
  induction todo as [|c rest IHrest]; intros IH pre s s' Hs Hpers Hnd Hdisj Hlink Hlinked Hentry Hrun.
  { simpl in Hrun. apply ret_Ok in Hrun as [_ ->]. split_and!; try done.
    all: intros c u Hc; by apply elem_of_nil in Hc. }
  apply Forall_cons in IH as [IHc IH].
  simpl in Hnd. apply NoDup_app in Hnd as (Hndc & Hcr & Hndr).
  assert (∀ k, k ∈ guids c → k ≠ pid ∧ k ∉ pre) as Hdc.
  { intros k Hk. apply Hdisj. simpl. apply elem_of_app. by left. }
  assert (∀ k, k ∈ flat_map guids rest → k ≠ pid ∧ k ∉ pre) as Hdr.
  { intros k Hk. apply Hdisj. simpl. apply elem_of_app. by right. }
  destruct (Hdc _ (guid_in_guids c)) as [Hcpid Hcpre].
  simpl in Hrun. apply bind_Ok in Hrun as ([] & s1 & Hstep & Hrun).
  destruct Hentry as (tm & props & Htm & Hprops & Hchildren). simpl in Hchildren.
  fold (speculative c) in Hstep. destruct (speculative c) eqn:Hspec.
  - (* a speculative child: its guid leaves the entry of the parent *)
    pose proof (prune_quiet _ _ _ _ Hstep) as (_ & _ & _ & Hk1).
    eapply prune_Ok in Hstep as (S1 & D1 & F1 & E1); eauto; [|apply Hlink; [left|done]].
    assert (session_sound s1) as Hs1.
    { destruct Hs as [Hk Hi]. split; [auto|]. by rewrite D1. }
    destruct (IHrest IH pre s1 s' Hs1) as (Hs' & S' & E' & F' & V' & U'); auto.
    { intros c' u Hc' Hsp Hu. eapply process_persisted_same_session; [exact S1|].
      eapply Hpers; eauto. by right. }
    { intros c' Hc'. apply Hlink. by right. }
    { intros c' Hc'. apply Hlinked. by right. }
    split_and!; try done.
    + by etrans.
    + rewrite filter_cons, decide_False by (rewrite Hspec; done). exact E'.
    + intros k Hk Hin. simpl in Hin. rewrite elem_of_app in Hin.
      rewrite F' by tauto. apply F1. done.
    + intros c' u Hc' Hsp Hu. apply elem_of_cons in Hc' as [->|Hc']; [congruence|].
      eapply V'; eauto.
    + intros c' u Hc' Hu Hor. apply elem_of_cons in Hc' as [->|Hc'].
      * apply subtree_guid in Hu. destruct (Hdc _ Hu) as [Hupid _].
        rewrite F'; [by apply F1|done|]. intros Hin. by apply (Hcr _ Hu).
      * rewrite (U' c' u Hc' Hu Hor). apply F1.
        apply subtree_guid in Hu. apply Hdr. apply elem_of_flat_map. eauto.
  - (* a child that is kept: it is updated, then its own children are walked *)
    apply bind_Ok in Hstep as (tmc & s0 & Hupd & Hwalk).
    eapply update_task_model_with_spiff_task_persisted in Hupd
      as (T0 & P0 & S0 & Hs0); eauto.
    2:{ eapply Hpers; [left|done|]. rewrite visited_unfold. left. }
    destruct (IHc s0 s1 Hs0) as (Hs1 & S1 & F1 & V1 & U1); auto.
    { intros u Hu. eapply process_persisted_same_session; [exact S0|].
      eapply Hpers; eauto. left. }
    { apply Hlinked; [left|done]. }
    { exists tmc, (properties_of c). rewrite T0, lookup_insert_eq.
      split; [done|]. split; [done|]. apply tp_children_properties_of. }
    assert (same_session s s1) as S01 by (by etrans).
    destruct (IHrest IH (pre ++ [st_id c]) s1 s' Hs1) as (Hs' & S' & E' & F' & V' & U'); auto.
    { intros c' u Hc' Hsp Hu. eapply process_persisted_same_session; [exact S01|].
      eapply Hpers; eauto. by right. }
    { intros k Hk. destruct (Hdr k Hk) as [Hkpid Hkpre]. split; [done|].
      rewrite elem_of_app, list_elem_of_singleton. intros [?| ->]; [done|].
      by apply (Hcr _ (guid_in_guids c)). }
    { intros c' Hc'. apply Hlink. by right. }
    { intros c' Hc'. apply Hlinked. by right. }
    { exists tm, props. rewrite F1 by (intros Hin; by destruct (Hdc _ Hin)).
      rewrite T0, lookup_insert_ne by done. split; [done|]. split; [done|].
      rewrite Hchildren, <- app_assoc. done. }
    assert (∀ k, k ≠ pid → k ∉ flat_map guids rest →
                 task_models s' !! k = task_models s1 !! k) as F'' by exact F'.
    split_and!; try done.
    + by etrans.
    + rewrite filter_cons, decide_True by done. simpl.
      destruct E' as (tm' & props' & ? & ? & E'). exists tm', props'.
      split; [done|]. split; [done|]. by rewrite E', <- app_assoc.
    + intros k Hk Hin. simpl in Hin. rewrite elem_of_app in Hin.
      rewrite F' by tauto. rewrite F1 by tauto. rewrite T0.
      apply lookup_insert_ne. intros <-. apply Hin. left. apply guid_in_guids.
    + intros c' u Hc' Hsp Hu. apply elem_of_cons in Hc' as [->|Hc']; [|eapply V'; eauto].
      destruct (V1 u Hu) as (tmu & pu & Hlu & Hpu & Hcu). exists tmu, pu.
      split; [|done]. apply visited_in_subtree, subtree_guid in Hu.
      rewrite F''; [done|by destruct (Hdc _ Hu)|]. intros Hin. by apply (Hcr _ Hu).
    + intros c' u Hc' Hu Hor. apply elem_of_cons in Hc' as [->|Hc'].
      * destruct Hor as [Hor|Hor]; [congruence|].
        pose proof (subtree_head_guid _ _ Hndc Hu Hor) as Hne.
        pose proof (subtree_guid _ _ Hu) as Hg.
        rewrite F''; [|by destruct (Hdc _ Hg)|intros Hin; by apply (Hcr _ Hg)].
        rewrite (U1 u Hu Hor), T0. by apply lookup_insert_ne.
      * rewrite (U' c' u Hc' Hu Hor).
        pose proof (subtree_guid _ _ Hu) as Hg.
        assert (st_id u ∈ flat_map guids rest) as Hin by (apply elem_of_flat_map; eauto).
        rewrite F1 by (intros Hin'; by apply (Hcr _ Hin')).
        rewrite T0. apply lookup_insert_ne. intros Heq.
        apply (Hcr (st_id c)); [apply guid_in_guids|by rewrite Heq].
Qed.

Lemma descent_prunes_all spiff_task : descent_prunes spiff_task.
Proof.
  induction spiff_task as [id parent state spec data wf children IH]
    using SpiffTask_nested_ind.
  set (t := mkSpiffTask id parent state spec data wf children).
  intros s s' Hs Hpers Hnd Hlinked Hentry Hrun.
  rewrite process_spiff_task_children_unfold in Hrun.
  rewrite guids_unfold in Hnd. apply NoDup_cons in Hnd as [Hhead Hnd].
  change (st_children t) with children in *. change (st_id t) with id in *.
  destruct (descent_loop id children IH [] s s' Hs) as (Hs' & S' & E' & F' & V' & U'); auto.
  { intros c u Hc Hsp Hu. apply Hpers. rewrite visited_unfold. right.
    apply elem_of_flat_map. exists c. split; [done|]. by rewrite Hsp. }
  { intros k Hk. split; [|apply not_elem_of_nil]. intros ->. by apply Hhead. }
  { intros c Hc Hsp. apply (Hlinked t c); [rewrite visited_unfold; left|done|done]. }
  { intros c Hc Hsp. by eapply speculative_children_linked_child. }
  split_and!; try done.
  - intros k Hk. rewrite guids_unfold in Hk.
    apply not_elem_of_cons in Hk as [Hk1 Hk2]. by apply F'.
  - intros u Hu. rewrite visited_unfold in Hu. apply elem_of_cons in Hu as [->|Hu].
    + exact E'.
    + apply elem_of_flat_map in Hu as (c & Hc & Hu).
      destruct (speculative c) eqn:Hsp; [by apply elem_of_nil in Hu|]. eapply V'; eauto.
  - intros u Hu Hv. rewrite subtree_unfold in Hu.
    apply elem_of_cons in Hu as [->|Hu].
    { exfalso. apply Hv. rewrite visited_unfold. left. }
    apply elem_of_flat_map in Hu as (c & Hc & Hu). apply (U' c u Hc Hu).
    destruct (speculative c) eqn:Hsp; [by left|]. right. intros Hvc. apply Hv.
    rewrite visited_unfold. right. apply elem_of_flat_map. exists c.
    split; [done|]. by rewrite Hsp.
Qed.

(** ** A task whose process is created on the way *)

Lemma next_id_above rows r :
  r ∈ rows → default 0 (bp_id r) < next_id rows.
Proof.
  unfold next_id. induction rows as [|x rows IH]; intros Hr; [by apply elem_of_nil in Hr|].
  simpl. apply elem_of_cons in Hr as [->|Hr]; [lia|]. specialize (IH Hr). lia.
Qed.

Lemma next_id_fresh rows : Some (next_id rows) ∉ map bp_id rows.
Proof.
  intros Hin. apply list_elem_of_fmap in Hin as (r & Hid & Hr).
  pose proof (next_id_above rows r Hr) as Hlt. rewrite <- Hid in Hlt. simpl in Hlt. lia.
Qed.

Lemma prune_same_session spiff_task : steps_by same_session (prune spiff_task).
Proof.
  intros s u s' H. unfold prune in H.
  apply bind_Ok in H as (s0 & s1 & H0 & H). apply get_state_Ok in H0 as [-> ->].
  apply bind_Ok in H as (tms & s1 & H0 & H). apply lift_result_Ok in H0 as [H0 ->].
  apply modify_Ok in H as ->. done.
Qed.

Lemma update_task_model_same_session task_model spiff_task :
  steps_by same_session (update_task_model task_model spiff_task).
Proof.
  intros s tm s' H. apply update_task_model_Ok in H as (_ & _ & _ & _ & _ & _ & _ & H).
  by apply only_json_data_buffered_same_session in H as [H _].
Qed.

Lemma add_tasks_to_bpmn_process_same_session tasks spiff_workflow bpmn_process :
  steps_by same_session (add_tasks_to_bpmn_process tasks spiff_workflow bpmn_process).
Proof.
  unfold add_tasks_to_bpmn_process. steps.
  destruct x as [task_id task_properties]. case_decide; steps.
  destruct (_has_state _ _); [apply prune_same_session|]. steps.
  - destruct (session_task_by_guid _ _); steps.
  - apply update_task_model_same_session.
  - apply steps_by_modify; try apply _; intros s. done.
Qed.

(** [add_bpmn_process] where its query finds no process: the new process
    becomes a row with a fresh id and the guid given, and is the process
    of the instance when there is no top level process. *)
Lemma add_bpmn_process_creates bpmn_process_dict spiff_workflow top_level_process
    bpmn_process_guid s bpmn_process s' :
  match top_level_process with
  | Some top =>
      find (λ r, bool_decide (bp_top_level_process_id r = bp_id top
                              ∧ bp_guid r = bpmn_process_guid))
        (bpmn_process_rows (db s))
  | None =>
      match pi_bpmn_process_id (process_instance s) with
      | Some id => bpmn_process_by_id (bpmn_process_rows (db s)) (Some id)
      | None => None
      end
  end = None →
  add_bpmn_process bpmn_process_dict spiff_workflow top_level_process bpmn_process_guid s
    = Ok (bpmn_process, s') →
  row_keys (bpmn_process_rows (db s'))
    = row_keys (bpmn_process_rows (db s)) ++ [(bp_id bpmn_process, bpmn_process_guid)]
  ∧ bp_id bpmn_process = Some (next_id (bpmn_process_rows (db s)))
  ∧ bp_guid bpmn_process = bpmn_process_guid
  ∧ task_rows (db s') = task_rows (db s)
  ∧ (top_level_process = None →
     pi_bpmn_process_id (process_instance s') = bp_id bpmn_process)
  ∧ (is_Some top_level_process → process_instance s' = process_instance s).
Proof.
  intros Hnone H. unfold add_bpmn_process in H.
  apply bind_Ok in H as (s0 & ? & H0 & H). apply get_state_Ok in H0 as [-> ->].
  cbv zeta in H. rewrite Hnone in H.
  apply bind_Ok in H as ([is_new b0] & sa & Hcreate & H).
  assert (is_new = true ∧ bp_id b0 = None ∧ bp_guid b0 = bpmn_process_guid ∧ sa = s)
    as (-> & Hid0 & Hguid0 & ->).
  { apply bind_Ok in Hcreate as (d & ? & H0 & Hcreate). apply deref_Ok in H0 as [_ ->].
    destruct top_level_process as [top|].
    - apply bind_Ok in Hcreate as (parent & ? & H0 & Hcreate).
      apply lift_result_Ok in H0 as [_ ->].
      apply ret_Ok in Hcreate as [[= -> ->] ->]. done.
    - apply ret_Ok in Hcreate as [[= -> ->] ->]. done. }
  match type of H with context [update_task_data_on_bpmn_process ?x ?y] =>
    pose proof (update_task_data_on_bpmn_process_keys x y) as (Kid & Kguid & _);
    destruct (update_task_data_on_bpmn_process x y) as [b1 jd]
  end. simpl in Kid, Kguid.
  apply bind_Ok in H as ([] & s2 & Hbuf & H).
  apply buffer_json_data_Ok in Hbuf as (Hdb2 & Hpi2 & _).
  apply bind_Ok in H as (b3 & s3 & Hadd & H).
  apply bind_Ok in H as ([] & s4 & Hpi & H).
  apply bind_Ok in H as ([] & s5 & Htasks & H).
  apply ret_Ok in H as [-> ->].
  apply add_tasks_to_bpmn_process_same_session in Htasks as (Hrows5 & Htr5 & Hpi5).
  unfold session_add in Hadd.
  match type of Hadd with context [bp_id ?b] => set (b2 := b) in * end.
  assert (bp_id b2 = None ∧ bp_guid b2 = bpmn_process_guid) as [Hid2 Hguid2].
  { unfold b2. destruct top_level_process as [top|]; [|split; congruence].
    destruct (bp_top_level_process_id b1); simpl; split; congruence. }
  clearbody b2. rewrite Hid2 in Hadd. injection Hadd as <- <-.
  assert (db s4 = with_bpmn_process_rows
                    (bpmn_process_rows (db s2)
                     ++ [bp_with_id (Some (next_id (bpmn_process_rows (db s2)))) b2]) (db s2)
          ∧ process_instance s4
            = match top_level_process with
              | None => {| pi_id := pi_id (process_instance s2);
                           pi_bpmn_process_id := Some (next_id (bpmn_process_rows (db s2))) |}
              | Some _ => process_instance s2
              end) as [Hdb4 Hpi4].
  { destruct top_level_process as [top|].
    - apply ret_Ok in Hpi as [_ ->]. done.
    - apply modify_Ok in Hpi as ->. done. }
  rewrite Hdb2 in Hdb4, Hpi4. rewrite Hpi2 in Hpi4. rewrite Hdb2.
  split_and!.
  - rewrite Hrows5, Hdb4. simpl. unfold row_keys. rewrite map_app. simpl.
    by rewrite Hguid2.
  - done.
  - simpl. done.
  - rewrite Htr5, Hdb4. done.
  - intros ->. rewrite Hpi5, Hpi4. done.
  - intros [top ->]. rewrite Hpi5, Hpi4. done.
Qed.

Lemma _task_subprocess_guid spiff_task guid subprocess :
  _task_subprocess spiff_task = (guid, Some subprocess) → is_Some guid.
Proof.
  unfold _task_subprocess. destruct (negb _); [|discriminate].
  destruct (find _ _) as [[sp_id sp]|]; [|discriminate]. intros [= <- _]. eauto.
Qed.

(** [task_bpmn_process] leaves the process of the task persisted: it
    finds the row, or creates it. *)
Lemma task_bpmn_process_persists spiff_task s found s' :
  session_sound s →
  task_bpmn_process spiff_task s = Ok (found, s') →
  session_sound s'
  ∧ process_persisted s' spiff_task
  ∧ task_rows (db s') = task_rows (db s)
  ∧ (∀ b, found = Some b →
          (bp_id b, bp_guid b) ∈ row_keys (bpmn_process_rows (db s'))).
Proof.
  intros [Hk Hnd] H.
  pose proof (task_bpmn_process_quiet _ _ _ _ H) as (_ & _ & _ & Hk'). specialize (Hk' Hk).
  assert (∀ dict wf top guid b,
            add_bpmn_process dict wf top guid s = Ok (b, s') →
            match top with
            | Some top =>
                find (λ r, bool_decide (bp_top_level_process_id r = bp_id top
                                        ∧ bp_guid r = guid))
                  (bpmn_process_rows (db s))
            | None =>
                match pi_bpmn_process_id (process_instance s) with
                | Some id => bpmn_process_by_id (bpmn_process_rows (db s)) (Some id)
                | None => None
                end
            end = None →
            NoDup (map bp_id (bpmn_process_rows (db s')))
            ∧ task_rows (db s') = task_rows (db s)
            ∧ (bp_id b, bp_guid b) ∈ row_keys (bpmn_process_rows (db s'))
            ∧ guid ∈ map bp_guid (bpmn_process_rows (db s'))
            ∧ (top = None → is_Some (pi_bpmn_process_id (process_instance s'))))
    as Hcreate.
  { intros dict wf top guid b Hrun Hnone.
    destruct (add_bpmn_process_creates _ _ _ _ _ _ _ Hnone Hrun)
      as (Hrows & Hid & Hguid & Htasks & Hpi & _).
    split_and!.
    - rewrite row_keys_ids, Hrows, fmap_app, <- row_keys_ids. simpl.
      apply NoDup_app. split; [done|]. split; [|apply NoDup_singleton].
      intros x Hx Hx'. apply list_elem_of_singleton in Hx' as ->. rewrite Hid in Hx.
      by apply next_id_fresh in Hx.
    - done.
    - rewrite Hrows, Hguid. apply elem_of_app. right. by apply list_elem_of_singleton.
    - rewrite row_keys_guids, Hrows, fmap_app. simpl.
      apply elem_of_app. right. by apply list_elem_of_singleton.
    - intros Htop. rewrite (Hpi Htop), Hid. eauto. }
  unfold task_bpmn_process in H. unfold process_persisted.
  destruct (_task_subprocess spiff_task) as [guid [sp|]] eqn:Hsub.
  - destruct (_task_subprocess_guid _ _ _ Hsub) as [gid ->]. simpl in *.
    apply bind_Ok in H as (s0 & ? & H0 & H). apply get_state_Ok in H0 as [-> ->].
    destruct (bpmn_process_by_guid (bpmn_process_rows (db s)) gid) as [b|] eqn:Hb.
    + apply ret_Ok in H as [-> ->]. split_and!; try done.
      all: try (rewrite Hb; by eauto).
      intros b' [= <-]. apply bpmn_process_by_guid_Some in Hb as [Hb _].
      apply list_elem_of_fmap. by exists b.
    + apply bind_Ok in H as (b & s1 & Hadd & H). apply ret_Ok in H as [-> ->].
      destruct (Hcreate _ _ _ _ _ Hadd) as (Hnd' & Htasks & Hkey & Hguid & _).
      { destruct (bpmn_process_by_id _ _) as [top|] eqn:Htop.
        - destruct (find _ _) as [r|] eqn:Hfind; [|done]. exfalso.
          apply find_Some_elem_of in Hfind as [Hr Hmatch].
          apply bool_decide_eq_true in Hmatch as [_ Hmatch].
          assert (is_Some (bpmn_process_by_guid (bpmn_process_rows (db s)) gid)) as [? ?].
          { apply bpmn_process_by_guid_is_Some, list_elem_of_fmap. by exists r. }
          congruence.
        - destruct (pi_bpmn_process_id _) as [id|]; [exact Htop|done]. }
      split_and!; try done.
      all: try (by apply bpmn_process_by_guid_is_Some).
      by intros b' [= <-].
  - apply bind_Ok in H as (s0 & ? & H0 & H). apply get_state_Ok in H0 as [-> ->].
    destruct (pi_bpmn_process_id (process_instance s)) as [id|] eqn:Hpi.
    + apply ret_Ok in H as [-> ->]. rewrite Hpi. split_and!; try done.
      all: try (by eauto).
      intros b Hb. apply bpmn_process_by_id_Some in Hb as (Hb & _).
      apply list_elem_of_fmap. by exists b.
    + apply bind_Ok in H as (b & s1 & Hadd & H). apply ret_Ok in H as [-> ->].
      destruct (Hcreate _ _ _ _ _ Hadd) as (Hnd' & Htasks & Hkey & _ & Htop); [done|].
      split_and!; try done.
      all: try (by apply Htop).
      by intros b' [= <-].
Qed.

(** A task that the session knows, from [task_models] or from a row,
    has its process persisted. *)
Lemma find_or_create_task_model_from_spiff_task_known spiff_task s found task_model s' :
  session_sound s →
  (is_Some (task_by_guid (task_rows (db s)) (st_id spiff_task)) →
   process_persisted s spiff_task) →
  find_or_create_task_model_from_spiff_task spiff_task s = Ok ((found, task_model), s') →
  session_sound s'
  ∧ process_persisted s' spiff_task
  ∧ tm_guid task_model = st_id spiff_task
  ∧ (∀ b, found = Some b →
          (bp_id b, bp_guid b) ∈ row_keys (bpmn_process_rows (db s')))
  ∧ (process_persisted s spiff_task → s' = s).
Proof.
  intros Hs Hknown H.
  assert (process_persisted s spiff_task → s' = s) as Hsame.
  { intros Hp. destruct Hs as [Hk _].
    by eapply find_or_create_task_model_from_spiff_task_persisted in H as (? & _). }
  unfold find_or_create_task_model_from_spiff_task in H.
  apply bind_Ok in H as (s0 & ? & H0 & H). apply get_state_Ok in H0 as [-> ->].
  destruct (session_task_by_guid s (st_id spiff_task)) as [tm|] eqn:Hq.
  { apply ret_Ok in H as [[= -> ->] ->]. split_and!; try done.
    - apply Hknown. unfold session_task_by_guid in Hq.
      destruct (task_by_guid _ _); [eauto|discriminate].
    - destruct Hs as [Hk _]. by eapply session_task_by_guid_Some. }
  apply bind_Ok in H as (b & s1 & Hb & H).
  apply task_bpmn_process_persists in Hb as (Hs1 & Hp1 & Htasks & Hkey); [|done].
  apply bind_Ok in H as (s0 & ? & H0 & H). apply get_state_Ok in H0 as [-> ->].
  destruct (session_task_by_guid s1 (st_id spiff_task)) as [tm1|] eqn:Hq1.
  { apply ret_Ok in H as [[= -> ->] ->]. split_and!; try done.
    destruct Hs1 as [Hk1 _]. by eapply session_task_by_guid_Some. }
  apply bind_Ok in H as (td & ? & H0 & H). apply deref_Ok in H0 as [_ ->].
  apply bind_Ok in H as (created & ? & H0 & H). apply deref_Ok in H0 as [_ ->].
  apply ret_Ok in H as [[= -> ->] ->]. done.
Qed.

(** The update of a task that the session knows only with its process,
    whether the process is there or is created by the update. *)
Lemma update_task_model_with_spiff_task_known spiff_task times s task_model s' :
  session_sound s →
  (is_Some (task_models s !! st_id spiff_task)
   ∨ is_Some (task_by_guid (task_rows (db s)) (st_id spiff_task)) →
   process_persisted s spiff_task) →
  update_task_model_with_spiff_task spiff_task times s = Ok (task_model, s') →
  ∃ s0,
    (process_persisted s spiff_task → s0 = s)
    ∧ task_models s' = <[st_id spiff_task := task_model]> (task_models s0)
    ∧ tm_properties_json task_model = Some (properties_of spiff_task)
    ∧ session_sound s'
    ∧ process_persisted s' spiff_task.
Proof.
  intros [Hk Hnd] Hknown Hrun.
  pose proof (update_task_model_with_spiff_task_keeps_keyed _ _ _ _ _ Hk Hrun) as Hk'.
  apply update_task_model_with_spiff_task_run in Hrun
    as (nbp & tm0 & s1 & tm1 & s2 & bp & s3 & s5 & Hfound & Hupd & Hbp & Htm & Hbuf & Hev & Hubp).
  assert (session_sound s1
          ∧ process_persisted s1 spiff_task
          ∧ tm_guid tm0 = st_id spiff_task
          ∧ (∀ b, nbp = Some b →
                  (bp_id b, bp_guid b) ∈ row_keys (bpmn_process_rows (db s1)))
          ∧ (process_persisted s spiff_task → s1 = s))
    as ([Hk1 Hnd1] & Hp1 & Hguid & Hnbp & Hsame).
  { destruct (task_models s !! st_id spiff_task) as [found|] eqn:Hb.
    - destruct Hfound as (-> & -> & ->). split_and!; try done.
      + apply Hknown. left. eauto.
      + destruct Hk as (Hk & _). by apply Hk.
    - eapply find_or_create_task_model_from_spiff_task_known; [by split| |exact Hfound].
      intros Hrow. apply Hknown. by right. }
  assert ((bp_id bp, bp_guid bp) ∈ row_keys (bpmn_process_rows (db s1))) as Hbprow.
  { destruct nbp as [b|]; [apply Hnbp; congruence|].
    apply bpmn_process_by_id_Some in Hbp as [Hbp _].
    apply list_elem_of_fmap. by exists bp. }
  apply update_task_model_Ok in Hupd as (G1 & _ & P1 & _ & _ & _ & _ & F1).
  apply only_json_data_buffered_same_session in F1 as [S1 T1].
  apply buffer_json_data_Ok, only_json_data_buffered_same_session in Hbuf as [S2 T2].
  apply record_completion_Ok in Hev as (Ep & Et & _ & _ & Ed & _). simpl in Ep, Et, Ed.
  assert (same_session s1 s5) as S5.
  { etrans; [exact S1|]. etrans; [exact S2|]. unfold same_session. by rewrite Ed, Ep. }
  pose proof (update_task_data_on_bpmn_process_keys bp (wf_data (st_workflow spiff_task)))
    as (Kid & Kguid & _).
  apply update_bpmn_process_same_session in Hubp as [S6 T6].
  2:{ by eapply NoDup_ids_same_session. }
  2:{ destruct S5 as (S5 & _). rewrite <- S5 in Hbprow.
      apply list_elem_of_fmap in Hbprow as (r & [= E1 E2] & Hr).
      exists r. split; [done|]. split; congruence. }
  assert (tm_guid task_model = st_id spiff_task
          ∧ tm_properties_json task_model = Some (properties_of spiff_task)) as [G P].
  { subst task_model. destruct times; simpl; split; congruence. }
  assert (same_session s1 s') as S by (by etrans).
  exists s1. split_and!; try done.
  - rewrite T6, Et, G, T2, T1. done.
  - split; [done|]. by eapply NoDup_ids_same_session.
  - by eapply process_persisted_same_session.
Qed.

Lemma process_persisted_same_workflow s spiff_task u :
  st_workflow u = st_workflow spiff_task →
  process_persisted s spiff_task → process_persisted s u.
Proof.
  intros Hwf. unfold process_persisted, _task_subprocess. by rewrite Hwf.
Qed.

(** ** Tasks added with a new process *)

Lemma filter_ext_in {A} (P Q : A → Prop) `{!∀ x, Decision (P x)} `{!∀ x, Decision (Q x)}
    (l : list A) :
  (∀ x, x ∈ l → (P x ↔ Q x)) → filter P l = filter Q l.
Proof.
  induction l as [|x l IH]; intros Hext; [done|].
  rewrite !filter_cons.
  assert (filter P l = filter Q l) as -> by (apply IH; intros y Hy; apply Hext; by right).
  destruct (Hext x) as [H1 H2]; [left|].
  destruct (decide (P x)), (decide (Q x)); tauto.
Qed.

Lemma filter_all {A} (P : A → Prop) `{!∀ x, Decision (P x)} (l : list A) :
  (∀ x, x ∈ l → P x) → filter P l = l.
Proof.
  induction l as [|x l IH]; intros Hall; [done|].
  rewrite filter_cons_True by (apply Hall; left). f_equal. apply IH.
  intros y Hy. apply Hall. by right.
Qed.

Lemma list_remove_still_listed pruned x (children : list SpiffTask) :
  NoDup (map st_id children) →
  list_remove x (map st_id (filter (still_listed pruned) children))
  = map st_id (filter (λ c, still_listed pruned c ∧ st_id c ≠ x) children).
Proof.
  induction children as [|c children IH]; intros Hnd; [done|].
  simpl in Hnd. apply NoDup_cons in Hnd as [Hc Hnd].
  rewrite !filter_cons. destruct (decide (still_listed pruned c)) as [Hl|Hl].
  - simpl. destruct (decide (st_id c = x)) as [Hx|Hx].
    + rewrite decide_False by tauto. f_equal. apply filter_ext_in. intros y Hy.
      split; [|tauto]. intros Hy'. split; [done|]. intros Heq. apply Hc.
      rewrite Hx, <- Heq. apply list_elem_of_fmap. by exists y.
    + rewrite decide_True by tauto. simpl. f_equal. by apply IH.
  - rewrite decide_False by tauto. by apply IH.
Qed.

Lemma remove_spiff_task_from_parent_other_keys spiff_task parent
    (tms tms' : gmap string TaskModel) k :
  remove_spiff_task_from_parent spiff_task tms = Ok tms' →
  st_parent spiff_task = Some parent → k ≠ parent → tms' !! k = tms !! k.
Proof.
  unfold remove_spiff_task_from_parent. intros H Hp Hk. rewrite Hp in H.
  destruct (tms !! parent) as [tm|]; [|by injection H as <-].
  destruct (tm_properties_json tm) as [props|]; [|discriminate].
  case_decide; injection H as <-; [|done]. by rewrite lookup_insert_ne.
Qed.

Lemma remove_spiff_task_from_parent_children spiff_task parent
    (tms tms' : gmap string TaskModel) task_model properties :
  remove_spiff_task_from_parent spiff_task tms = Ok tms' →
  st_parent spiff_task = Some parent →
  tms !! parent = Some task_model →
  tm_properties_json task_model = Some properties →
  ∃ task_model' properties',
    tms' !! parent = Some task_model'
    ∧ tm_properties_json task_model' = Some properties'
    ∧ tp_children properties' = list_remove (st_id spiff_task) (tp_children properties).
Proof.
  unfold remove_spiff_task_from_parent. intros H Hp Htm Hprops.
  rewrite Hp, Htm, Hprops in H. case_decide as Hin; injection H as <-.
  - eexists _, _. rewrite lookup_insert_eq. split; [done|]. simpl. split; [done|]. done.
  - exists task_model, properties. split; [done|]. split; [done|].
    induction (tp_children properties) as [|y l IH]; [done|]. simpl.
    apply not_elem_of_cons in Hin as [Hy Hl]. rewrite decide_False by done.
    f_equal. by apply IH.
Qed.

Lemma remove_spiff_task_from_parent_domain spiff_task (tms tms' : gmap string TaskModel) k :
  remove_spiff_task_from_parent spiff_task tms = Ok tms' →
  is_Some (tms' !! k) → is_Some (tms !! k).
Proof.
  unfold remove_spiff_task_from_parent. intros H.
  destruct (st_parent spiff_task) as [parent|]; [|discriminate].
  destruct (tms !! parent) as [tm|] eqn:Hparent; [|by injection H as <-].
  destruct (tm_properties_json tm) as [props|]; [|discriminate].
  case_decide; injection H as <-; [|done].
  destruct (decide (k = parent)) as [->|Hne].
  - rewrite Hparent. eauto.
  - by rewrite lookup_insert_ne.
Qed.

(** One turn of the loop of [add_tasks_to_bpmn_process]. *)
Lemma add_tasks_to_bpmn_process_turn spiff_workflow bpmn_process tasks handled item todo s s1 :
  parents_listed_first spiff_workflow tasks →
  tasks = handled ++ item :: todo →
  buffers_keyed s →
  entries_pruned_so_far spiff_workflow handled s →
  add_tasks_to_bpmn_process [item] spiff_workflow bpmn_process s = Ok (tt, s1) →
  entries_pruned_so_far spiff_workflow (handled ++ [item]) s1
  ∧ ∀ k, is_Some (task_models s1 !! k) →
         is_Some (task_models s !! k)
         ∨ ∃ spiff_task, listed spiff_workflow item spiff_task
                         ∧ speculative spiff_task = false ∧ item.1 = k.
Proof.
  intros [Hnd Hfirst] Hsplit Hk Hinv Hrun.
  destruct item as [id props].
  assert (NoDup (handled.*1 ++ id :: todo.*1)) as Hkeys.
  { rewrite Hsplit, fmap_app in Hnd. done. }
  assert ((id, props) ∈ tasks) as Hitem.
  { rewrite Hsplit. apply elem_of_app. right. left. }
  assert (∀ item0, item0 ∈ handled → item0 ∈ tasks) as Hhandled.
  { intros item0 H0. rewrite Hsplit. apply elem_of_app. by left. }
  assert (∀ item0, item0 ∈ handled → item0.1 ≠ id) as Hother.
  { intros item0 H0 Heq. apply NoDup_app in Hkeys as (_ & Hkeys & _).
    apply (Hkeys id); [|left]. rewrite <- Heq. apply list_elem_of_fmap. by exists item0. }
  (* what the dict says of a task written before *)
  assert (∀ item0 t0,
            item0 ∈ tasks → listed spiff_workflow item0 t0 → speculative t0 = false →
            st_id t0 = item0.1
            ∧ NoDup (map st_id (st_children t0))
            ∧ ∀ c, c ∈ st_children t0 →
                   get_task_from_id env spiff_workflow (st_id c) = Some c
                   ∧ (speculative c = true →
                      st_parent c = Some item0.1
                      ∧ ∃ properties, (st_id c, properties) ∈ tasks
                                      ∧ tp_task_spec properties ≠ "Root")) as Hdict.
  { intros item0 t0 H0 Hl0 Hs0.
    destruct (list_elem_of_split _ _ H0) as (before & after & Hsp).
    destruct (Hfirst before item0 after t0 Hsp Hl0) as (Hid0 & Hrest).
    destruct (Hrest Hs0) as (Hnd0 & Hch0). split; [done|]. split; [done|].
    intros c Hc. destruct (Hch0 c Hc) as (Hget & Hspec). split; [done|].
    intros Hsc. destruct (Hspec Hsc) as (Hp & propsc & Hin & Hroot).
    split; [congruence|]. exists propsc. split; [|done].
    rewrite Hsp. apply elem_of_app. right. by right. }
  unfold add_tasks_to_bpmn_process in Hrun. simpl in Hrun.
  apply bind_Ok in Hrun as ([] & s1' & Hbody & Hret). apply ret_Ok in Hret as [_ <-].
  unfold entries_pruned_so_far. rewrite fmap_app. simpl.
  case_decide as Hroot.
  - (* the Root task is passed over *)
    apply ret_Ok in Hbody as [_ ->]. split; [|by left].
    intros item0 t0 H0 Hl0 Hs0.
    apply elem_of_app in H0 as [H0|H0].
    2:{ apply list_elem_of_singleton in H0 as ->. by destruct Hl0. }
    destruct (Hinv item0 t0 H0 Hl0 Hs0) as (tm & p & Htm & Hp & Hch).
    exists tm, p. split; [done|]. split; [done|]. rewrite Hch. f_equal.
    destruct (Hdict item0 t0 (Hhandled _ H0) Hl0 Hs0) as (_ & _ & Hchild).
    apply filter_ext_in. intros c Hc. unfold still_listed. split.
    + intros Hsl [Hsc Hin]. apply elem_of_app in Hin as [Hin|Hin]; [tauto|].
      apply list_elem_of_singleton in Hin.
      destruct (Hchild c Hc) as (_ & Hspec). destruct (Hspec Hsc) as (_ & propsc & Hin' & Hr).
      pose proof (NoDup_fst_same_key tasks (st_id c, propsc) (id, props) Hnd Hin' Hitem Hin)
        as [= _ ->]. done.
    + intros Hsl [Hsc Hin]. apply Hsl. split; [done|]. apply elem_of_app. by left.
  - apply bind_Ok in Hbody as (t & ? & H0 & Hbody). apply deref_Ok in H0 as [Ht ->].
    assert (listed spiff_workflow (id, props) t) as Hlisted by (by split).
    destruct (Hfirst handled (id, props) todo t Hsplit Hlisted) as (Hid & Hnonspec).
    simpl in Hid. fold (speculative t) in Hbody.
    destruct (speculative t) eqn:Hspec.
    + (* a speculative task: its id leaves the entry of its parent *)
      unfold prune in Hbody.
      apply bind_Ok in Hbody as (s0 & ? & H0 & Hbody). apply get_state_Ok in H0 as [-> ->].
      apply bind_Ok in Hbody as (tms' & ? & H0 & Hbody).
      apply lift_result_Ok in H0 as [Hrm ->]. apply modify_Ok in Hbody as ->. simpl.
      split.
      2:{ intros k Hsome. left. by eapply remove_spiff_task_from_parent_domain. }
      destruct (st_parent t) as [p|] eqn:Hparent.
      2:{ unfold remove_spiff_task_from_parent in Hrm. by rewrite Hparent in Hrm. }
      intros item0 t0 H0 Hl0 Hs0.
      apply elem_of_app in H0 as [H0|H0].
      2:{ apply list_elem_of_singleton in H0 as ->. destruct Hl0 as [_ Hl0]. simpl in Hl0.
          congruence. }
      destruct (Hinv item0 t0 H0 Hl0 Hs0) as (tm & p0 & Htm & Hp & Hch).
      destruct (Hdict item0 t0 (Hhandled _ H0) Hl0 Hs0) as (Hid0 & Hnd0 & Hchild).
      assert (∀ c, c ∈ st_children t0 → st_id c = id → c = t) as Hsame.
      { intros c Hc Heq. destruct (Hchild c Hc) as (Hget & _). congruence. }
      destruct (decide (p = item0.1)) as [->|Hne].
      * destruct (remove_spiff_task_from_parent_children _ _ _ _ _ _ Hrm Hparent Htm Hp)
          as (tm' & p' & Htm' & Hp' & Hch').
        exists tm', p'. split; [done|]. split; [done|].
        rewrite Hch', Hch, Hid, list_remove_still_listed by done. f_equal.
        apply filter_ext_in. intros c Hc. unfold still_listed. split.
        -- intros [Hsl Hne] [Hsc Hin]. apply elem_of_app in Hin as [Hin|Hin]; [tauto|].
           by apply list_elem_of_singleton in Hin.
        -- intros Hsl. split.
           ++ intros [Hsc Hin]. apply Hsl. split; [done|]. apply elem_of_app. by left.
           ++ intros Heq. apply Hsl. rewrite (Hsame c Hc Heq). split; [done|].
              rewrite Hid. apply elem_of_app. right. by apply list_elem_of_singleton.
      * exists tm, p0.
        rewrite (remove_spiff_task_from_parent_other_keys _ _ _ _ _ Hrm Hparent) by done.
        split; [done|]. split; [done|]. rewrite Hch. f_equal.
        apply filter_ext_in. intros c Hc. unfold still_listed. split.
        -- intros Hsl [Hsc Hin]. apply elem_of_app in Hin as [Hin|Hin]; [tauto|].
           apply list_elem_of_singleton in Hin.
           destruct (Hchild c Hc) as (_ & Hlink). destruct (Hlink Hsc) as (Hpc & _).
           rewrite (Hsame c Hc Hin) in Hpc. congruence.
        -- intros Hsl [Hsc Hin]. apply Hsl. split; [done|]. apply elem_of_app. by left.
    + (* a task that is kept: its entry is written with all its children *)
      apply bind_Ok in Hbody as (s0 & ? & H0 & Hbody). apply get_state_Ok in H0 as [-> ->].
      apply bind_Ok in Hbody as (tm0 & s2 & Hfound & Hbody).
      apply bind_Ok in Hbody as (tm1 & s3 & Hupd & Hbody).
      apply modify_Ok in Hbody as ->. simpl.
      apply update_task_model_Ok in Hupd as (Hguid & _ & Hprops & _ & _ & _ & _ & Hframe).
      destruct Hframe as (_ & _ & _ & Htms & _).
      assert (s2 = s ∧ tm_guid tm0 = id) as [-> Hg].
      { destruct (session_task_by_guid s id) as [row|] eqn:Hq.
        - apply ret_Ok in Hfound as [-> ->]. split; [done|].
          exact (session_task_by_guid_Some _ _ _ Hk Hq).
        - apply lift_result_Ok in Hfound as [Hcreate ->]. split; [done|].
          unfold _create_task in Hcreate. case_match; [|discriminate].
          by injection Hcreate as <-. }
      rewrite Hguid, Hg, Htms. split.
      2:{ intros k Hsome. destruct (decide (k = id)) as [->|Hne].
          - right. exists t. done.
          - left. by rewrite lookup_insert_ne in Hsome. }
      destruct (Hnonspec eq_refl) as (Hndt & Hcht).
      intros item0 t0 H0 Hl0 Hs0.
      destruct (decide (item0.1 = id)) as [Heq|Hne].
      * assert (item0 = (id, props)) as ->.
        { apply elem_of_app in H0 as [H0|H0]; [by destruct (Hother _ H0)|].
          by apply list_elem_of_singleton in H0. }
        assert (t0 = t) as -> by (destruct Hl0; simpl in *; congruence).
        exists tm1, (properties_of t). simpl. rewrite lookup_insert_eq.
        split; [done|]. split; [done|]. rewrite tp_children_properties_of. f_equal.
        symmetry. apply filter_all. intros c Hc [Hsc Hin].
        destruct (Hcht c Hc) as (_ & Hlink). destruct (Hlink Hsc) as (_ & propsc & Hafter & _).
        assert (st_id c ∈ todo.*1) as Hc' by (apply list_elem_of_fmap; by exists (st_id c, propsc)).
        apply NoDup_app in Hkeys as (_ & Hk1 & Hk2). apply NoDup_cons in Hk2 as [Hk2 _].
        apply elem_of_app in Hin as [Hin|Hin].
        -- apply (Hk1 _ Hin). by right.
        -- apply list_elem_of_singleton in Hin. by rewrite Hin in Hc'.
      * apply elem_of_app in H0 as [H0|H0].
        2:{ apply list_elem_of_singleton in H0 as ->. done. }
        destruct (Hinv item0 t0 H0 Hl0 Hs0) as (tm & p0 & Htm & Hp & Hch).
        destruct (Hdict item0 t0 (Hhandled _ H0) Hl0 Hs0) as (_ & _ & Hchild).
        exists tm, p0. rewrite lookup_insert_ne by done.
        split; [done|]. split; [done|]. rewrite Hch. f_equal.
        apply filter_ext_in. intros c Hc. unfold still_listed. split.
        -- intros Hsl [Hsc Hin]. apply elem_of_app in Hin as [Hin|Hin]; [tauto|].
           apply list_elem_of_singleton in Hin.
           destruct (Hchild c Hc) as (Hget & _). rewrite Hin, Ht in Hget.
           injection Hget as <-. congruence.
        -- intros Hsl [Hsc Hin]. apply Hsl. split; [done|]. apply elem_of_app. by left.
Qed.

Lemma add_tasks_to_bpmn_process_unfold item todo spiff_workflow bpmn_process s :
  add_tasks_to_bpmn_process (item :: todo) spiff_workflow bpmn_process s
  = match add_tasks_to_bpmn_process [item] spiff_workflow bpmn_process s with
    | Ok (_, s1) => add_tasks_to_bpmn_process todo spiff_workflow bpmn_process s1
    | Raise e => Raise e
    end.
Proof.
  unfold add_tasks_to_bpmn_process. simpl. unfold bind.
  match goal with |- context [match ?m s with _ => _ end] => destruct (m s) as [[u s1]|e] end;
    done.
Qed.

Lemma add_tasks_to_bpmn_process_loop spiff_workflow bpmn_process tasks :
  parents_listed_first spiff_workflow tasks →
  ∀ todo handled s s',
    tasks = handled ++ todo →
    buffers_keyed s →
    entries_pruned_so_far spiff_workflow handled s →
    add_tasks_to_bpmn_process todo spiff_workflow bpmn_process s = Ok (tt, s') →
    entries_pruned_so_far spiff_workflow tasks s'
    ∧ ∀ k, is_Some (task_models s' !! k) →
           is_Some (task_models s !! k)
           ∨ ∃ item spiff_task,
               item ∈ todo ∧ listed spiff_workflow item spiff_task
               ∧ speculative spiff_task = false ∧ item.1 = k.
Proof.
  intros Hfirst. induction todo as [|item todo IH]; intros handled s s' Hsplit Hk Hinv Hrun.
  { apply ret_Ok in Hrun as [_ ->]. rewrite app_nil_r in Hsplit. subst handled.
    split; [done|]. intros k Hsome. by left. }
  rewrite add_tasks_to_bpmn_process_unfold in Hrun.
  destruct (add_tasks_to_bpmn_process [item] spiff_workflow bpmn_process s)
    as [[[] s1]|e] eqn:Hturn; [|discriminate].
  pose proof (add_tasks_to_bpmn_process_quiet _ _ _ _ _ _ Hturn) as (_ & _ & _ & Hk1).
  specialize (Hk1 Hk).
  destruct (add_tasks_to_bpmn_process_turn _ _ _ _ _ _ _ _ Hfirst Hsplit Hk Hinv Hturn)
    as (Hinv1 & Hdom1).
  destruct (IH (handled ++ [item]) s1 s') as (Hinv' & Hdom'); auto.
  { by rewrite <- app_assoc. }
  split; [done|]. intros k Hsome.
  destruct (Hdom' k Hsome) as [Hsome1|(item0 & t0 & H0 & Hl0 & Hs0 & Hk0)].
  - destruct (Hdom1 k Hsome1) as [Hsome0|(t & Hl & Hs & Hkey)]; [by left|].
    right. exists item, t. split; [left|done].
  - right. exists item0, t0. split; [by right|done].
Qed.

(** [add_tasks_to_bpmn_process] prunes when parents are listed first. *)
Lemma add_tasks_to_bpmn_process_prunes spiff_workflow bpmn_process tasks s s' :
  buffers_keyed s →
  parents_listed_first spiff_workflow tasks →
  add_tasks_to_bpmn_process tasks spiff_workflow bpmn_process s = Ok (tt, s') →
  (∀ item spiff_task,
     item ∈ tasks → listed spiff_workflow item spiff_task →
     speculative spiff_task = false → pruned_entry s' spiff_task)
  ∧ (∀ k, is_Some (task_models s' !! k) →
          is_Some (task_models s !! k)
          ∨ ∃ item spiff_task,
              item ∈ tasks ∧ listed spiff_workflow item spiff_task
              ∧ speculative spiff_task = false ∧ st_id spiff_task = k).
Proof.
  intros Hk Hfirst Hrun.
  destruct (add_tasks_to_bpmn_process_loop _ bpmn_process _ Hfirst tasks [] s s')
    as (Hinv & Hdom); auto.
  { intros item t H. by apply elem_of_nil in H. }
  destruct Hfirst as [Hnd Hfirst]. split.
  - intros item t Hin Hl Hs.
    destruct (Hinv item t Hin Hl Hs) as (tm & p & Htm & Hp & Hch).
    destruct (list_elem_of_split _ _ Hin) as (before & after & Hsp).
    destruct (Hfirst before item after t Hsp Hl) as (Hid & Hrest).
    destruct (Hrest Hs) as (_ & Hchild).
    exists tm, p. rewrite Hid. split; [done|]. split; [done|].
    rewrite Hch. unfold kept_children. f_equal.
    apply filter_ext_in. intros c Hc. unfold still_listed. split.
    + intros Hsl. destruct (speculative c) eqn:Hsc; [|done]. exfalso. apply Hsl.
      split; [done|]. destruct (Hchild c Hc) as (_ & Hlink).
      destruct (Hlink Hsc) as (_ & propsc & Hafter & _).
      apply list_elem_of_fmap. exists (st_id c, propsc). split; [done|].
      rewrite Hsp. apply elem_of_app. right. by right.
    + intros Hsc [Hsc' _]. congruence.
  - intros k Hsome. destruct (Hdom k Hsome) as [?|(item & t & Hin & Hl & Hs & Hkey)]; [by left|].
    right. exists item, t. split_and!; try done.
    destruct (list_elem_of_split _ _ Hin) as (before & after & Hsp).
    destruct (Hfirst before item after t Hsp Hl) as (Hid & _). congruence.
Qed.

(** C1, as the code has it: a speculative child is pruned from the entry
    its parent has in [task_models] when the child is met, so the parent
    must have been written before.  [add_tasks_to_bpmn_process] prunes
    for a tasks dict that lists a task before its speculative children:
    every task it writes ends with exactly its children that are not
    speculative in its entry, and it writes no speculative task.  The
    descent of [process_spiff_task_children] writes a task before it
    meets the children of the task.  After the update of its entry task,
    which creates the process of the task when it is not there, every
    task the descent reaches ends with exactly its children that are not
    speculative in its entry, and the descent writes no speculative
    child, nor any task below one.  The children of a task are tasks of
    its workflow, and the session knows a task only with its process. *)
Theorem speculative_children_are_pruned
    (tasks : list (string * TaskProperties)) (spiff_workflow : BpmnWorkflow)
    (bpmn_process : BpmnProcessModel) (s_added s_added' : ServiceState)
    (spiff_task : SpiffTask) (times : option StartAndEndTimes)
    (s s1 s' : ServiceState) (task_model : TaskModel) :
  (buffers_keyed s_added →
   parents_listed_first spiff_workflow tasks →
   add_tasks_to_bpmn_process tasks spiff_workflow bpmn_process s_added
     = Ok (tt, s_added') →
   (∀ item u,
      item ∈ tasks → listed spiff_workflow item u → speculative u = false →
      pruned_entry s_added' u)
   ∧ (∀ k, is_Some (task_models s_added' !! k) →
           is_Some (task_models s_added !! k)
           ∨ ∃ item u,
               item ∈ tasks ∧ listed spiff_workflow item u
               ∧ speculative u = false ∧ st_id u = k))
  ∧ (buffers_keyed s →
     NoDup (map bp_id (bpmn_process_rows (db s))) →
     known_with_process s spiff_task →
     (∀ u, u ∈ visited spiff_task → st_workflow u = st_workflow spiff_task) →
     NoDup (map st_id (subtree spiff_task)) →
     speculative_children_linked spiff_task →
     update_task_model_with_spiff_task spiff_task times s = Ok (task_model, s1) →
     process_spiff_task_children spiff_task s1 = Ok (tt, s') →
     (∀ u, u ∈ visited spiff_task → pruned_entry s' u)
     ∧ (∀ u, u ∈ subtree spiff_task → u ∉ visited spiff_task →
             task_models s' !! st_id u = task_models s1 !! st_id u)
     ∧ (process_persisted s spiff_task →
        ∀ u, u ∈ subtree spiff_task → u ∉ visited spiff_task →
             task_models s' !! st_id u = task_models s !! st_id u)).
Proof.
  split.
  { intros Hk Hfirst Hrun. by eapply add_tasks_to_bpmn_process_prunes. }
  intros Hk Hnd Hknown Hwf Hguids Hlinked Hupd Hwalk.
  destruct (update_task_model_with_spiff_task_known _ _ _ _ _ (conj Hk Hnd) Hknown Hupd)
    as (s0 & Hsame & T1 & P1 & Hs1 & Hp1).
  destruct (descent_prunes_all spiff_task s1 s' Hs1) as (_ & _ & _ & V & U); auto.
  { intros u Hu. eapply process_persisted_same_workflow; [by apply Hwf|done]. }
  { exists task_model, (properties_of spiff_task). rewrite T1, lookup_insert_eq.
    split; [done|]. split; [done|]. apply tp_children_properties_of. }
  split; [done|]. split; [done|].
  intros Hp u Hu Hv. rewrite (U u Hu Hv), T1, (Hsame Hp).
  apply lookup_insert_ne. intros Heq. symmetry in Heq. revert Heq.
  by apply subtree_head_guid.
Qed.

(** ** Further properties of the methods *)

Lemma list_remove_absent x l : x ∉ l → list_remove x l = l.
Proof.
  induction l as [|y l IH]; simpl; [done|]. intros Hx.
  apply not_elem_of_cons in Hx as [Hxy Hx]. rewrite decide_False by done. f_equal. auto.
Qed.

Lemma list_remove_present x l : x ∈ l → S (length (list_remove x l)) = length l.
Proof.
  induction l as [|y l IH]; simpl; intros Hx; [by apply elem_of_nil in Hx|].
  case_decide as Hy; [done|]. simpl. f_equal. apply IH.
  apply elem_of_cons in Hx as [->|Hx]; done.
Qed.

Lemma list_remove_subset x y l : y ∈ list_remove x l → y ∈ l.
Proof.
  induction l as [|z l IH]; simpl; [done|]. case_decide.
  - intros Hy. by right.
  - intros Hy. apply elem_of_cons in Hy as [->|Hy]; [left|right; auto].
Qed.

Lemma list_remove_NoDup x l : NoDup l → (x ∉ list_remove x l) ∧ NoDup (list_remove x l).
Proof.
  induction l as [|y l IH]; simpl; intros Hnd.
  { split; [apply not_elem_of_nil|constructor]. }
  apply NoDup_cons in Hnd as [Hy Hnd]. case_decide as Hxy.
  - subst. done.
  - destruct (IH Hnd) as [H1 H2]. split.
    + apply not_elem_of_cons. split; [congruence|done].
    + apply NoDup_cons. split; [|done]. intros H. apply Hy. by eapply list_remove_subset.
Qed.

(** X1: [remove_spiff_task_from_parent] prunes nothing when the parent of
    the task has no entry in [task_models]: the dictionary is returned
    as it is, and no error is raised. *)
Theorem remove_spiff_task_from_parent_unbuffered (spiff_task : SpiffTask)
    (parent : string) (task_models : gmap string TaskModel) :
  st_parent spiff_task = Some parent →
  task_models !! parent = None →
  remove_spiff_task_from_parent spiff_task task_models = Ok task_models.
Proof.
  intros Hp Hentry. unfold remove_spiff_task_from_parent. by rewrite Hp, Hentry.
Qed.

(** X2: when the parent has an entry, [remove_spiff_task_from_parent]
    changes that entry only, and in it only the list of children, from
    which the first occurrence of the guid of the task goes: a list that
    held the guid gets one shorter, a list without repetitions no longer
    holds it, and the state, the hashes and the other properties of the
    parent stay. *)
Theorem remove_spiff_task_from_parent_entry (spiff_task : SpiffTask) (parent : string)
    (task_models task_models' : gmap string TaskModel) (task_model : TaskModel)
    (properties : TaskProperties) :
  st_parent spiff_task = Some parent →
  task_models !! parent = Some task_model →
  tm_properties_json task_model = Some properties →
  remove_spiff_task_from_parent spiff_task task_models = Ok task_models' →
  (∀ k, k ≠ parent → task_models' !! k = task_models !! k)
  ∧ ∃ task_model' properties',
      task_models' !! parent = Some task_model'
      ∧ tm_properties_json task_model' = Some properties'
      ∧ tp_children properties' = list_remove (st_id spiff_task) (tp_children properties)
      ∧ tp_parent properties' = tp_parent properties
      ∧ tp_state properties' = tp_state properties
      ∧ tp_task_spec properties' = tp_task_spec properties
      ∧ tm_guid task_model' = tm_guid task_model
      ∧ tm_state task_model' = tm_state task_model
      ∧ tm_json_data_hash task_model' = tm_json_data_hash task_model
      ∧ tm_python_env_data_hash task_model' = tm_python_env_data_hash task_model
      ∧ (st_id spiff_task ∈ tp_children properties →
         S (length (tp_children properties')) = length (tp_children properties))
      ∧ (NoDup (tp_children properties) → st_id spiff_task ∉ tp_children properties').
Proof.
  intros Hp Hentry Hprops H. unfold remove_spiff_task_from_parent in H.
  rewrite Hp, Hentry, Hprops in H. case_decide as Hin; injection H as <-.
  - split; [intros k Hk; by rewrite lookup_insert_ne|].
    eexists _, _. rewrite lookup_insert_eq. split; [done|]. simpl. split; [done|]. simpl.
    split_and!; try done.
    + intros _. by apply list_remove_present.
    + intros Hnd. by apply list_remove_NoDup.
  - split; [done|]. exists task_model, properties.
    rewrite list_remove_absent by done. split_and!; try done.
Qed.

(** X3: what the two update functions return agrees with what they
    store.  A dict is returned exactly when the stored hash was not the
    hash of the payload; it carries the payload under the hash that is
    stored from then on; and an update of one hash column of a task model
    leaves the other hash column alone. *)
Theorem update_task_data_returns_what_it_stores (task_model : TaskModel)
    (bpmn_process : BpmnProcessModel) (payload : json) (column : string) :
  let task_update :=
    update_task_data_on_task_model_and_return_dict_if_updated task_model payload column in
  let process_update := update_task_data_on_bpmn_process bpmn_process payload in
  getattr task_update.1 column = Some (hash_of payload)
  ∧ (task_update.2 = None ↔ getattr task_model column = Some (hash_of payload))
  ∧ (∀ d, task_update.2 = Some d → jd_hash d = hash_of payload ∧ jd_data d = payload)
  ∧ (column = "json_data_hash" →
     tm_python_env_data_hash task_update.1 = tm_python_env_data_hash task_model)
  ∧ (column = "python_env_data_hash" →
     tm_json_data_hash task_update.1 = tm_json_data_hash task_model)
  ∧ bp_json_data_hash process_update.1 = Some (hash_of payload)
  ∧ (process_update.2 = None ↔ bp_json_data_hash bpmn_process = Some (hash_of payload))
  ∧ (∀ d, process_update.2 = Some d → jd_hash d = hash_of payload ∧ jd_data d = payload).
Proof.
  cbv zeta. split; [apply update_task_data_stored_hash|].
  unfold update_task_data_on_task_model_and_return_dict_if_updated,
    update_task_data_on_bpmn_process.
  split_and!.
  - case_decide; simpl; split; done.
  - intros d. case_decide; simpl; [|done]. by intros [= <-].
  - intros ->. case_decide; simpl; [|done]. unfold setattr. by repeat case_decide.
  - intros ->. case_decide; simpl; [|done]. unfold setattr. by repeat case_decide.
  - case_decide as H; simpl; done.
  - case_decide; simpl; split; done.
  - intros d. case_decide; simpl; [|done]. by intros [= <-].
Qed.

(** X4: [reset_task_model] with both hashes given assigns them to the two
    hash columns, sets the state, clears both times and writes the number
    of the state into the properties, whose other entries stay; it raises
    [AttributeError] for a name that [TaskState] does not have. *)
Theorem reset_task_model_with_hashes (task_model : TaskModel) (state : string)
    (json_data_hash python_env_data_hash : string) :
  match reset_task_model task_model state (Some json_data_hash) (Some python_env_data_hash) with
  | Ok task_model' =>
      tm_json_data_hash task_model' = Some json_data_hash
      ∧ tm_python_env_data_hash task_model' = Some python_env_data_hash
      ∧ tm_state task_model' = Some state
      ∧ tm_start_in_seconds task_model' = None
      ∧ tm_end_in_seconds task_model' = None
      ∧ tm_guid task_model' = tm_guid task_model
      ∧ ∃ properties properties' n,
          tm_properties_json task_model = Some properties
          ∧ tm_properties_json task_model' = Some properties'
          ∧ TaskState env state = Some n
          ∧ tp_state properties' = n
          ∧ tp_children properties' = tp_children properties
          ∧ tp_parent properties' = tp_parent properties
          ∧ tp_task_spec properties' = tp_task_spec properties
  | Raise e =>
      (e = AttributeError ∧ TaskState env state = None)
      ∨ (e = TypeError ∧ is_Some (TaskState env state)
         ∧ tm_properties_json task_model = None)
  end.
Proof.
  unfold reset_task_model. destruct (TaskState env state) as [n|]; [|by left].
  simpl. destruct (tm_properties_json task_model) as [props|]; [|right; eauto].
  simpl. split_and!; try done. exists props, (tp_with_state n props), n. done.
Qed.

Lemma values_empty_iff {A} (m : gmap string A) : values m = [] ↔ m = ∅.
Proof.
  unfold values. split.
  - intros H. apply fmap_nil_inv in H. by apply map_to_list_empty_iff.
  - intros ->. by rewrite map_to_list_empty.
Qed.

(** X5: [insert_or_update_json_data_records] executes nothing for an
    empty mapping, and otherwise one insert that carries every dict of
    the mapping once: on mysql with an update on a duplicate key, else
    with the conflict ignored.  [insert_or_update_json_data_dict] is the
    insert of the one dict. *)
Theorem insert_or_update_json_data_records_one_insert
    (mapping : gmap string JsonDataDict) (json_data_dict : JsonDataDict) :
  (insert_or_update_json_data_records mapping = [] ↔ mapping = ∅)
  ∧ (mapping ≠ ∅ →
     insert_or_update_json_data_records mapping
     = [if decide (database_type env = "mysql")
        then insert_on_duplicate_key_update (values mapping)
        else insert_on_conflict_do_nothing (values mapping)]
     ∧ length (values mapping) = size mapping
     ∧ ∀ d, d ∈ values mapping ↔ ∃ h, mapping !! h = Some d)
  ∧ insert_or_update_json_data_dict json_data_dict
    = [if decide (database_type env = "mysql")
       then insert_on_duplicate_key_update [json_data_dict]
       else insert_on_conflict_do_nothing [json_data_dict]].
Proof.
  assert (∀ m : gmap string JsonDataDict, m ≠ ∅ →
            insert_or_update_json_data_records m
            = [if decide (database_type env = "mysql")
               then insert_on_duplicate_key_update (values m)
               else insert_on_conflict_do_nothing (values m)]) as Hone.
  { intros m Hm. unfold insert_or_update_json_data_records.
    destruct (values m) as [|d l] eqn:Hv; [by apply values_empty_iff in Hv|].
    rewrite decide_True by (simpl; lia). by case_decide. }
  split_and!.
  - split.
    + intros H. destruct (decide (mapping = ∅)) as [|Hm]; [done|].
      rewrite (Hone _ Hm) in H. discriminate.
    + intros ->. done.
  - intros Hm. split; [by apply Hone|]. split.
    + unfold values. by rewrite length_fmap, length_map_to_list.
    + intros d. unfold values. rewrite list_elem_of_fmap. split.
      * intros ([h d'] & -> & Hin). exists h. by apply elem_of_map_to_list.
      * intros (h & Hh). exists (h, d). split; [done|]. by apply elem_of_map_to_list.
  - unfold insert_or_update_json_data_dict. rewrite Hone.
    + unfold values. by rewrite map_to_list_singleton.
    + apply insert_non_empty.
Qed.

Lemma bpmn_process_and_descendants_extends fuel db l res :
  bpmn_process_and_descendants fuel db l = Some res → ∃ descendants, res = l ++ descendants.
Proof.
  destruct fuel as [|fuel]; [discriminate|].
  rewrite bpmn_process_and_descendants_unfold. cbv zeta. case_decide.
  - destruct (bpmn_process_and_descendants fuel db _) as [ds|]; [|discriminate].
    intros [= <-]. eauto.
  - intros [= <-]. exists []. by rewrite app_nil_r.
Qed.

(** The result is closed under the step from a process to its direct
    children. *)
Lemma bpmn_process_and_descendants_closed fuel db :
  ∀ l res,
    bpmn_process_and_descendants fuel db l = Some res →
    ∀ r p, r ∈ bpmn_process_rows db → bp_direct_parent_process_id r = Some p →
           Some p ∈ map bp_id res → r ∈ res.
Proof.
  induction fuel as [|fuel IH]; intros l res Hrun r p Hrow Hpar Hp; [discriminate|].
  rewrite bpmn_process_and_descendants_unfold in Hrun. cbv zeta in Hrun.
  set (children := filter (λ r, direct_parent_in (map bp_id l) r = true)
                     (bpmn_process_rows db)) in *.
  assert (Some p ∈ map bp_id l → r ∈ children) as Hchild.
  { intros Hin. apply list_elem_of_filter. split; [|done].
    apply direct_parent_in_true. eauto. }
  case_decide as Hlen.
  - destruct (bpmn_process_and_descendants fuel db children) as [ds|] eqn:Hrec; [|discriminate].
    injection Hrun as <-. apply elem_of_app. right.
    rewrite map_app in Hp. apply elem_of_app in Hp as [Hp|Hp].
    + destruct (bpmn_process_and_descendants_extends _ _ _ _ Hrec) as (ds' & ->).
      apply elem_of_app. left. auto.
    + eapply IH; eauto.
  - injection Hrun as <-. specialize (Hchild Hp).
    destruct children; [by apply elem_of_nil in Hchild|simpl in Hlen; lia].
Qed.

Lemma bpmn_process_and_descendants_returns db rank l :
  nesting_well_founded db rank →
  ∃ fuel descendants,
    bpmn_process_and_descendants fuel db l = Some (l ++ descendants)
    ∧ Forall (descends_from db l) descendants.
Proof.
  intros Hwf.
  set (bound := S (foldr (λ r acc, Nat.max (rank r) acc) 0%nat (bpmn_process_rows db))).
  assert (∀ r, r ∈ bpmn_process_rows db → (rank r < bound)%nat) as Hbound.
  { unfold bound. generalize (bpmn_process_rows db) as rows.
    induction rows as [|x rows IH]; intros r Hr; [by apply elem_of_nil in Hr|].
    simpl. apply elem_of_cons in Hr as [->|Hr]; [lia|]. specialize (IH r Hr). lia. }
  set (children := filter (λ r, direct_parent_in (map bp_id l) r = true)
                     (bpmn_process_rows db)).
  assert (Forall (descends_from db l) children) as Hch.
  { apply Forall_forall. intros c Hc. apply list_elem_of_filter in Hc as [Hc1 Hc2].
    apply direct_parent_in_true in Hc1 as (p & Hp & Hin). eapply descends_child; eauto. }
  destruct (decide (0 < length children)%nat) as [Hlen|Hlen].
  - destruct (bpmn_process_and_descendants_of_rows db rank bound Hwf Hbound bound children)
      as (ds & Hrun & Hds).
    { apply Forall_forall. intros c Hc. apply list_elem_of_filter in Hc as [_ Hc].
      split; [done|lia]. }
    exists (S (S bound)), (children ++ ds).
    rewrite bpmn_process_and_descendants_unfold. cbv zeta. fold children.
    rewrite decide_True by done. rewrite Hrun. split; [done|].
    apply Forall_app. split; [done|].
    eapply Forall_impl; [exact Hds|]. intros r. by apply descends_from_children.
  - exists 1%nat, []. rewrite bpmn_process_and_descendants_unfold. cbv zeta. fold children.
    rewrite decide_False by done. rewrite app_nil_r. split; [done|constructor].
Qed.

(** X6: [bpmn_process_and_descendants] misses no descendant: in a
    database whose nesting has no cycle it returns, and a row is in what
    it returns exactly when it is one of the given processes or descends
    from one of them. *)
Theorem bpmn_process_and_descendants_complete (db : Database)
    (rank : BpmnProcessModel → nat) (bpmn_processes : list BpmnProcessModel) :
  nesting_well_founded db rank →
  ∃ fuel result,
    bpmn_process_and_descendants fuel db bpmn_processes = Some result
    ∧ ∀ r, r ∈ result ↔ r ∈ bpmn_processes ∨ descends_from db bpmn_processes r.
Proof.
  intros Hwf.
  destruct (bpmn_process_and_descendants_returns db rank bpmn_processes Hwf)
    as (fuel & ds & Hrun & Hds).
  exists fuel, (bpmn_processes ++ ds). split; [done|]. intros r. split.
  - intros Hr. apply elem_of_app in Hr as [Hr|Hr]; [by left|right].
    rewrite Forall_forall in Hds. auto.
  - intros [Hr|Hr]; [apply elem_of_app; by left|].
    induction Hr as [r p Hin Hpar Hp|r q p Hin Hpar Hq Hd IH].
    + eapply bpmn_process_and_descendants_closed; eauto.
      rewrite map_app. apply elem_of_app. by left.
    + eapply bpmn_process_and_descendants_closed; eauto.
      rewrite <- Hq. apply list_elem_of_fmap. eauto.
Qed.

(** X7: a nested process whose guid names no task.  The plain ascent of
    [task_models_of_parent_bpmn_processes] stops there and returns the
    process alone, with [None] as its boundary task; the ascent that
    stops at a call activity raises [AttributeError], as it reads the
    task definition of the missing task. *)
Theorem task_models_of_parent_bpmn_processes_without_boundary_task (fuel : nat)
    (db : Database) (task_model : TaskModel) (bpmn_process : BpmnProcessModel)
    (guid : string) :
  bpmn_process_of db task_model = Some bpmn_process →
  bp_guid bpmn_process = Some guid →
  task_by_guid (task_rows db) guid = None →
  task_models_of_parent_bpmn_processes (S fuel) db task_model false
    = Some (Ok ([bpmn_process], [None]))
  ∧ task_models_of_parent_bpmn_processes (S fuel) db task_model true
    = Some (Raise AttributeError)
  ∧ bpmn_process_for_called_activity_or_top_level_process (S fuel) db task_model
    = Some (Raise AttributeError).
Proof.
  intros Hb Hguid Htask.
  unfold bpmn_process_for_called_activity_or_top_level_process.
  rewrite !task_models_of_parent_bpmn_processes_unfold, Hb, Hguid. cbv zeta.
  by rewrite Htask.
Qed.

Lemma ascent_stops_at_call_activity db :
  ∀ fuel task_model bpmn_processes task_models b0,
    task_models_of_parent_bpmn_processes fuel db task_model true
      = Some (Ok (bpmn_processes, task_models)) →
    bpmn_process_of db task_model = Some b0 →
    ∃ b, head bpmn_processes = Some b
         ∧ called_from db b0 b
         ∧ (bp_guid b = None
            ∨ ∃ guid caller,
                bp_guid b = Some guid
                ∧ task_by_guid (task_rows db) guid = Some caller
                ∧ is_call_activity db caller).
Proof.
  induction fuel as [|fuel IH]; intros task_model bs ts b0 Hrun Hb0; [discriminate|].
  rewrite task_models_of_parent_bpmn_processes_unfold, Hb0 in Hrun.
  destruct (bp_guid b0) as [guid|] eqn:Hguid.
  2:{ injection Hrun as <- <-. exists b0. split; [done|]. split; [constructor|by left]. }
  cbv zeta in Hrun. simpl in Hrun.
  destruct (task_by_guid (task_rows db) guid) as [parent|] eqn:Hparent; [|discriminate].
  destruct (task_definition_of db parent) as [td|] eqn:Htd; [|discriminate].
  case_decide as Hca.
  - destruct (task_models_of_parent_bpmn_processes fuel db parent true)
      as [[[bsr tsr]|e]|] eqn:Hrec; try discriminate.
    injection Hrun as <- <-.
    destruct (bpmn_process_of db parent) as [outer|] eqn:Houter.
    2:{ destruct fuel as [|fuel]; [discriminate|].
        rewrite task_models_of_parent_bpmn_processes_unfold, Houter in Hrec. discriminate. }
    destruct (IH parent bsr tsr outer Hrec Houter) as (b & Hhead & Hwalk & Hend).
    exists b. split; [by destruct bsr|]. split; [|done].
    eapply called_further; eauto. intros (td' & Htd' & Hty). congruence.
  - injection Hrun as <- <-. exists b0. split; [done|]. split; [constructor|].
    right. exists guid, parent. split; [done|]. split; [done|].
    exists td. split; [done|]. by destruct (decide (td_typename td = "CallActivity")).
Qed.

(** X8: [bpmn_process_for_called_activity_or_top_level_process] returns,
    in a database whose references resolve and whose nesting has no
    cycle, the first process met on the way outwards from the process of
    the task that is a top level process, which has no guid, or whose
    guid names a task that is a call activity; the tasks passed on the
    way are no call activities. *)
Theorem bpmn_process_for_called_activity_or_top_level_process_returns (db : Database)
    (rank : BpmnProcessModel → nat) (task_model : TaskModel) (b0 : BpmnProcessModel) :
  nesting_well_founded db rank →
  references_resolve db →
  bpmn_process_of db task_model = Some b0 →
  ∃ fuel bpmn_process,
    bpmn_process_for_called_activity_or_top_level_process fuel db task_model
      = Some (Ok bpmn_process)
    ∧ called_from db b0 bpmn_process
    ∧ (bp_guid bpmn_process = None
       ∨ ∃ guid caller,
           bp_guid bpmn_process = Some guid
           ∧ task_by_guid (task_rows db) guid = Some caller
           ∧ is_call_activity db caller).
Proof.
  intros Hwf Href Hb.
  destruct (ascent_of_ranked_process db rank true Hwf Href (S (rank b0)) task_model b0 Hb)
    as (bs & ts & Hrun & _); [lia|].
  destruct (ascent_stops_at_call_activity db _ _ _ _ _ Hrun Hb) as (b & Hhead & Hwalk & Hend).
  exists (S (rank b0)), b. unfold bpmn_process_for_called_activity_or_top_level_process.
  rewrite Hrun. destruct bs as [|b1 bs]; [discriminate|]. injection Hhead as ->. done.
Qed.

Lemma _get_outermost_workflow_top wf :
  wf_outer wf = None → _get_outermost_workflow wf = wf.
Proof. destruct wf as [ref spec data last ok outer]. simpl. by intros ->. Qed.

Lemma wf_eqb_refl wf : wf_eqb wf wf = true.
Proof. apply Nat.eqb_refl. Qed.

Lemma _task_subprocess_top_level spiff_task :
  wf_outer (st_workflow spiff_task) = None → _task_subprocess spiff_task = (None, None).
Proof.
  intros Htop. unfold _task_subprocess.
  by rewrite (_get_outermost_workflow_top _ Htop), wf_eqb_refl.
Qed.

(** X9: [_task_subprocess] returns a guid and a workflow together or
    neither.  The pair it returns is an entry of the subprocesses of the
    outermost workflow whose workflow is the workflow of the task, which
    is then not the outermost one; it returns neither for a task of the
    outermost workflow, and for a workflow that is no subprocess of the
    outermost one. *)
Theorem _task_subprocess_finds_workflow (spiff_task : SpiffTask) :
  let my_wf := st_workflow spiff_task in
  let top_level_workflow := _get_outermost_workflow my_wf in
  match _task_subprocess spiff_task with
  | (Some guid, Some sp) =>
      wf_eqb my_wf top_level_workflow = false
      ∧ (guid, sp) ∈ subprocesses env top_level_workflow
      ∧ wf_eqb sp my_wf = true
  | (None, None) =>
      wf_eqb my_wf top_level_workflow = true
      ∨ ∀ guid sp, (guid, sp) ∈ subprocesses env top_level_workflow →
                   wf_eqb sp my_wf = false
  | _ => False
  end.
Proof.
  cbv zeta. unfold _task_subprocess.
  destruct (wf_eqb (st_workflow spiff_task) _) eqn:Htop; simpl; [by left|].
  destruct (find _ _) as [[guid sp]|] eqn:Hfind.
  - apply find_some in Hfind as [Hin Hsp]. split; [done|]. split; [|done].
    by apply list_elem_of_In.
  - right. intros guid sp Hin. apply list_elem_of_In in Hin.
    exact (find_none _ _ Hfind (guid, sp) Hin).
Qed.

(** X10: for a task of the outermost workflow there is no parent
    subprocess to go up to: [process_spiff_task_parent_subprocess_tasks]
    leaves the state as it is, and the pass is the descent into the
    children followed by the flush. *)
Theorem pass_of_top_level_task (fuel : nat) (spiff_task : SpiffTask) (s : ServiceState) :
  wf_outer (st_workflow spiff_task) = None →
  process_spiff_task_parent_subprocess_tasks (S fuel) spiff_task s = Some (Ok (tt, s))
  ∧ process_parents_and_children_and_save_to_database (S fuel) spiff_task s
    = match process_spiff_task_children spiff_task s with
      | Ok (_, s1) => Some (Ok (save_objects_to_database s1, s1))
      | Raise e => Some (Raise e)
      end.
Proof.
  intros Htop.
  assert (∀ s0, process_spiff_task_parent_subprocess_tasks (S fuel) spiff_task s0
                = Some (Ok (tt, s0))) as Hup.
  { intros s0. cbn [process_spiff_task_parent_subprocess_tasks].
    by rewrite (_task_subprocess_top_level _ Htop). }
  split; [apply Hup|].
  unfold process_parents_and_children_and_save_to_database.
  destruct (process_spiff_task_children spiff_task s) as [[[] s1]|e]; [|done].
  by rewrite Hup.
Qed.

(** X11: [update_task_model] does not touch the start and end times of
    the task model, nor its guid and process; of the state of the
    service it changes [json_data_dicts] only.  For a state number that
    [TaskStateNames] does not have it raises [KeyError]. *)
Theorem update_task_model_keeps_times (task_model : TaskModel) (spiff_task : SpiffTask)
    (s : ServiceState) :
  (TaskStateNames env (st_state spiff_task) = None →
   update_task_model task_model spiff_task s = Raise KeyError)
  ∧ ∀ task_model' s',
      update_task_model task_model spiff_task s = Ok (task_model', s') →
      tm_start_in_seconds task_model' = tm_start_in_seconds task_model
      ∧ tm_end_in_seconds task_model' = tm_end_in_seconds task_model
      ∧ tm_guid task_model' = tm_guid task_model
      ∧ tm_bpmn_process_id task_model' = tm_bpmn_process_id task_model
      ∧ only_json_data_buffered s s'.
Proof.
  split.
  - intros Hname. rewrite update_task_model_unfold. unfold bind.
    assert (tp_state (properties_of spiff_task) = st_state spiff_task) as ->.
    { unfold properties_of. by case_decide. }
    by rewrite Hname.
  - intros task_model' s' Hrun.
    apply update_task_model_Ok in Hrun as (? & ? & ? & ? & ? & ? & ? & ?). done.
Qed.

Lemma update_task_data_fixed task_model payload column :
  getattr task_model column = Some (hash_of payload) →
  update_task_data_on_task_model_and_return_dict_if_updated task_model payload column
  = (task_model, None).
Proof.
  intros H. unfold update_task_data_on_task_model_and_return_dict_if_updated.
  by rewrite decide_False by (by intros Hne).
Qed.

Lemma update_python_env_data_hash_keeps_json_data_hash task_model payload :
  tm_json_data_hash
    (update_task_data_on_task_model_and_return_dict_if_updated
       task_model payload "python_env_data_hash").1
  = tm_json_data_hash task_model.
Proof.
  unfold update_task_data_on_task_model_and_return_dict_if_updated, setattr.
  by repeat case_decide.
Qed.

Lemma tm_with_state_and_properties_same task_model name properties :
  tm_state task_model = Some name →
  tm_properties_json task_model = Some properties →
  tm_with_state (Some name) (tm_with_properties_json (Some properties) task_model)
  = task_model.
Proof. destruct task_model. simpl. by intros -> ->. Qed.

(** X12: [update_task_model] is idempotent: run again on the task model
    and the state it has left, for the same task, it returns the same
    task model and leaves the state as it is, so no payload is buffered
    a second time. *)
Theorem update_task_model_is_idempotent (task_model task_model' : TaskModel)
    (spiff_task : SpiffTask) (s s' : ServiceState) :
  update_task_model task_model spiff_task s = Ok (task_model', s') →
  update_task_model task_model' spiff_task s' = Ok (task_model', s').
Proof.
  intros Hrun.
  pose proof (update_task_model_Ok _ _ _ _ _ Hrun) as (_ & _ & Hprops & _).
  rewrite update_task_model_unfold in Hrun. rewrite update_task_model_unfold.
  apply bind_Ok in Hrun as (name & s1 & Hname & Hrun).
  apply deref_Ok in Hname as [Hname ->]. cbv zeta in Hrun.
  apply bind_Ok in Hrun as (u1 & s2 & _ & Hrun).
  apply bind_Ok in Hrun as (u2 & s3 & _ & Hrun).
  apply ret_Ok in Hrun as [Htm ->].
  assert (tm_state task_model' = Some name) as Hstate.
  { rewrite Htm.
    match goal with |- tm_state (?u.1) = _ =>
      match u with
      | update_task_data_on_task_model_and_return_dict_if_updated ?a ?b ?c =>
          pose proof (update_task_data_columns a b c) as (_ & -> & _)
      end
    end.
    match goal with |- tm_state (?u.1) = _ =>
      match u with
      | update_task_data_on_task_model_and_return_dict_if_updated ?a ?b ?c =>
          pose proof (update_task_data_columns a b c) as (_ & -> & _)
      end
    end.
    done. }
  assert (getattr task_model' "json_data_hash" = Some (hash_of (st_data spiff_task)))
    as Hjson.
  { rewrite Htm. unfold getattr at 1. rewrite decide_True by done.
    rewrite update_python_env_data_hash_keeps_json_data_hash.
    apply (update_task_data_stored_hash _ _ "json_data_hash"). }
  assert (getattr task_model' "python_env_data_hash"
          = Some (hash_of (user_defined_state env (st_workflow spiff_task)))) as Hpython.
  { rewrite Htm. apply update_task_data_stored_hash. }
  apply bind_Ok. exists name, s3. split; [by apply deref_Ok|]. cbv zeta.
  rewrite (tm_with_state_and_properties_same _ _ _ Hstate Hprops).
  rewrite (update_task_data_fixed _ _ _ Hjson). cbn [fst snd].
  rewrite (update_task_data_fixed _ _ _ Hpython). done.
Qed.

Global Instance keeps_task_models_preorder : PreOrder keeps_task_models.
Proof.
  split.
  - intros s. unfold keeps_task_models. tauto.
  - intros s1 s2 s3. unfold keeps_task_models. intuition congruence.
Qed.

Lemma buffer_json_data_keeps_task_models d : steps_by keeps_task_models (buffer_json_data d).
Proof.
  intros s u s' H. apply buffer_json_data_Ok in H as (_ & _ & _ & Ht & He & Hc & _). done.
Qed.

Lemma update_bpmn_process_keeps_task_models spiff_workflow :
  ∀ bpmn_process,
    steps_by keeps_task_models (update_bpmn_process spiff_workflow bpmn_process).
Proof.
  induction spiff_workflow as [ref spec data last ok|ref spec data last ok outer IH]
    using BpmnWorkflow_outer_ind; intros bpmn_process; simpl; steps.
  - destruct (update_task_data_on_bpmn_process _ _) as [b' d]. steps.
    + apply buffer_json_data_keeps_task_models.
    + apply steps_by_modify; try apply _; intros s. done.
  - destruct (update_task_data_on_bpmn_process _ _) as [b' d]. steps.
    + apply buffer_json_data_keeps_task_models.
    + apply steps_by_modify; try apply _; intros s. done.
    + apply IH.
Qed.

Lemma find_or_create_task_model_from_spiff_task_guid spiff_task s found task_model s' :
  buffers_keyed s →
  find_or_create_task_model_from_spiff_task spiff_task s = Ok ((found, task_model), s') →
  tm_guid task_model = st_id spiff_task.
Proof.
  intros Hk H. unfold find_or_create_task_model_from_spiff_task in H.
  apply bind_Ok in H as (s0 & ? & H0 & H). apply get_state_Ok in H0 as [-> ->].
  destruct (session_task_by_guid s (st_id spiff_task)) as [tm|] eqn:Hq.
  { apply ret_Ok in H as [[= -> ->] ->]. by eapply session_task_by_guid_Some. }
  apply bind_Ok in H as (b & s1 & Hb & H).
  apply task_bpmn_process_quiet in Hb as (_ & _ & _ & Hk1). specialize (Hk1 Hk).
  apply bind_Ok in H as (s0 & ? & H0 & H). apply get_state_Ok in H0 as [-> ->].
  destruct (session_task_by_guid s1 (st_id spiff_task)) as [tm1|] eqn:Hq1.
  { apply ret_Ok in H as [[= -> ->] ->]. by eapply session_task_by_guid_Some. }
  apply bind_Ok in H as (td & ? & H0 & H). apply deref_Ok in H0 as [_ ->].
  apply bind_Ok in H as (created & ? & H0 & H). apply deref_Ok in H0 as [_ ->].
  apply ret_Ok in H as [[= -> ->] ->]. done.
Qed.

(** X13: the task model [update_task_model_with_spiff_task] returns is
    the entry of [task_models] under the guid of the task when the call
    has returned.  Given start and end times are written to it; without
    them, a task model that was in [task_models] before keeps its
    times. *)
Theorem update_task_model_with_spiff_task_applies_times (spiff_task : SpiffTask)
    (times : option StartAndEndTimes) (s s' : ServiceState) (task_model : TaskModel) :
  buffers_keyed s →
  update_task_model_with_spiff_task spiff_task times s = Ok (task_model, s') →
  tm_guid task_model = st_id spiff_task
  ∧ task_models s' !! st_id spiff_task = Some task_model
  ∧ match times with
    | Some given =>
        tm_start_in_seconds task_model = start_in_seconds given
        ∧ tm_end_in_seconds task_model = end_in_seconds given
    | None =>
        ∀ before, task_models s !! st_id spiff_task = Some before →
                  tm_start_in_seconds task_model = tm_start_in_seconds before
                  ∧ tm_end_in_seconds task_model = tm_end_in_seconds before
    end.
Proof.
  intros Hk Hrun.
  apply update_task_model_with_spiff_task_run in Hrun
    as (nbp & tm0 & s1 & tm1 & s2 & bp & s3 & s5 & Hfound & Hupd & Hbp & Htm & Hbuf & Hev & Hubp).
  assert (tm_guid tm0 = st_id spiff_task) as Hguid.
  { destruct (task_models s !! st_id spiff_task) as [found|] eqn:Hb.
    - destruct Hfound as (_ & -> & _). destruct Hk as (Hk & _). by apply Hk.
    - by eapply find_or_create_task_model_from_spiff_task_guid. }
  apply update_task_model_Ok in Hupd as (G1 & _ & _ & _ & _ & T1 & E1 & _).
  assert (tm_guid task_model = st_id spiff_task) as Hg.
  { rewrite Htm. destruct times; simpl; congruence. }
  apply record_completion_Ok in Hev as (_ & Ht5 & _).
  apply update_bpmn_process_keeps_task_models in Hubp as (Ht' & _).
  split; [done|]. split.
  - rewrite Ht', Ht5. simpl. rewrite Hg. apply lookup_insert_eq.
  - destruct times as [given|].
    + rewrite Htm. done.
    + intros before Hb. rewrite Hb in Hfound. destruct Hfound as (_ & -> & _).
      subst task_model. split; congruence.
Qed.

Lemma completion_timestamp_never_raises e task_model :
  never_raises e (completion_timestamp task_model).
Proof.
  unfold completion_timestamp. repeat case_match; try apply never_raises_ret.
  apply never_raises_bind; [apply never_raises_get_state|]. intros s0.
  apply never_raises_bind; [apply never_raises_modify|]. intros u. apply never_raises_ret.
Qed.

Lemma record_completion_never_raises e task_model :
  never_raises e (record_completion task_model).
Proof.
  unfold record_completion. case_decide; [|apply never_raises_ret].
  apply never_raises_bind; [apply completion_timestamp_never_raises|]. intros ts.
  apply never_raises_bind; [apply never_raises_get_state|]. intros s0.
  apply never_raises_modify.
Qed.

Lemma update_bpmn_process_never_BpmnProcessNotFoundError spiff_workflow :
  ∀ bpmn_process,
    never_raises BpmnProcessNotFoundError (update_bpmn_process spiff_workflow bpmn_process).
Proof.
  induction spiff_workflow as [ref spec data last ok|ref spec data last ok outer IH]
    using BpmnWorkflow_outer_ind; intros bpmn_process; simpl.
  all: apply never_raises_bind; [by apply never_raises_deref|]; intros props.
  all: destruct (update_task_data_on_bpmn_process _ _) as [b' d].
  all: apply never_raises_bind; [apply buffer_json_data_never_raises|]; intros u.
  all: apply never_raises_bind; [apply never_raises_modify|]; intros u2.
  - apply never_raises_ret.
  - apply never_raises_bind; [apply never_raises_get_state|]. intros s0.
    apply never_raises_bind; [by apply never_raises_deref|]. intros parent. apply IH.
Qed.

Lemma add_bpmn_process_top_level_never_BpmnProcessNotFoundError dict spiff_workflow guid :
  never_raises BpmnProcessNotFoundError (add_bpmn_process dict spiff_workflow None guid).
Proof.
  unfold add_bpmn_process.
  apply never_raises_bind; [apply never_raises_get_state|]. intros s0. cbv zeta.
  apply never_raises_bind.
  { match goal with |- never_raises _ (match ?x with _ => _ end) => destruct x end;
      [apply never_raises_ret|].
    apply never_raises_bind; [by apply never_raises_deref|]. intros d.
    apply never_raises_ret. }
  intros [is_new b0]. destruct (update_task_data_on_bpmn_process _ _) as [b1 jd].
  apply never_raises_bind; [apply buffer_json_data_never_raises|]. intros u.
  apply never_raises_bind; [apply session_add_never_raises|]. intros b2.
  apply never_raises_bind; [apply never_raises_modify|]. intros u2.
  apply never_raises_bind; [|intros; apply never_raises_ret].
  destruct is_new; [|apply never_raises_ret].
  apply add_tasks_to_bpmn_process_never_BpmnProcessNotFoundError.
Qed.

(** X14: [BpmnProcessNotFoundError] comes from nested workflows only:
    [add_bpmn_process] without a top level process never raises it, and
    neither does [update_task_model_with_spiff_task] for a task of the
    outermost workflow. *)
Theorem top_level_task_never_raises_BpmnProcessNotFoundError (spiff_task : SpiffTask)
    (times : option StartAndEndTimes) :
  wf_outer (st_workflow spiff_task) = None →
  never_raises BpmnProcessNotFoundError (update_task_model_with_spiff_task spiff_task times)
  ∧ ∀ bpmn_process_dict spiff_workflow bpmn_process_guid,
      never_raises BpmnProcessNotFoundError
        (add_bpmn_process bpmn_process_dict spiff_workflow None bpmn_process_guid).
Proof.
  intros Htop. split; [|intros; apply add_bpmn_process_top_level_never_BpmnProcessNotFoundError].
  unfold update_task_model_with_spiff_task.
  apply never_raises_bind; [apply never_raises_get_state|]. intros s0.
  apply never_raises_bind.
  { destruct (task_models s0 !! st_id spiff_task); [apply never_raises_ret|].
    unfold find_or_create_task_model_from_spiff_task.
    apply never_raises_bind; [apply never_raises_get_state|]. intros s1.
    destruct (session_task_by_guid s1 _); [apply never_raises_ret|].
    apply never_raises_bind.
    { unfold task_bpmn_process. rewrite (_task_subprocess_top_level _ Htop).
      apply never_raises_bind; [apply never_raises_get_state|]. intros s2.
      destruct (pi_bpmn_process_id _); [apply never_raises_ret|].
      apply never_raises_bind; [|intros; apply never_raises_ret].
      apply add_bpmn_process_top_level_never_BpmnProcessNotFoundError. }
    intros b. apply never_raises_bind; [apply never_raises_get_state|]. intros s2.
    destruct (session_task_by_guid s2 _); [apply never_raises_ret|].
    apply never_raises_bind; [by apply never_raises_deref|]. intros td.
    apply never_raises_bind; [by apply never_raises_deref|]. intros created.
    apply never_raises_ret. }
  intros [nbp tm0].
  apply never_raises_bind; [apply never_raises_get_state|]. intros s1. cbv zeta.
  apply never_raises_bind; [apply update_task_model_never_BpmnProcessNotFoundError|].
  intros tm1. apply never_raises_bind; [by apply never_raises_deref|]. intros bp.
  destruct (update_task_data_on_bpmn_process _ _) as [bp' jd].
  apply never_raises_bind; [apply buffer_json_data_never_raises|]. intros u.
  apply never_raises_bind; [apply never_raises_modify|]. intros u2.
  apply never_raises_bind; [apply record_completion_never_raises|]. intros u3.
  apply never_raises_bind; [|intros; apply never_raises_ret].
  apply update_bpmn_process_never_BpmnProcessNotFoundError.
Qed.

Lemma root_of_start_task_last tasks bpmn_process_dict :
  let d := root_of_start_task tasks bpmn_process_dict in
  pp_last_task d = pp_last_task bpmn_process_dict
  ∧ pp_success d = pp_success bpmn_process_dict
  ∧ pp_others d = pp_others bpmn_process_dict
  ∧ pp_root d = match last_start_task tasks with
                | Some item => Some item.1
                | None => pp_root bpmn_process_dict
                end.
Proof.
  cbv zeta. unfold root_of_start_task, last_start_task.
  induction tasks as [|item tasks IH] using rev_ind; [done|].
  rewrite fold_left_app, filter_app. simpl. rewrite filter_cons, filter_nil.
  destruct IH as (IH1 & IH2 & IH3 & IH4).
  case_decide; simpl.
  - rewrite last_snoc. done.
  - rewrite app_nil_r. done.
Qed.

(** X15: the process [add_bpmn_process] returns, new or found, has the
    hash of the data of the workflow dict, and the properties of the
    dict with the root pointing to the last task of spec ["Start"];
    without such a task the root of the dict stays. *)
Theorem add_bpmn_process_properties (bpmn_process_dict : WorkflowDict)
    (spiff_workflow : BpmnWorkflow) (top_level_process : option BpmnProcessModel)
    (bpmn_process_guid : option string) (s s' : ServiceState)
    (bpmn_process : BpmnProcessModel) :
  add_bpmn_process bpmn_process_dict spiff_workflow top_level_process bpmn_process_guid s
    = Ok (bpmn_process, s') →
  bp_json_data_hash bpmn_process = Some (hash_of (wd_data bpmn_process_dict))
  ∧ ∃ properties,
      bp_properties_json bpmn_process = Some properties
      ∧ pp_last_task properties = pp_last_task (wd_properties bpmn_process_dict)
      ∧ pp_success properties = pp_success (wd_properties bpmn_process_dict)
      ∧ pp_others properties = pp_others (wd_properties bpmn_process_dict)
      ∧ pp_root properties =
          match last_start_task (wd_tasks bpmn_process_dict) with
          | Some item => Some item.1
          | None => pp_root (wd_properties bpmn_process_dict)
          end.
Proof.
  intros H. unfold add_bpmn_process in H.
  apply bind_Ok in H as (s0 & ? & H0 & H). apply get_state_Ok in H0 as [-> ->].
  cbv zeta in H.
  apply bind_Ok in H as ([is_new b0] & s1 & _ & H).
  destruct (update_task_data_on_bpmn_process _ _) as [b1 jd] eqn:Hjd.
  apply bind_Ok in H as ([] & s2 & _ & H).
  apply bind_Ok in H as (b2 & s3 & Hadd & H).
  apply bind_Ok in H as ([] & s4 & _ & H).
  apply bind_Ok in H as ([] & s5 & _ & H).
  apply ret_Ok in H as [-> ->].
  apply session_add_Ok in Hadd as (_ & _ & _ & Hprops & Hhash).
  assert (bp_json_data_hash b1 = Some (hash_of (wd_data bpmn_process_dict))
          ∧ bp_properties_json b1
            = Some (root_of_start_task (wd_tasks bpmn_process_dict)
                      (wd_properties bpmn_process_dict))) as [Hh Hp].
  { unfold update_task_data_on_bpmn_process in Hjd.
    case_decide as Hne; injection Hjd as <- <-; simpl; [done|].
    split; [|done]. simpl in Hne. by destruct (decide (bp_json_data_hash b0 = Some (hash_of (wd_data bpmn_process_dict)))). }
  split.
  { rewrite Hhash, <- Hh. by repeat case_match. }
  exists (root_of_start_task (wd_tasks bpmn_process_dict) (wd_properties bpmn_process_dict)).
  split; [rewrite Hprops, <- Hp; by repeat case_match|].
  apply root_of_start_task_last.
Qed.

Lemma for_each_filter {A} (P : A → Prop) `{!∀ x, Decision (P x)}
    (body : A → M unit) (l : list A) (s : ServiceState) :
  (∀ x s0, ¬ P x → body x s0 = ret tt s0) →
  for_each body l s = for_each body (filter P l) s.
Proof.
  intros Hskip. revert s. induction l as [|x l IH]; intros s; [done|].
  rewrite filter_cons. case_decide as HP; simpl; unfold bind.
  - destruct (body x s) as [[u s1]|e]; [apply IH|done].
  - rewrite (Hskip x s HP). simpl. apply IH.
Qed.

(** X16: [add_tasks_to_bpmn_process] passes over the tasks of spec
    ["Root"]: it does to the state what it does for the tasks dict
    without them. *)
Theorem add_tasks_to_bpmn_process_skips_Root (tasks : list (string * TaskProperties))
    (spiff_workflow : BpmnWorkflow) (bpmn_process : BpmnProcessModel) (s : ServiceState) :
  add_tasks_to_bpmn_process tasks spiff_workflow bpmn_process s
  = add_tasks_to_bpmn_process
      (filter (λ item, tp_task_spec item.2 ≠ "Root") tasks) spiff_workflow bpmn_process s.
Proof.
  unfold add_tasks_to_bpmn_process. apply for_each_filter.
  intros [task_id task_properties] s0 HP. simpl in HP.
  rewrite decide_True; [done|]. by destruct (decide (tp_task_spec task_properties = "Root")).
Qed.

(** X17: [update_bpmn_process] for the outermost workflow.  When it
    returns, it has stored the process in [bpmn_processes] under its
    guid or ["top_level"], with the last task and the success flag of
    the workflow in its properties and the hash of the workflow data; it
    has left [task_models] and the events alone, and has buffered the
    workflow data exactly when the hash has changed.  For a process
    without properties it raises [TypeError]. *)
Theorem update_bpmn_process_top_level (spiff_workflow : BpmnWorkflow)
    (bpmn_process : BpmnProcessModel) (s : ServiceState) :
  wf_outer spiff_workflow = None →
  (bp_properties_json bpmn_process = None →
   update_bpmn_process spiff_workflow bpmn_process s = Raise TypeError)
  ∧ ∀ u s',
      update_bpmn_process spiff_workflow bpmn_process s = Ok (u, s') →
      ∃ properties bpmn_process',
        bp_properties_json bpmn_process = Some properties
        ∧ bpmn_processes s'
          = <[bpmn_process_key bpmn_process := bpmn_process']> (bpmn_processes s)
        ∧ bp_properties_json bpmn_process'
          = Some (pp_with_last_task_and_success (wf_last_task spiff_workflow)
                    (wf_success spiff_workflow) properties)
        ∧ bp_json_data_hash bpmn_process' = Some (hash_of (wf_data spiff_workflow))
        ∧ bp_id bpmn_process' = bp_id bpmn_process
        ∧ bp_guid bpmn_process' = bp_guid bpmn_process
        ∧ task_models s' = task_models s
        ∧ process_instance_events s' = process_instance_events s
        ∧ json_data_dicts s'
          = if decide (bp_json_data_hash bpmn_process
                       = Some (hash_of (wf_data spiff_workflow)))
            then json_data_dicts s
            else <[hash_of (wf_data spiff_workflow) :=
                     {| jd_hash := hash_of (wf_data spiff_workflow);
                        jd_data := wf_data spiff_workflow |}]> (json_data_dicts s).
Proof.
  destruct spiff_workflow as [ref spec data last ok outer]. simpl. intros ->.
  unfold bind, deref, raise, ret, modify.
  destruct (bp_properties_json bpmn_process) as [properties|]; [|by split].
  split; [discriminate|].
  unfold update_task_data_on_bpmn_process. simpl.
  case_decide as Hne; simpl; intros u s' [= Hs']; subst s'; simpl.
  - rewrite decide_False by done. eexists _, _. split_and!; done.
  - rewrite decide_True by done. eexists _, _. split_and!; done.
Qed.

Lemma task_models_of_parent_bpmn_processes_rows db stop :
  ∀ fuel task_model bpmn_processes task_models,
    task_models_of_parent_bpmn_processes fuel db task_model stop
      = Some (Ok (bpmn_processes, task_models)) →
    Forall (λ b, b ∈ bpmn_process_rows db) bpmn_processes.
Proof.
  induction fuel as [|fuel IH]; intros task_model bs ts H; [discriminate|].
  rewrite task_models_of_parent_bpmn_processes_unfold in H.
  destruct (bpmn_process_of db task_model) as [b|] eqn:Hb; [|discriminate].
  apply bpmn_process_by_id_Some in Hb as (Hrow & _).
  assert (Forall (λ b, b ∈ bpmn_process_rows db) [b]) as Hone by (by constructor).
  destruct (bp_guid b) as [guid|]; [|by injection H as <- <-].
  cbv zeta in H.
  assert (match task_by_guid (task_rows db) guid with
          | Some parent =>
              match task_models_of_parent_bpmn_processes fuel db parent stop with
              | Some (Ok (b0, t)) =>
                  Some (Ok (b0 ++ [b], t ++ [task_by_guid (task_rows db) guid]))
              | other => other
              end
          | None => Some (Ok ([b], [task_by_guid (task_rows db) guid]))
          end = Some (Ok (bs, ts)) →
          Forall (λ b, b ∈ bpmn_process_rows db) bs) as Hascend.
  { destruct (task_by_guid (task_rows db) guid) as [parent|]; [|by intros [= <- <-]].
    destruct (task_models_of_parent_bpmn_processes fuel db parent stop)
      as [[[b0 t0]|e]|] eqn:Hrec; try discriminate.
    intros [= <- <-]. apply Forall_app. split; [|done]. by eapply IH. }
  destruct stop; simpl in H; [|by apply Hascend].
  destruct (task_by_guid (task_rows db) guid) as [parent|] eqn:Hparent; [|discriminate].
  destruct (task_definition_of db parent) as [td|]; [|discriminate].
  case_decide; [by apply Hascend|]. by injection H as <- <-.
Qed.

Lemma bpmn_identifiers_of_rows definitions (rows bpmn_processes : list BpmnProcessModel) :
  (∀ r, r ∈ rows → is_Some (bpmn_process_definition_of definitions r)) →
  Forall (λ b, b ∈ rows) bpmn_processes →
  ∃ identifiers,
    bpmn_identifiers_of definitions bpmn_processes = Ok identifiers
    ∧ Forall2 (λ b identifier, bpmn_identifier_of definitions b = Ok identifier)
        bpmn_processes identifiers.
Proof.
  intros Hdef. induction 1 as [|b l Hb Hl (ids & Hids & Hall)]; simpl.
  - exists []. split; [done|constructor].
  - destruct (Hdef b Hb) as [d Hd]. unfold bpmn_identifier_of at 1. rewrite Hd, Hids.
    exists (bpd_bpmn_identifier d :: ids). split; [done|]. constructor; [|done].
    unfold bpmn_identifier_of. by rewrite Hd.
Qed.

Lemma ascent_is_enclosing_chain db :
  references_resolve db →
  ∀ fuel task_model bpmn_processes task_models b0,
    task_models_of_parent_bpmn_processes fuel db task_model false
      = Some (Ok (bpmn_processes, task_models)) →
    bpmn_process_of db task_model = Some b0 →
    enclosing_chain db b0 bpmn_processes.
Proof.
  intros Href.
  induction fuel as [|fuel IH]; intros task_model bs ts b0 Hrun Hb0; [discriminate|].
  rewrite task_models_of_parent_bpmn_processes_unfold, Hb0 in Hrun.
  pose proof (bpmn_process_by_id_Some _ _ _ Hb0) as (Hrow & _).
  destruct (bp_guid b0) as [guid|] eqn:Hguid.
  2:{ injection Hrun as <- <-. by constructor. }
  cbv zeta in Hrun. simpl in Hrun.
  destruct (process_has_boundary_task db Href b0 guid Hrow Hguid) as [parent Hparent].
  rewrite Hparent in Hrun.
  destruct (task_models_of_parent_bpmn_processes fuel db parent false)
    as [[[bsr tsr]|e]|] eqn:Hrec; try discriminate.
  injection Hrun as <- <-.
  pose proof (task_by_guid_Some _ _ _ Hparent) as [Hprow _].
  destruct (task_has_bpmn_process db Href parent Hprow) as [outer Houter].
  eapply chain_nested; eauto.
Qed.

Lemma enclosing_chain_functional db b l l' :
  enclosing_chain db b l → enclosing_chain db b l' → l = l'.
Proof.
  intros H. revert l'. induction H as [b Htop|b guid boundary outer l Hguid Hb Ho Hl IH];
    intros l' H'; inversion H' as [b' Htop'|b' guid' boundary' outer' l0 Hguid' Hb' Ho' Hl'];
    subst; try congruence.
  f_equal. apply IH. congruence.
Qed.

(** X18: [full_bpmn_process_path] in a database whose references resolve
    and whose nesting has no cycle, every process having its definition.
    It returns the identifiers of the processes of the chain that leads
    from the top level process down to the given one, in that order, the
    identifier of the process itself last; for a process without guid
    that is the whole path. *)
Theorem full_bpmn_process_path_from_top_level (db : Database)
    (rank : BpmnProcessModel → nat) (definitions : list BpmnProcessDefinitionModel)
    (bpmn_process : BpmnProcessModel) :
  nesting_well_founded db rank →
  references_resolve db →
  (∀ r, r ∈ bpmn_process_rows db → is_Some (bpmn_process_definition_of definitions r)) →
  bpmn_process ∈ bpmn_process_rows db →
  ∃ fuel enclosing path,
    full_bpmn_process_path fuel db definitions bpmn_process = Some (Ok path)
    ∧ Forall2 (λ b identifier, bpmn_identifier_of definitions b = Ok identifier)
        (enclosing ++ [bpmn_process]) path
    ∧ match bp_guid bpmn_process with
      | Some guid =>
          if decide (guid = EmptyString) then enclosing = []
          else enclosing_chain db bpmn_process (enclosing ++ [bpmn_process])
      | None => enclosing = []
      end.
Proof.
  intros Hwf Href Hdef Hrow.
  assert (∀ enclosing,
            Forall (λ b, b ∈ bpmn_process_rows db) enclosing →
            ∃ path,
              bpmn_identifiers_of definitions (enclosing ++ [bpmn_process]) = Ok path
              ∧ Forall2 (λ b identifier, bpmn_identifier_of definitions b = Ok identifier)
                  (enclosing ++ [bpmn_process]) path) as Hpath.
  { intros enclosing Hen. apply (bpmn_identifiers_of_rows _ (bpmn_process_rows db)); [done|].
    apply Forall_app. split; [done|]. by constructor. }
  unfold full_bpmn_process_path.
  destruct (bp_guid bpmn_process) as [guid|] eqn:Hguid.
  2:{ destruct (Hpath [] (Forall_nil_2 _)) as (path & Hrun & Hall).
      exists 0%nat, [], path. rewrite Hrun. done. }
  case_decide as Hempty.
  { destruct (Hpath [] (Forall_nil_2 _)) as (path & Hrun & Hall).
    exists 0%nat, [], path. rewrite Hrun. done. }
  destruct (process_has_boundary_task db Href _ _ Hrow Hguid) as [task_model Htask].
  rewrite Htask.
  pose proof (task_by_guid_Some _ _ _ Htask) as [Htrow _].
  destruct (task_has_bpmn_process db Href _ Htrow) as [b' Hb'].
  destruct (ascent_of_ranked_process db rank false Hwf Href (S (rank b')) task_model b' Hb')
    as (bs & ts & Hrun & _); [lia|].
  pose proof (task_models_of_parent_bpmn_processes_rows _ _ _ _ _ _ Hrun) as Hrows.
  pose proof (ascent_is_enclosing_chain db Href _ _ _ _ _ Hrun Hb') as Hchain.
  destruct (Hpath bs Hrows) as (path & Hids & Hall).
  exists (S (rank b')), bs, path. rewrite Hrun, Hids.
  split; [done|]. split; [done|]. eapply chain_nested; eauto.
Qed.

(** X19: [add_tasks_to_bpmn_process] writes no speculative task and no
    task of spec ["Root"]: a key that is in [task_models] after the call
    was there before, or belongs to a task of the tasks dict that is
    neither. *)
Theorem add_tasks_to_bpmn_process_writes_no_speculative_task
    (tasks : list (string * TaskProperties)) (spiff_workflow : BpmnWorkflow)
    (bpmn_process : BpmnProcessModel) (s s' : ServiceState) :
  buffers_keyed s →
  add_tasks_to_bpmn_process tasks spiff_workflow bpmn_process s = Ok (tt, s') →
  ∀ k, is_Some (task_models s' !! k) →
       is_Some (task_models s !! k)
       ∨ ∃ task_id task_properties spiff_task,
           (task_id, task_properties) ∈ tasks
           ∧ tp_task_spec task_properties ≠ "Root"
           ∧ get_task_from_id env spiff_workflow task_id = Some spiff_task
           ∧ speculative spiff_task = false
           ∧ (k = task_id ∨ k = st_id spiff_task).
Proof.
  revert s. induction tasks as [|[task_id task_properties] tasks IH]; intros s Hk Hrun k Hin.
  { apply ret_Ok in Hrun as [_ ->]. by left. }
  pose proof Hrun as Hall. unfold add_tasks_to_bpmn_process in Hrun. simpl in Hrun.
  apply bind_Ok in Hrun as ([] & s1 & Hbody & Hrest).
  assert (buffers_keyed s1) as Hk1.
  { assert (add_tasks_to_bpmn_process [(task_id, task_properties)]
              spiff_workflow bpmn_process s = Ok (tt, s1)) as Hone.
    { unfold add_tasks_to_bpmn_process. simpl. apply bind_Ok. by exists tt, s1. }
    apply add_tasks_to_bpmn_process_quiet in Hone as (_ & _ & _ & Hone). auto. }
  destruct (IH s1 Hk1 Hrest k Hin) as [Hbefore|(id & props & t & Hmem & Hrest')].
  2:{ right. exists id, props, t. split; [by right|done]. }
  clear IH Hrest Hall Hin.
  case_decide as Hroot.
  { apply ret_Ok in Hbody as [_ ->]. by left. }
  apply bind_Ok in Hbody as (t & ? & H0 & Hbody). apply deref_Ok in H0 as [Ht ->].
  destruct (_has_state t (PREDICTED_MASK env)) eqn:Hspec.
  - left. unfold prune in Hbody.
    apply bind_Ok in Hbody as (s0 & ? & H0 & Hbody). apply get_state_Ok in H0 as [-> ->].
    apply bind_Ok in Hbody as (tms' & ? & H0 & Hbody). apply lift_result_Ok in H0 as [Hrm ->].
    apply modify_Ok in Hbody as ->. simpl in Hbefore.
    by eapply remove_spiff_task_from_parent_domain.
  - apply bind_Ok in Hbody as (s0 & ? & H0 & Hbody). apply get_state_Ok in H0 as [-> ->].
    apply bind_Ok in Hbody as (tm0 & s2 & Hfound & Hbody).
    apply bind_Ok in Hbody as (tm1 & s3 & Hupd & Hbody).
    apply modify_Ok in Hbody as ->. simpl in Hbefore.
    apply update_task_model_Ok in Hupd as (Hguid & _ & _ & _ & _ & _ & _ & Hframe).
    destruct Hframe as (_ & _ & _ & Htms & _).
    assert (s2 = s ∧ (tm_guid tm0 = task_id ∨ tm_guid tm0 = st_id t)) as [-> Hg].
    { destruct (session_task_by_guid s task_id) as [row|] eqn:Hq.
      - apply ret_Ok in Hfound as [-> ->]. split; [done|]. left.
        exact (session_task_by_guid_Some _ _ _ Hk Hq).
      - apply lift_result_Ok in Hfound as [Hcreate ->]. split; [done|]. right.
        unfold _create_task in Hcreate. case_match; [|discriminate].
        by injection Hcreate as <-. }
    destruct (decide (k = tm_guid tm1)) as [->|Hne].
    + right. exists task_id, task_properties, t. split; [left|].
      split; [done|]. split; [done|]. split; [done|]. rewrite Hguid. done.
    + left. rewrite lookup_insert_ne in Hbefore by done. by rewrite <- Htms.
Qed.

End TaskService.

(** * The claims on the example data *)

(** Goes through the members of a list given in full. *)
Ltac members H :=
  repeat (apply elem_of_cons in H as [->|H]); try (by apply elem_of_nil in H).

Lemma nested_database_well_founded : nesting_well_founded nested_database row_rank.
Proof.
  split.
  - intros parent child Hp Hc _ Hlink. members Hp; members Hc;
      vm_compute in Hlink; try discriminate; vm_compute; lia.
  - intros b guid t b' Hb Hguid Ht Hb'. members Hb; vm_compute in Hguid; try discriminate.
    all: injection Hguid as <-; vm_compute in Ht; injection Ht as <-;
         vm_compute in Hb'; injection Hb' as <-; vm_compute; lia.
Qed.

Lemma nested_database_references_resolve : references_resolve nested_database.
Proof.
  split.
  - intros t Ht. members Ht; vm_compute; eauto.
  - intros t Ht. members Ht; vm_compute; eauto.
  - intros b guid Hb Hguid. members Hb; vm_compute in Hguid; try discriminate.
    all: injection Hguid as <-; vm_compute; eauto.
Qed.

(** ** C1 *)

(** The claim fails when a speculative child is met before its parent is
    in [task_models]: [add_tasks_to_bpmn_process], given Y before its
    parent X, writes X with Y among its children. *)
Lemma speculative_child_listed_before_parent_stays :
  speculative sample task_y = true
  ∧ from_run
      (add_tasks_to_bpmn_process sample
         [("y", (task_to_dict task_y).1); ("x", (task_to_dict task_x).1)]
         top_workflow top_row fresh_service)
      (λ _ s',
         ∃ task_model properties,
           task_models s' !! "x" = Some task_model
           ∧ tm_properties_json task_model = Some properties
           ∧ "y" ∈ tp_children properties).
Proof.
  split; [reflexivity|].
  vm_compute. eexists _, _. split; [reflexivity|]. split; [reflexivity|].
  constructor.
Qed.

Lemma listed_tasks_parents_first : parents_listed_first listing_sample top_workflow listed_tasks.
Proof.
  split; [compute_done|].
  intros before item after t Hsplit [Hroot Hget].
  unfold listed_tasks in Hsplit.
  destruct before as [|i1 [|i2 [|i3 before]]]; simpl in Hsplit.
  4:{ injection Hsplit as _ _ _ Hsplit. by destruct before. }
  all: simplify_eq; vm_compute in Hget; injection Hget as <-.
  all: split; [reflexivity|]; intros Hspec; vm_compute in Hspec; try discriminate.
  - split; [compute_done|]. intros child Hchild. simpl in Hchild. members Hchild.
    + split; [reflexivity|]. intros _. split; [reflexivity|].
      eexists. split; [left|]. discriminate.
    + split; [reflexivity|]. intros Hs. vm_compute in Hs. discriminate.
  - split; [compute_done|]. intros child Hchild. simpl in Hchild.
    by apply elem_of_nil in Hchild.
Qed.

(** At the first pass of an instance the update of X creates the
    process, which adds the three tasks, and the descent prunes Y: the
    entry of X lists Z only, and Y has no entry. *)
Lemma first_pass_prunes :
  from_run (update_task_model_with_spiff_task listing_sample task_x None new_service)
    (λ _ s1,
       from_run (process_spiff_task_children listing_sample task_x s1)
         (λ _ s',
            (∃ task_model properties,
               task_models s' !! "x" = Some task_model
               ∧ tm_properties_json task_model = Some properties
               ∧ tp_children properties = ["z"])
            ∧ task_models s' !! "y" = None
            ∧ is_Some (task_models s' !! "z")
            ∧ length (bpmn_process_rows (db s')) = 1%nat)).
Proof.
  vm_compute. split_and!; try reflexivity; [|eauto].
  eexists _, _. split_and!; reflexivity.
Qed.

Lemma speculative_children_are_pruned_witness :
  from_run
    (add_tasks_to_bpmn_process listing_sample listed_tasks top_workflow top_row
       fresh_service)
    (λ _ s_added',
       (∀ item u,
          item ∈ listed_tasks → listed listing_sample top_workflow item u →
          speculative listing_sample u = false →
          pruned_entry listing_sample s_added' u)
       ∧ (∀ k, is_Some (task_models s_added' !! k) →
               is_Some (task_models fresh_service !! k)
               ∨ ∃ item u,
                   item ∈ listed_tasks ∧ listed listing_sample top_workflow item u
                   ∧ speculative listing_sample u = false ∧ st_id u = k))
  ∧ from_run (update_task_model_with_spiff_task listing_sample task_x None new_service)
      (λ _ s1,
         from_run (process_spiff_task_children listing_sample task_x s1)
           (λ _ s',
              (∀ u, u ∈ visited listing_sample task_x → pruned_entry listing_sample s' u)
              ∧ (∀ u, u ∈ subtree task_x → u ∉ visited listing_sample task_x →
                      task_models s' !! st_id u = task_models s1 !! st_id u)
              ∧ (process_persisted listing_sample new_service task_x →
                 ∀ u, u ∈ subtree task_x → u ∉ visited listing_sample task_x →
                      task_models s' !! st_id u = task_models new_service !! st_id u))).
Proof.
  split.
  - destruct (add_tasks_to_bpmn_process listing_sample listed_tasks top_workflow top_row
                fresh_service) as [[[] s_added']|e] eqn:E; [|vm_compute in E; discriminate].
    destruct (speculative_children_are_pruned listing_sample listed_tasks top_workflow
                top_row fresh_service s_added' task_x None new_service new_service
                new_service (task_row "x" 1 7)) as [Hadded _].
    apply Hadded; [apply TaskService_init_buffers_keyed|apply listed_tasks_parents_first|exact E].
  - destruct (update_task_model_with_spiff_task listing_sample task_x None new_service)
      as [[tm s1]|e] eqn:E1; [|vm_compute in E1; discriminate].
    cbv beta iota delta [from_run].
    destruct (process_spiff_task_children listing_sample task_x s1) as [[[] s']|e] eqn:E2.
    2:{ pose proof E1 as E. vm_compute in E. injection E as _ <-.
        vm_compute in E2. discriminate. }
    cbv beta iota.
    destruct (speculative_children_are_pruned listing_sample listed_tasks top_workflow
                top_row fresh_service fresh_service task_x None new_service s1 s' tm)
      as [_ Hwalk].
    apply Hwalk.
    + apply TaskService_init_buffers_keyed.
    + compute_done.
    + intros [[? Hin]|[? Hin]]; vm_compute in Hin; discriminate.
    + intros u Hu. vm_compute in Hu. members Hu; reflexivity.
    + compute_done.
    + intros parent child Hp Hc Hs. vm_compute in Hp. members Hp; vm_compute in Hc;
        members Hc; vm_compute in Hs; try discriminate; reflexivity.
    + exact E1.
    + exact E2.
Defined.

(** ** C2 *)

Lemma reset_task_model_keeps_python_env_data_hash_witness :
  match reset_task_model sample stale_task "READY" None None with
  | Ok task_model' =>
      tm_state task_model' = Some "READY"
      ∧ tm_start_in_seconds task_model' = None
      ∧ tm_end_in_seconds task_model' = None
      ∧ tm_json_data_hash task_model' = Some (hash_of sample empty_dict)
      ∧ tm_python_env_data_hash task_model' = tm_python_env_data_hash stale_task
  | Raise _ => False
  end.
Proof.
  destruct (reset_task_model sample stale_task "READY" None None) as [tm'|e] eqn:E;
    [|vm_compute in E; discriminate].
  exact (reset_task_model_keeps_python_env_data_hash sample stale_task tm' "READY" E).
Defined.

(** At this input the column keeps ["stale"], which is not the hash of
    the empty payload. *)
Lemma reset_task_model_stale_python_env_data_hash :
  match reset_task_model sample stale_task "READY" None None with
  | Ok task_model' =>
      tm_python_env_data_hash task_model' = Some "stale"
      ∧ tm_python_env_data_hash task_model' ≠ Some (hash_of sample empty_dict)
      ∧ tm_instance_attributes task_model' !! "python_env_data"
        = Some (hash_of sample empty_dict)
  | Raise _ => False
  end.
Proof. vm_compute. split_and!; [reflexivity|discriminate|reflexivity]. Qed.

(** ** C3 *)

Lemma change_detection_is_idempotent_witness :
  update_task_data_on_task_model_and_return_dict_if_updated sample
    (tm_with_json_data_hash (Some (hash_of sample unchanged_payload)) (task_row "z" 1 7))
    unchanged_payload "json_data_hash"
  = (tm_with_json_data_hash (Some (hash_of sample unchanged_payload)) (task_row "z" 1 7),
     None)
  ∧ update_task_data_on_bpmn_process sample
      (bp_with_json_data_hash (Some (hash_of sample unchanged_payload)) top_row)
      unchanged_payload
    = (bp_with_json_data_hash (Some (hash_of sample unchanged_payload)) top_row, None).
Proof.
  pose proof (change_detection_is_idempotent sample
    (tm_with_json_data_hash (Some (hash_of sample unchanged_payload)) (task_row "z" 1 7))
    (bp_with_json_data_hash (Some (hash_of sample unchanged_payload)) top_row)
    unchanged_payload "json_data_hash") as H.
  destruct H as (H1 & H2 & _); [reflexivity|reflexivity|]. by split.
Defined.

(** ** C4 *)

(** The claim fails for a process nested directly in the top level one:
    no subprocess is its outer workflow, and [add_bpmn_process] returns
    the new process with the top level process as direct parent. *)
Lemma nested_process_without_matching_context_completes :
  (∀ guid sp,
     (guid, sp) ∈ subprocesses sample (_get_outermost_workflow sub_workflow) →
     wf_eqb sp (outer_workflow sub_workflow) = false)
  ∧ creates_below fresh_service top_row (Some "c")
  ∧ from_run
      (add_bpmn_process sample (workflow_to_dict sample sub_workflow) sub_workflow
         (Some top_row) (Some "c") fresh_service)
      (λ b _, bp_direct_parent_process_id b = bp_id top_row).
Proof.
  split_and!.
  - intros guid sp H. vm_compute in H.
    apply elem_of_cons in H as [[= -> ->]|H]; [reflexivity|by apply elem_of_nil in H].
  - reflexivity.
  - vm_compute. reflexivity.
Qed.

Lemma add_bpmn_process_direct_parent_witness :
  ((∀ guid sp,
      (guid, sp) ∈ subprocesses sample (_get_outermost_workflow sub_workflow) →
      wf_eqb sp (outer_workflow sub_workflow) = false) →
   add_bpmn_process sample (workflow_to_dict sample sub_workflow) sub_workflow
     (Some top_row) (Some "c") fresh_service
     ≠ Raise BpmnProcessNotFoundError
   ∧ ∀ b s',
       add_bpmn_process sample (workflow_to_dict sample sub_workflow) sub_workflow
         (Some top_row) (Some "c") fresh_service = Ok (b, s') →
       bp_direct_parent_process_id b = bp_id top_row)
  ∧ (add_bpmn_process sample (workflow_to_dict sample sub_workflow) sub_workflow
       (Some top_row) (Some "c") fresh_service = Raise BpmnProcessNotFoundError →
     ∃ guid sp,
       (guid, sp) ∈ subprocesses sample (_get_outermost_workflow sub_workflow)
       ∧ wf_eqb sp (outer_workflow sub_workflow) = true
       ∧ bpmn_process_by_guid (bpmn_process_rows (db fresh_service)) guid = None).
Proof.
  apply (add_bpmn_process_direct_parent sample (workflow_to_dict sample sub_workflow)
           sub_workflow top_row (Some "c") fresh_service).
  reflexivity.
Defined.

(** ** C5 *)

(** The claim fails for an end time of zero: it is there, yet the event
    gets the start time. *)
Lemma completed_task_with_end_time_zero_gets_start_time :
  from_run
    (update_task_model_with_spiff_task sample task_x
       (Some {| start_in_seconds := Some 5; end_in_seconds := Some 0 |}) fresh_service)
    (λ task_model s',
       tm_state task_model = Some "COMPLETED"
       ∧ tm_end_in_seconds task_model = Some 0
       ∧ ∃ ev, process_instance_events s' !! "x" = Some ev ∧ ev_timestamp ev = 5).
Proof.
  vm_compute. split_and!; [reflexivity|reflexivity|].
  eexists. split; reflexivity.
Qed.

Lemma update_task_model_with_spiff_task_event_witness :
  from_run (update_task_model_with_spiff_task sample task_x None fresh_service)
    (λ task_model s',
       tm_state task_model = TaskStateNames sample (st_state task_x)
       ∧ (tm_state task_model = Some "COMPLETED" →
          process_instance_events s' =
            <[tm_guid task_model :=
                {| ev_process_instance_id := pi_id (process_instance fresh_service);
                   ev_event_type := task_completed sample;
                   ev_task_guid := tm_guid task_model;
                   ev_timestamp :=
                     timestamp_of task_model (time_time sample (clock fresh_service)) |}]>
              (process_instance_events fresh_service))
       ∧ (tm_state task_model ≠ Some "COMPLETED" →
          process_instance_events s' = process_instance_events fresh_service)).
Proof.
  destruct (update_task_model_with_spiff_task sample task_x None fresh_service)
    as [[tm s']|e] eqn:E; [|vm_compute in E; discriminate].
  exact (update_task_model_with_spiff_task_event sample task_x None fresh_service s' tm E).
Defined.

(** ** C6 *)

Lemma payload_a_b_keys_unique : dict_keys_unique payload_a_b.
Proof.
  apply dku_dict; [compute_done|].
  apply Forall_cons; split; [apply dku_int|].
  apply Forall_cons; split; [|apply Forall_nil_2].
  apply dku_dict; [compute_done|].
  apply Forall_cons; split; [apply dku_null|].
  apply Forall_cons; split; [apply dku_bool|]. apply Forall_nil_2.
Qed.

Lemma payload_a_b_same_as_b_a : same_payload payload_a_b payload_b_a.
Proof.
  apply (sp_dict _ [("b", JDict [("x", JNull); ("y", JBool true)]); ("a", JInt 1)]);
    [apply perm_swap|].
  apply Forall2_cons; split.
  - split; [reflexivity|]. simpl.
    apply (sp_dict _ [("y", JBool true); ("x", JNull)]); [apply perm_swap|].
    apply Forall2_cons; split; [split; [reflexivity|apply sp_bool]|].
    apply Forall2_cons; split; [split; [reflexivity|apply sp_null]|]. apply Forall2_nil_2.
  - apply Forall2_cons; split; [split; [reflexivity|apply sp_int]|]. apply Forall2_nil_2.
Qed.

Lemma hash_of_same_payload_witness :
  hash_of sample payload_a_b = sha256_hexdigest sample (dumps sample payload_a_b)
  ∧ hash_of sample payload_a_b = hash_of sample payload_b_a
  ∧ ∀ task_model column,
      (update_task_data_on_task_model_and_return_dict_if_updated sample
         task_model payload_a_b column).1
      = (update_task_data_on_task_model_and_return_dict_if_updated sample
           task_model payload_b_a column).1.
Proof.
  exact (hash_of_same_payload sample payload_a_b payload_b_a
           payload_a_b_keys_unique payload_a_b_same_as_b_a).
Defined.

(** ** C7 *)

Lemma task_models_of_parent_bpmn_processes_outermost_first_witness :
  ∃ fuel bpmn_processes task_models,
    task_models_of_parent_bpmn_processes fuel nested_database (task_row "C" 3 3) true
      = Some (Ok (bpmn_processes, map Some task_models))
    ∧ outermost_first nested_database (task_row "C" 3 3) bpmn_processes task_models
    ∧ ends_at nested_database true bpmn_processes task_models.
Proof.
  apply (task_models_of_parent_bpmn_processes_outermost_first nested_database row_rank
           (task_row "C" 3 3) true
           nested_database_well_founded nested_database_references_resolve).
  vm_compute. eauto.
Defined.

(** ** C8 *)


(** The pass for the task S of the nested workflow goes up to the task C
    that stands for that workflow, and flushes. *)
Lemma nested_pass_flushes :
  match process_parents_and_children_and_save_to_database nested_sample 2 task_s
          fresh_service with
  | Some (Ok (statements, s')) =>
      is_Some (task_models s' !! "c") ∧ length statements = 4%nat
  | _ => False
  end.
Proof. vm_compute. split; [eauto|reflexivity]. Qed.


(** ** C9 *)

(** The claim fails for [reset_task_model] with the name of a mask:
    [TaskState] has a number under it, [TaskStateNames] has no name for
    that number. *)
Lemma reset_task_model_to_mask_name_mismatch :
  match reset_task_model sample stale_task "PREDICTED_MASK" None None with
  | Ok task_model' =>
      tm_state task_model' = Some "PREDICTED_MASK"
      ∧ (∃ properties,
           tm_properties_json task_model' = Some properties
           ∧ tp_state properties = 3
           ∧ TaskStateNames sample (tp_state properties) = None)
      ∧ ¬ state_matches_properties sample task_model'
  | Raise _ => False
  end.
Proof.
  destruct (reset_task_model sample stale_task "PREDICTED_MASK" None None)
    as [tm'|e] eqn:E; [|vm_compute in E; discriminate].
  vm_compute in E. injection E as <-. split_and!.
  - reflexivity.
  - eexists. split_and!; reflexivity.
  - intros (properties & name & Hp & Hn & Hs). simpl in Hp. injection Hp as <-.
    vm_compute in Hn. discriminate.
Qed.

Lemma task_state_writes_match_properties_witness :
  from_run (update_task_model sample (task_row "x" 1 7) task_x fresh_service)
    (λ task_model' _,
       state_matches_properties sample task_model'
       ∧ ∃ properties,
           tm_properties_json task_model' = Some properties
           ∧ tp_state properties = st_state task_x
           ∧ tp_task_spec properties = st_task_spec task_x
           ∧ (tp_task_spec properties = "Start" → tp_parent properties = None))
  ∧ match reset_task_model sample stale_task "READY" None None with
    | Ok task_model' => state_matches_properties sample task_model'
    | Raise _ => False
    end.
Proof.
  split.
  - destruct (update_task_model sample (task_row "x" 1 7) task_x fresh_service)
      as [[tm' s']|e] eqn:E; [|vm_compute in E; discriminate].
    destruct (task_state_writes_match_properties sample (task_row "x" 1 7) task_x
                fresh_service "READY" None None ∅) as (Hupdate & _).
    exact (Hupdate tm' s' E).
  - destruct (reset_task_model sample stale_task "READY" None None)
      as [tm'|e] eqn:E; [|vm_compute in E; discriminate].
    destruct (task_state_writes_match_properties sample stale_task task_x
                fresh_service "READY" None None ∅) as (_ & Hreset & _).
    destruct (Hreset tm' E) as (properties & n & _ & Hn & _ & _ & Hiff).
    apply Hiff. vm_compute in Hn. injection Hn as <-. reflexivity.
Defined.

(** ** C10 *)

Lemma bpmn_process_and_descendants_prefix_witness :
  ∃ fuel descendants,
    bpmn_process_and_descendants fuel nested_database [top_row]
      = Some ([top_row] ++ descendants)
    ∧ Forall (descends_from nested_database [top_row]) descendants
    ∧ ((∀ r, r ∈ bpmn_process_rows nested_database →
             direct_parent_in (map bp_id [top_row]) r = false) →
       descendants = []).
Proof.
  exact (bpmn_process_and_descendants_prefix nested_database row_rank [top_row]
           nested_database_well_founded).
Defined.

(** * The further properties on the example data *)

Lemma remove_spiff_task_from_parent_unbuffered_witness :
  remove_spiff_task_from_parent task_y (∅ : gmap string TaskModel) = Ok ∅.
Proof.
  apply (remove_spiff_task_from_parent_unbuffered task_y "x"); reflexivity.
Defined.

Lemma remove_spiff_task_from_parent_entry_witness :
  match remove_spiff_task_from_parent task_y {["x" := parent_entry]} with
  | Ok task_models' =>
      (∀ k, k ≠ "x" → task_models' !! k = ({["x" := parent_entry]} : gmap string TaskModel) !! k)
      ∧ ∃ task_model' properties',
          task_models' !! "x" = Some task_model'
          ∧ tm_properties_json task_model' = Some properties'
          ∧ tp_children properties'
            = list_remove (st_id task_y) (tp_children (task_to_dict task_x).1)
          ∧ tp_parent properties' = tp_parent (task_to_dict task_x).1
          ∧ tp_state properties' = tp_state (task_to_dict task_x).1
          ∧ tp_task_spec properties' = tp_task_spec (task_to_dict task_x).1
          ∧ tm_guid task_model' = tm_guid parent_entry
          ∧ tm_state task_model' = tm_state parent_entry
          ∧ tm_json_data_hash task_model' = tm_json_data_hash parent_entry
          ∧ tm_python_env_data_hash task_model' = tm_python_env_data_hash parent_entry
          ∧ (st_id task_y ∈ tp_children (task_to_dict task_x).1 →
             S (length (tp_children properties'))
             = length (tp_children (task_to_dict task_x).1))
          ∧ (NoDup (tp_children (task_to_dict task_x).1) →
             st_id task_y ∉ tp_children properties')
  | Raise _ => False
  end.
Proof.
  destruct (remove_spiff_task_from_parent task_y {["x" := parent_entry]})
    as [task_models'|e] eqn:E; [|vm_compute in E; discriminate].
  apply (remove_spiff_task_from_parent_entry task_y "x" {["x" := parent_entry]}
           task_models' parent_entry (task_to_dict task_x).1);
    [reflexivity|by vm_compute|reflexivity|exact E].
Defined.

Lemma bpmn_process_and_descendants_complete_witness :
  ∃ fuel result,
    bpmn_process_and_descendants fuel nested_database [top_row] = Some result
    ∧ ∀ r, r ∈ result ↔ r ∈ [top_row] ∨ descends_from nested_database [top_row] r.
Proof.
  exact (bpmn_process_and_descendants_complete nested_database row_rank [top_row]
           nested_database_well_founded).
Defined.

Lemma task_models_of_parent_bpmn_processes_without_boundary_task_witness :
  task_models_of_parent_bpmn_processes 1 dangling_database (task_row "C" 2 3) false
    = Some (Ok ([nested_row 2 "A" 1], [None]))
  ∧ task_models_of_parent_bpmn_processes 1 dangling_database (task_row "C" 2 3) true
    = Some (Raise AttributeError)
  ∧ bpmn_process_for_called_activity_or_top_level_process 1 dangling_database
      (task_row "C" 2 3)
    = Some (Raise AttributeError).
Proof.
  apply (task_models_of_parent_bpmn_processes_without_boundary_task 0 dangling_database
           (task_row "C" 2 3) (nested_row 2 "A" 1) "A"); reflexivity.
Defined.

Lemma bpmn_process_for_called_activity_or_top_level_process_returns_witness :
  ∃ fuel bpmn_process,
    bpmn_process_for_called_activity_or_top_level_process fuel nested_database
      (task_row "C" 3 3) = Some (Ok bpmn_process)
    ∧ called_from nested_database (nested_row 3 "B" 2) bpmn_process
    ∧ (bp_guid bpmn_process = None
       ∨ ∃ guid caller,
           bp_guid bpmn_process = Some guid
           ∧ task_by_guid (task_rows nested_database) guid = Some caller
           ∧ is_call_activity nested_database caller).
Proof.
  apply (bpmn_process_for_called_activity_or_top_level_process_returns nested_database
           row_rank (task_row "C" 3 3) (nested_row 3 "B" 2)
           nested_database_well_founded nested_database_references_resolve).
  reflexivity.
Defined.

Lemma pass_of_top_level_task_witness :
  process_spiff_task_parent_subprocess_tasks sample 1 task_x fresh_service
    = Some (Ok (tt, fresh_service))
  ∧ process_parents_and_children_and_save_to_database sample 1 task_x fresh_service
    = match process_spiff_task_children sample task_x fresh_service with
      | Ok (_, s1) => Some (Ok (save_objects_to_database sample s1, s1))
      | Raise e => Some (Raise e)
      end.
Proof.
  apply (pass_of_top_level_task sample 0 task_x fresh_service). reflexivity.
Defined.

Lemma update_task_model_keeps_times_witness :
  update_task_model sample (task_row "x" 1 7)
    (mkSpiffTask "w" (Some "x") 3 "W" (JDict []) top_workflow []) fresh_service
  = Raise KeyError
  ∧ from_run (update_task_model sample (task_row "x" 1 7) task_x fresh_service)
      (λ task_model' s',
         tm_start_in_seconds task_model' = tm_start_in_seconds (task_row "x" 1 7)
         ∧ tm_end_in_seconds task_model' = tm_end_in_seconds (task_row "x" 1 7)
         ∧ tm_guid task_model' = tm_guid (task_row "x" 1 7)
         ∧ tm_bpmn_process_id task_model' = tm_bpmn_process_id (task_row "x" 1 7)
         ∧ only_json_data_buffered fresh_service s').
Proof.
  split.
  - apply (update_task_model_keeps_times sample (task_row "x" 1 7)
             (mkSpiffTask "w" (Some "x") 3 "W" (JDict []) top_workflow []) fresh_service).
    reflexivity.
  - destruct (update_task_model sample (task_row "x" 1 7) task_x fresh_service)
      as [[tm' s']|e] eqn:E; [|vm_compute in E; discriminate].
    destruct (update_task_model_keeps_times sample (task_row "x" 1 7) task_x fresh_service)
      as [_ Hkeeps].
    exact (Hkeeps tm' s' E).
Defined.

Lemma update_task_model_is_idempotent_witness :
  from_run (update_task_model sample (task_row "x" 1 7) task_x fresh_service)
    (λ task_model' s',
       update_task_model sample task_model' task_x s' = Ok (task_model', s')).
Proof.
  destruct (update_task_model sample (task_row "x" 1 7) task_x fresh_service)
    as [[tm' s']|e] eqn:E; [|vm_compute in E; discriminate].
  exact (update_task_model_is_idempotent sample (task_row "x" 1 7) tm' task_x
           fresh_service s' E).
Defined.

Lemma update_task_model_with_spiff_task_applies_times_witness :
  from_run
    (update_task_model_with_spiff_task sample task_x
       (Some {| start_in_seconds := Some 5; end_in_seconds := Some 9 |}) fresh_service)
    (λ task_model s',
       tm_guid task_model = st_id task_x
       ∧ task_models s' !! st_id task_x = Some task_model
       ∧ tm_start_in_seconds task_model = Some 5
       ∧ tm_end_in_seconds task_model = Some 9).
Proof.
  destruct (update_task_model_with_spiff_task sample task_x
              (Some {| start_in_seconds := Some 5; end_in_seconds := Some 9 |})
              fresh_service) as [[tm s']|e] eqn:E; [|vm_compute in E; discriminate].
  exact (update_task_model_with_spiff_task_applies_times sample task_x
           (Some {| start_in_seconds := Some 5; end_in_seconds := Some 9 |})
           fresh_service s' tm
           (TaskService_init_buffers_keyed _ _) E).
Defined.

Lemma top_level_task_never_raises_BpmnProcessNotFoundError_witness :
  never_raises BpmnProcessNotFoundError
    (update_task_model_with_spiff_task sample task_x None)
  ∧ ∀ bpmn_process_dict spiff_workflow bpmn_process_guid,
      never_raises BpmnProcessNotFoundError
        (add_bpmn_process sample bpmn_process_dict spiff_workflow None bpmn_process_guid).
Proof.
  apply (top_level_task_never_raises_BpmnProcessNotFoundError sample task_x None).
  reflexivity.
Defined.

Lemma add_bpmn_process_properties_witness :
  from_run
    (add_bpmn_process sample (workflow_to_dict sample sub_workflow) sub_workflow
       (Some top_row) (Some "c") fresh_service)
    (λ bpmn_process _,
       bp_json_data_hash bpmn_process
       = Some (hash_of sample (wd_data (workflow_to_dict sample sub_workflow)))
       ∧ ∃ properties,
           bp_properties_json bpmn_process = Some properties
           ∧ pp_last_task properties
             = pp_last_task (wd_properties (workflow_to_dict sample sub_workflow))
           ∧ pp_success properties
             = pp_success (wd_properties (workflow_to_dict sample sub_workflow))
           ∧ pp_others properties
             = pp_others (wd_properties (workflow_to_dict sample sub_workflow))
           ∧ pp_root properties =
               match last_start_task (wd_tasks (workflow_to_dict sample sub_workflow)) with
               | Some item => Some item.1
               | None => pp_root (wd_properties (workflow_to_dict sample sub_workflow))
               end).
Proof.
  destruct (add_bpmn_process sample (workflow_to_dict sample sub_workflow) sub_workflow
              (Some top_row) (Some "c") fresh_service) as [[b s']|e] eqn:E;
    [|vm_compute in E; discriminate].
  exact (add_bpmn_process_properties sample (workflow_to_dict sample sub_workflow)
           sub_workflow (Some top_row) (Some "c") fresh_service s' b E).
Defined.

Lemma update_bpmn_process_top_level_witness :
  update_bpmn_process sample top_workflow
    {| bp_id := Some 1; bp_guid := None; bp_top_level_process_id := None;
       bp_direct_parent_process_id := None; bp_bpmn_process_definition_id := Some 3;
       bp_properties_json := None; bp_json_data_hash := None |} fresh_service
  = Raise TypeError
  ∧ from_run (update_bpmn_process sample top_workflow top_row fresh_service)
    (λ _ s',
       ∃ properties bpmn_process',
         bp_properties_json top_row = Some properties
         ∧ bpmn_processes s'
           = <[bpmn_process_key top_row := bpmn_process']> (bpmn_processes fresh_service)
         ∧ bp_properties_json bpmn_process'
           = Some (pp_with_last_task_and_success (wf_last_task top_workflow)
                     (wf_success top_workflow) properties)
         ∧ bp_json_data_hash bpmn_process' = Some (hash_of sample (wf_data top_workflow))
         ∧ bp_id bpmn_process' = bp_id top_row
         ∧ bp_guid bpmn_process' = bp_guid top_row
         ∧ task_models s' = task_models fresh_service
         ∧ process_instance_events s' = process_instance_events fresh_service
         ∧ json_data_dicts s'
           = if decide (bp_json_data_hash top_row
                        = Some (hash_of sample (wf_data top_workflow)))
             then json_data_dicts fresh_service
             else <[hash_of sample (wf_data top_workflow) :=
                      {| jd_hash := hash_of sample (wf_data top_workflow);
                         jd_data := wf_data top_workflow |}]>
                    (json_data_dicts fresh_service)).
Proof.
  split.
  { apply (update_bpmn_process_top_level sample top_workflow
             {| bp_id := Some 1; bp_guid := None; bp_top_level_process_id := None;
                bp_direct_parent_process_id := None;
                bp_bpmn_process_definition_id := Some 3;
                bp_properties_json := None; bp_json_data_hash := None |} fresh_service
             eq_refl).
    reflexivity. }
  destruct (update_bpmn_process sample top_workflow top_row fresh_service)
    as [[u s']|e] eqn:E; [|vm_compute in E; discriminate].
  destruct (update_bpmn_process_top_level sample top_workflow top_row fresh_service
              eq_refl) as [_ H].
  exact (H u s' E).
Defined.

Lemma full_bpmn_process_path_from_top_level_witness :
  ∃ fuel enclosing path,
    full_bpmn_process_path fuel nested_database process_definitions (nested_row 3 "B" 2)
      = Some (Ok path)
    ∧ Forall2 (λ b identifier, bpmn_identifier_of process_definitions b = Ok identifier)
        (enclosing ++ [nested_row 3 "B" 2]) path
    ∧ enclosing_chain nested_database (nested_row 3 "B" 2)
        (enclosing ++ [nested_row 3 "B" 2]).
Proof.
  apply (full_bpmn_process_path_from_top_level nested_database row_rank
           process_definitions (nested_row 3 "B" 2)
           nested_database_well_founded nested_database_references_resolve).
  - intros r Hr. members Hr; vm_compute; eauto.
  - apply elem_of_cons. right. apply elem_of_cons. right. apply elem_of_cons. by left.
Defined.

Lemma add_tasks_to_bpmn_process_writes_no_speculative_task_witness :
  from_run
    (add_tasks_to_bpmn_process sample
       [("y", (task_to_dict task_y).1); ("x", (task_to_dict task_x).1)]
       top_workflow top_row fresh_service)
    (λ _ s',
       ∀ k, is_Some (task_models s' !! k) →
            is_Some (task_models fresh_service !! k)
            ∨ ∃ task_id task_properties spiff_task,
                (task_id, task_properties)
                  ∈ [("y", (task_to_dict task_y).1); ("x", (task_to_dict task_x).1)]
                ∧ tp_task_spec task_properties ≠ "Root"
                ∧ get_task_from_id sample top_workflow task_id = Some spiff_task
                ∧ speculative sample spiff_task = false
                ∧ (k = task_id ∨ k = st_id spiff_task)).
Proof.
  destruct (add_tasks_to_bpmn_process sample
              [("y", (task_to_dict task_y).1); ("x", (task_to_dict task_x).1)]
              top_workflow top_row fresh_service) as [[[] s']|e] eqn:E;
    [|vm_compute in E; discriminate].
  exact (add_tasks_to_bpmn_process_writes_no_speculative_task sample
           [("y", (task_to_dict task_y).1); ("x", (task_to_dict task_x).1)]
           top_workflow top_row fresh_service s'
           (TaskService_init_buffers_keyed _ _) E).
Defined.
